(** * shoppingNow-backend: order and inventory consistency engine

    A shallow embedding of the Mongoose models (product, cart, order), of the
    cart and order controllers and of the SKU helper, with the properties the
    specification states about them.

    Conventions of the embedding.
    - A JavaScript [Number] holding a count, a price or a timestamp is an
      integer [Z] (prices in the smallest currency unit, times in
      milliseconds); floating-point rounding is outside the model.
    - A MongoDB collection is the list of its documents in insertion order;
      [findOne] returns the first match.
    - An [ObjectId] is the string its [toString()] prints; the id string of
      a request is cast to one where the schema asks for it.
    - [Math.random()] is a stream of rationals read through a cursor;
      [Date.now()] is an argument [now].
    - A Mongoose [save] of a loaded document runs validation, then the
      [pre('save')] hooks of the schema, then writes the document back by
      [_id].  Direct store updates ([findOneAndUpdate], [bulkWrite]) run neither
      validators nor [pre('save')] hooks. *)

From Stdlib Require Import ZArith QArith Qround DecimalString Ascii.
From stdpp Require Import base numbers option list strings gmap fin_maps.

#[local] Open Scope string_scope.
#[local] Open Scope Z_scope.

(** ** JavaScript primitives used by the sources *)

Module Js.

(** [Number.prototype.toString()] on an integer value. *)
Definition toString (n : Z) : string := NilZero.string_of_int (Z.to_int n).

Fixpoint repeatChar (n : nat) (c : ascii) : string :=
  match n with
  | O => ""
  | S k => String c (repeatChar k c)
  end.

(** [s.padStart(len, c)] for a one-character filler. *)
Definition padStart (len : nat) (c : ascii) (s : string) : string :=
  repeatChar (len - String.length s) c +:+ s.

(** [String.fromCharCode(n)] for a code in the ASCII range. *)
Definition fromCharCode (n : nat) : string := String (ascii_of_nat n) "".

Definition upperChar (c : ascii) : ascii :=
  let n := nat_of_ascii c in
  if (Nat.leb 97 n && Nat.leb n 122)%bool then ascii_of_nat (n - 32) else c.

(** [s.toUpperCase()] on ASCII text. *)
Fixpoint toUpperCase (s : string) : string :=
  match s with
  | EmptyString => ""
  | String c r => String (upperChar c) (toUpperCase r)
  end.

(** Truthiness of a string-or-null value: [null], [undefined] and [""] are
    falsy. *)
Definition truthyStr (s : option string) : bool :=
  match s with
  | None => false
  | Some v => negb (String.eqb v "")
  end.

(** The UTC calendar date of the instant [ms] (milliseconds since the
    epoch) as year, month, day: the proleptic Gregorian calendar that
    [Date.prototype.toISOString] prints. *)
Definition civil (ms : Z) : Z * Z * Z :=
  let z := ms / 86400000 + 719468 in
  let era := z / 146097 in
  let doe := z - era * 146097 in
  let yoe := (doe - doe / 1460 + doe / 36524 - doe / 146096) / 365 in
  let doy := doe - (365 * yoe + yoe / 4 - yoe / 100) in
  let mp := (5 * doy + 2) / 153 in
  let d := doy - (153 * mp + 2) / 5 + 1 in
  let m := if mp <? 10 then mp + 3 else mp - 9 in
  let y := yoe + era * 400 + (if m <=? 2 then 1 else 0) in
  (y, m, d).

(** [new Date(ms).toISOString().slice(0, 10).replace(/-/g, '')] for a
    year between 0 and 9999. *)
Definition isoDateCompact (ms : Z) : string :=
  let '(y, m, d) := civil ms in
  padStart 4 "0"%char (toString y) +:+ padStart 2 "0"%char (toString m)
  +:+ padStart 2 "0"%char (toString d).

Definition isSpace (c : ascii) : bool :=
  let n := nat_of_ascii c in
  (Nat.leb 9 n && Nat.leb n 13)%bool || Nat.eqb n 32.

(** [s.trim() !== ""] on ASCII text: some character is not white space. *)
Fixpoint nonBlank (s : string) : bool :=
  match s with
  | EmptyString => false
  | String c r => negb (isSpace c) || nonBlank r
  end.

(** [Math.floor(Math.random() * k)] on the draw [r]. *)
Definition floorScaled (r : Q) (k : Z) : Z := Qfloor (r * inject_Z k).

(** The stream of values returned by successive [Math.random()] calls. *)
Definition Random := nat -> Q.

End Js.

(** ** MongoDB object ids

    A document id, and a reference to one, is an [ObjectId]; the sources
    read it back with [toString()], which prints its 24 hexadecimal digits
    in lower case, and ids are kept here as that string.  A request names an
    id by a string, which Mongoose casts to an [ObjectId] where the schema
    asks for one.  Request payloads are validated before they reach the
    handlers, so the string is well-formed (24 hexadecimal digits, in
    either case) and the cast can only change the case of its letters.

    Where a handler only looks a document up by the id of a request, or
    copies that id into a new document, the request is taken to spell the id
    as it is printed.  [addtoCart] compares the spelling of the request
    with the stored ids and then stores the id it casts to, and is modelled
    with the cast. *)

Module ObjectId.

Definition lowerHex (c : ascii) : ascii :=
  let n := nat_of_ascii c in
  if (Nat.leb 65 n && Nat.leb n 70)%bool then ascii_of_nat (n + 32) else c.

(** [new ObjectId(s).toString()] for a well-formed [s]. *)
Fixpoint canonical (s : string) : string :=
  match s with
  | EmptyString => ""
  | String c r => String (lowerHex c) (canonical r)
  end.

End ObjectId.

(** ** Exceptions and handler outcomes

    [ApiError] is the application's own error class; the other constructors
    are what Mongoose, the MongoDB driver and the JavaScript runtime throw. *)

Inductive Exception : Type :=
| ApiError (statusCode : Z) (message : string)
| ValidationError
| DuplicateKeyError
| TypeError.

(** What a request handler does with the response object: it sends a success
    payload, it sends an error status itself (handlers with a [try]/[catch]),
    or it lets an exception escape to [asyncHandler].  [message] is the
    third argument of [new ApiResponse(statusCode, data, message)]; it is
    [None] for a success payload written without one. *)
Inductive Outcome (A : Type) : Type :=
| Respond (statusCode : Z) (data : A) (message : option string)
| RespondError (statusCode : Z) (message : string)
| Throw (e : Exception).

Arguments Respond {A} statusCode data message.
Arguments RespondError {A} statusCode message.
Arguments Throw {A} e.

(** Generic list operations standing for array methods and store writes. *)

Section Arrays.
Context {A : Type}.

(** [arr.findIndex(P)], with [None] for [-1]. *)
Fixpoint findIndex (P : A -> bool) (l : list A) : option nat :=
  match l with
  | [] => None
  | x :: r => if P x then Some O else S <$> findIndex P r
  end.

(** Rewrite the first element satisfying [P]: an [updateOne] on a
    collection, or a mutation of the element returned by [arr.find]. *)
Fixpoint updateFirst (P : A -> bool) (f : A -> A) (l : list A) : list A :=
  match l with
  | [] => []
  | x :: r => if P x then f x :: r else x :: updateFirst P f r
  end.
End Arrays.

(** ** product.model.js and generateRandomSKU.js *)

Module ProductModel.

Inductive PRODUCT_STATUS := ACTIVE | DRAFT | OUT_OF_STOCK | DISCONTINUED.

#[global] Instance PRODUCT_STATUS_eq_dec : EqDecision PRODUCT_STATUS.
Proof. solve_decision. Defined.

Record Product := mkProduct {
  _id : string;
  name : string;
  sellingPrice : option Z;
  stock : Z;
  lowStockThreshold : Z;
  status : PRODUCT_STATUS;
  sku : option string;
  isDeleted : bool;
  updatedAt : Z
}.

Definition set_stock (p : Product) (v : Z) : Product :=
  mkProduct (_id p) (name p) (sellingPrice p) v (lowStockThreshold p)
            (status p) (sku p) (isDeleted p) (updatedAt p).

Definition set_status (p : Product) (v : PRODUCT_STATUS) : Product :=
  mkProduct (_id p) (name p) (sellingPrice p) (stock p) (lowStockThreshold p)
            v (sku p) (isDeleted p) (updatedAt p).

Definition set_sku (p : Product) (v : option string) : Product :=
  mkProduct (_id p) (name p) (sellingPrice p) (stock p) (lowStockThreshold p)
            (status p) v (isDeleted p) (updatedAt p).

Definition set_updatedAt (p : Product) (v : Z) : Product :=
  mkProduct (_id p) (name p) (sellingPrice p) (stock p) (lowStockThreshold p)
            (status p) (sku p) (isDeleted p) v.

(** *** Virtuals *)

Definition isInStock (p : Product) : bool :=
  (0 <? stock p) && negb (bool_decide (status p = OUT_OF_STOCK)).

Definition isLowStock (p : Product) : bool :=
  (stock p <=? lowStockThreshold p) && (0 <? stock p).

Definition stockStatus (p : Product) : string :=
  if stock p <=? lowStockThreshold p then "low-stock"
  else if (stock p =? 0) || bool_decide (status p = OUT_OF_STOCK)
       then "out-of-stock"
       else "in-stock".

(** *** First [pre('save')] hook, the stock-driven status flip

    [stockModified] is [this.isModified("stock")].  The two [if]s run in
    sequence on the same document. *)
Definition preSaveStatus (stockModified : bool) (p : Product) : Product :=
  if stockModified then
    let p1 :=
      if (stock p =? 0) && bool_decide (status p = ACTIVE)
      then set_status p OUT_OF_STOCK else p in
    if (0 <? stock p1) && bool_decide (status p1 = OUT_OF_STOCK)
    then set_status p1 ACTIVE else p1
  else p.

(** *** [methods.updateStock(quantity, op = "set")]

    The method mutates [this.stock] and returns it; the embedding returns
    the mutated document, whose [stock] is the returned value. *)
Definition updateStock (p : Product) (quantity : Z) (op : string) : Product :=
  if String.eqb op "add" then set_stock p (stock p + quantity)
  else if String.eqb op "subtract" then set_stock p (Z.max 0 (stock p - quantity))
  else set_stock p (Z.max 0 quantity).

(** The stock hook as [product.save()] runs it on a document loaded from
    the store as [loaded] and since assigned into [p]: [isModified("stock")]
    holds when the value of [stock] differs from the loaded one, so an
    assignment of the value the document already had marks nothing. *)
Definition saveStatus (loaded p : Product) : Product :=
  preSaveStatus (negb (stock loaded =? stock p)) p.

(** A run of [updateStock(q, "subtract")] calls on one document. *)
Definition subtractAll (p : Product) (qs : list Z) : Product :=
  fold_left (fun acc q => updateStock acc q "subtract") qs p.

(** *** [statics.bulkUpdateStock(items)] *)

Record StockItem := mkStockItem { item_id : string; quantity : Z }.

(** [{_id: ..., isDeleted: ...}] *)
Record Filter := mkFilter { filter_id : string; filter_isDeleted : bool }.

(** [{$inc: {stock: ...}, $set: {updatedAt: ...}}]; the update document has
    no other operator and names no other field. *)
Record Update := mkUpdate { inc_stock : Z; set_updatedAt_to : Z }.

Record UpdateOne := mkUpdateOne { filter : Filter; update : Update }.

(** The [ops] array built by [items.map].  [now] is [new Date()]. *)
Definition bulkOps (items : list StockItem) (now : Z) : list UpdateOne :=
  map (fun item =>
         mkUpdateOne (mkFilter (item_id item) false)
                     (mkUpdate (- quantity item) now))
      items.

Definition matches (f : Filter) (p : Product) : bool :=
  String.eqb (_id p) (filter_id f) && Bool.eqb (isDeleted p) (filter_isDeleted f).

Definition applyUpdate (u : Update) (p : Product) : Product :=
  set_updatedAt (set_stock p (stock p + inc_stock u)) (set_updatedAt_to u).

(** One [updateOne] of the driver: the first matching document is
    rewritten by the update operators, nothing else runs. *)
Definition updateOne (op : UpdateOne) (products : list Product) : list Product :=
  updateFirst (matches (filter op)) (applyUpdate (update op)) products.

(** [Model.bulkWrite(ops)]: the operations are applied in order. *)
Definition bulkWrite (ops : list UpdateOne) (products : list Product) : list Product :=
  fold_left (fun acc op => updateOne op acc) ops products.

Definition bulkUpdateStock (items : list StockItem) (now : Z)
           (products : list Product) : list Product :=
  bulkWrite (bulkOps items now) products.

(** *** generateRandomSKU.js

    [cur] is the index of the next [Math.random()] draw. *)

Fixpoint randomLetters (length : nat) (rnd : Js.Random) (cur : nat) : string :=
  match length with
  | O => ""
  | S k => Js.fromCharCode (Z.to_nat (65 + Js.floorScaled (rnd cur) 26))
           +:+ randomLetters k rnd (S cur)
  end.

Definition randomNumbers (length : nat) (rnd : Js.Random) (cur : nat) : string :=
  Js.padStart length "0"%char
    (Js.toString (Js.floorScaled (rnd cur) (10 ^ Z.of_nat length))).

(** Seven draws: three letters, one number, three letters. *)
Definition generateRandomSKU (rnd : Js.Random) (cur : nat) : string :=
  randomLetters 3 rnd cur +:+ "-" +:+ randomNumbers 4 rnd (cur + 3)%nat
  +:+ "-" +:+ randomLetters 3 rnd (cur + 4)%nat.

(** *** Query middleware and the SKU [pre('save')] hook *)

(** [Product.findOne({sku})]: the [pre(/^find/)] hook adds
    [isDeleted: {$ne: true}] since the query names no [isDeleted]. *)
Definition findOneBySku (products : list Product) (s : string) : option Product :=
  List.find (fun p => bool_decide (sku p = Some s) && negb (isDeleted p)) products.

(** The [while (exists)] loop.  [fuel] bounds the iterations the model
    runs; [None] means the loop is still running when the fuel is spent.
    The loop itself has no counter and no exit other than [exists = false]. *)
Fixpoint skuLoop (fuel : nat) (products : list Product)
         (rnd : Js.Random) (cur : nat) : option string :=
  match fuel with
  | O => None
  | S f =>
      let newSKU := generateRandomSKU rnd cur in
      match findOneBySku products newSKU with
      | Some _ => skuLoop f products rnd (cur + 7)%nat
      | None => Some newSKU
      end
  end.

(** Second [pre('save')] hook.  Every way out of the hook is a plain
    [next()]: the result, when there is one, is the document to save. *)
Definition preSaveSku (fuel : nat) (products : list Product)
           (rnd : Js.Random) (cur : nat) (p : Product) : option Product :=
  if Js.truthyStr (sku p) then Some p
  else match skuLoop fuel products rnd cur with
       | Some newSKU => Some (set_sku p (Some (Js.toUpperCase newSKU)))
       | None => None
       end.

(** The candidate produced by the [k]-th iteration of the loop. *)
Definition candidate (rnd : Js.Random) (cur k : nat) : string :=
  generateRandomSKU rnd (cur + 7 * k)%nat.

End ProductModel.

(** ** cart.model.js *)

Module CartModel.

Record CartItem := mkCartItem {
  product : string;
  quantity : Z;
  priceAtAddTime : Z
}.

Record Cart := mkCart {
  _id : string;
  user : string;
  items : list CartItem;
  totalPrice : Z;
  totalItems : Z
}.

Definition set_items (c : Cart) (v : list CartItem) : Cart :=
  mkCart (_id c) (user c) v (totalPrice c) (totalItems c).

Definition set_totalPrice (c : Cart) (v : Z) : Cart :=
  mkCart (_id c) (user c) (items c) v (totalItems c).

Definition set_totalItems (c : Cart) (v : Z) : Cart :=
  mkCart (_id c) (user c) (items c) (totalPrice c) v.

Definition set_quantity (i : CartItem) (v : Z) : CartItem :=
  mkCartItem (product i) v (priceAtAddTime i).

(** [cartSchema.pre('save')]: both totals are rebuilt by [reduce] from 0. *)
Definition preSave (c : Cart) : Cart :=
  let c1 := set_totalPrice c
              (fold_left (fun total item => total + quantity item * priceAtAddTime item)
                         (items c) 0) in
  set_totalItems c1
    (fold_left (fun total item => total + quantity item) (items c1) 0).

(** Schema validators: [quantity] has [min: 1], [priceAtAddTime] has
    [min: 0], both totals have [min: 0]. *)
Definition validItem (i : CartItem) : bool :=
  (1 <=? quantity i) && (0 <=? priceAtAddTime i).

Definition validate (c : Cart) : bool :=
  forallb validItem (items c) && (0 <=? totalPrice c) && (0 <=? totalItems c).

(** [cart.save()].  Validation is Mongoose's built-in first hook, so it
    sees the totals as they are before [preSave] rebuilds them.  A new
    document is inserted, a loaded one is written back by [_id]. *)
Definition save (isNew : bool) (c : Cart) (carts : list Cart)
  : Exception + (Cart * list Cart) :=
  if validate c then
    let c' := preSave c in
    inr (c', if isNew then (carts ++ [c'])%list
             else updateFirst (fun d => String.eqb (_id d) (_id c')) (fun _ => c') carts)
  else inl ValidationError.

(** [Cart.findOne({user})] *)
Definition findOne (carts : list Cart) (userId : string) : option Cart :=
  List.find (fun c => String.eqb (user c) userId) carts.

(** [Cart.findOneAndUpdate({user}, {items})]: a direct store update of the
    first match; only the named field is written. *)
Definition findOneAndUpdate_items (carts : list Cart) (userId : string)
           (v : list CartItem) : list Cart :=
  updateFirst (fun c => String.eqb (user c) userId) (fun c => set_items c v) carts.

(** The relation the specification states between the totals and the lines. *)
Fixpoint sumQuantity (l : list CartItem) : Z :=
  match l with
  | [] => 0
  | i :: r => quantity i + sumQuantity r
  end.

Fixpoint sumPrice (l : list CartItem) : Z :=
  match l with
  | [] => 0
  | i :: r => quantity i * priceAtAddTime i + sumPrice r
  end.

Definition totalsConsistent (c : Cart) : Prop :=
  totalItems c = sumQuantity (items c) /\ totalPrice c = sumPrice (items c).

Definition storeConsistent (carts : list Cart) : Prop :=
  Forall totalsConsistent carts.

End CartModel.

(** ** order.model.js *)

Module OrderModel.

Definition PAYMENT_METHODS : list string := ["COD"; "CARD"; "UPI"; "WALLET"].
Definition PAYMENT_STATUS : list string := ["pending"; "paid"; "failed"; "refunded"].
Definition ORDER_STATUS : list string :=
  ["processing"; "confirmed"; "shipped"; "out_for_delivery"; "delivered";
   "cancelled"; "returned"].

(** [arr.includes(s)] on an array of strings. *)
Definition includes (arr : list string) (s : string) : bool :=
  existsb (String.eqb s) arr.

(** An order line.  [unitPrice] and [totalPrice] are [None] when the
    controller computed them from an [undefined] price. *)
Record OrderItem := mkOrderItem {
  product : string;
  quantity : Z;
  unitPrice : option Z;
  totalPrice : option Z
}.

Record ShippingAddress := mkShippingAddress {
  fullName : string;
  phone : string;
  street : string;
  city : string;
  state : string;
  postalCode : string;
  country : string
}.

Definition set_country (a : ShippingAddress) (v : string) : ShippingAddress :=
  mkShippingAddress (fullName a) (phone a) (street a) (city a) (state a)
                    (postalCode a) v.

Record PaymentDetails := mkPaymentDetails {
  transactionId : option string;
  paymentGateway : option string;
  paidAt : option Z
}.

(** The [updatedAt] timestamp, which no handler reads, is left out. *)
Record Order := mkOrder {
  _id : string;
  orderNumber : string;
  user : string;
  items : list OrderItem;
  shippingAddress : ShippingAddress;
  paymentMethod : string;
  paymentStatus : string;
  orderStatus : string;
  paymentDetails : PaymentDetails;
  trackingNumber : option string;
  estimatedDelivery : option Z;
  notes : option string;
  cancelReason : option string;
  totalAmount : Z;
  discount : Z;
  shippingFee : Z;
  isDelivered : bool;
  deliveredAt : option Z;
  createdAt : Z
}.

Definition set_orderNumber (o : Order) (v : string) : Order :=
  mkOrder (_id o) v (user o) (items o) (shippingAddress o) (paymentMethod
    o) (paymentStatus o) (orderStatus o) (paymentDetails o)
    (trackingNumber o) (estimatedDelivery o) (notes o) (cancelReason o)
    (totalAmount o) (discount o) (shippingFee o) (isDelivered o)
    (deliveredAt o) (createdAt o).

Definition set_orderStatus (o : Order) (v : string) : Order :=
  mkOrder (_id o) (orderNumber o) (user o) (items o) (shippingAddress o)
    (paymentMethod o) (paymentStatus o) v (paymentDetails o)
    (trackingNumber o) (estimatedDelivery o) (notes o) (cancelReason o)
    (totalAmount o) (discount o) (shippingFee o) (isDelivered o)
    (deliveredAt o) (createdAt o).

Definition set_paymentStatus (o : Order) (v : string) : Order :=
  mkOrder (_id o) (orderNumber o) (user o) (items o) (shippingAddress o)
    (paymentMethod o) v (orderStatus o) (paymentDetails o) (trackingNumber
    o) (estimatedDelivery o) (notes o) (cancelReason o) (totalAmount o)
    (discount o) (shippingFee o) (isDelivered o) (deliveredAt o)
    (createdAt o).

Definition set_paymentDetails (o : Order) (v : PaymentDetails) : Order :=
  mkOrder (_id o) (orderNumber o) (user o) (items o) (shippingAddress o)
    (paymentMethod o) (paymentStatus o) (orderStatus o) v (trackingNumber
    o) (estimatedDelivery o) (notes o) (cancelReason o) (totalAmount o)
    (discount o) (shippingFee o) (isDelivered o) (deliveredAt o)
    (createdAt o).

Definition set_trackingNumber (o : Order) (v : option string) : Order :=
  mkOrder (_id o) (orderNumber o) (user o) (items o) (shippingAddress o)
    (paymentMethod o) (paymentStatus o) (orderStatus o) (paymentDetails o)
    v (estimatedDelivery o) (notes o) (cancelReason o) (totalAmount o)
    (discount o) (shippingFee o) (isDelivered o) (deliveredAt o)
    (createdAt o).

Definition set_estimatedDelivery (o : Order) (v : option Z) : Order :=
  mkOrder (_id o) (orderNumber o) (user o) (items o) (shippingAddress o)
    (paymentMethod o) (paymentStatus o) (orderStatus o) (paymentDetails o)
    (trackingNumber o) v (notes o) (cancelReason o) (totalAmount o)
    (discount o) (shippingFee o) (isDelivered o) (deliveredAt o)
    (createdAt o).

Definition set_cancelReason (o : Order) (v : option string) : Order :=
  mkOrder (_id o) (orderNumber o) (user o) (items o) (shippingAddress o)
    (paymentMethod o) (paymentStatus o) (orderStatus o) (paymentDetails o)
    (trackingNumber o) (estimatedDelivery o) (notes o) v (totalAmount o)
    (discount o) (shippingFee o) (isDelivered o) (deliveredAt o)
    (createdAt o).

Definition set_isDelivered (o : Order) (v : bool) : Order :=
  mkOrder (_id o) (orderNumber o) (user o) (items o) (shippingAddress o)
    (paymentMethod o) (paymentStatus o) (orderStatus o) (paymentDetails o)
    (trackingNumber o) (estimatedDelivery o) (notes o) (cancelReason o)
    (totalAmount o) (discount o) (shippingFee o) v (deliveredAt o)
    (createdAt o).

Definition set_deliveredAt (o : Order) (v : option Z) : Order :=
  mkOrder (_id o) (orderNumber o) (user o) (items o) (shippingAddress o)
    (paymentMethod o) (paymentStatus o) (orderStatus o) (paymentDetails o)
    (trackingNumber o) (estimatedDelivery o) (notes o) (cancelReason o)
    (totalAmount o) (discount o) (shippingFee o) (isDelivered o) v
    (createdAt o).


Definition set_paidAt (d : PaymentDetails) (v : option Z) : PaymentDetails :=
  mkPaymentDetails (transactionId d) (paymentGateway d) v.

(** *** Schema validators *)

Definition atLeast (lo : Z) (v : option Z) : bool :=
  match v with
  | Some n => lo <=? n
  | None => false
  end.

Definition validItem (i : OrderItem) : bool :=
  negb (String.eqb (product i) "") && (1 <=? quantity i)
  && atLeast 0 (unitPrice i) && atLeast 0 (totalPrice i).

Definition validAddress (a : ShippingAddress) : bool :=
  Js.nonBlank (fullName a) && Js.nonBlank (phone a) && Js.nonBlank (street a)
  && Js.nonBlank (city a) && Js.nonBlank (state a) && Js.nonBlank (postalCode a).

(** [maxlength: n] on an optional string. *)
Definition maxlength (n : nat) (v : option string) : bool :=
  match v with
  | Some t => Nat.leb (String.length t) n
  | None => true
  end.

Definition validate (o : Order) : bool :=
  negb (String.eqb (orderNumber o) "")
  && negb (String.eqb (user o) "")
  && negb (Nat.eqb (List.length (items o)) 0)
  && forallb validItem (items o)
  && validAddress (shippingAddress o)
  && includes PAYMENT_METHODS (paymentMethod o)
  && includes PAYMENT_STATUS (paymentStatus o)
  && includes ORDER_STATUS (orderStatus o)
  && maxlength 500 (notes o)
  && maxlength 200 (cancelReason o)
  && (0 <=? totalAmount o) && (0 <=? discount o) && (0 <=? shippingFee o).

(** *** [orderSchema.pre('save')]

    [orderStatusModified] and [paymentStatusModified] stand for
    [this.isModified(...)]; [now] is [new Date()]. *)
Definition preSave (isNew orderStatusModified paymentStatusModified : bool)
           (now : Z) (rnd : Js.Random) (cur : nat) (o : Order) : Order :=
  let o1 :=
    if isNew && String.eqb (orderNumber o) "" then
      let date := Js.isoDateCompact now in
      let random := Js.padStart 4 "0"%char (Js.toString (Js.floorScaled (rnd cur) 10000)) in
      set_orderNumber o ("ORD" +:+ date +:+ random)
    else o in
  let o2 :=
    if orderStatusModified && String.eqb (orderStatus o1) "delivered" then
      let d := set_isDelivered o1 true in
      match deliveredAt d with
      | None => set_deliveredAt d (Some now)
      | Some _ => d
      end
    else o1 in
  if paymentStatusModified && String.eqb (paymentStatus o2) "paid"
     && negb (bool_decide (is_Some (paidAt (paymentDetails o2))))
  then set_paymentDetails o2 (set_paidAt (paymentDetails o2) (Some now))
  else o2.

(** [methods.canBeCancelled] *)
Definition canBeCancelled (o : Order) : bool :=
  includes ["processing"; "confirmed"] (orderStatus o).

(** [order.save()] on a document loaded from the store as [loaded] and
    since assigned into [o].  A path is modified when its value differs
    from the loaded one. *)
Definition save (loaded o : Order) (now : Z) (rnd : Js.Random) (cur : nat)
           (orders : list Order) : Exception + (Order * list Order) :=
  if validate o then
    let o' := preSave false
                (negb (String.eqb (orderStatus loaded) (orderStatus o)))
                (negb (String.eqb (paymentStatus loaded) (paymentStatus o)))
                now rnd cur o in
    inr (o', updateFirst (fun d => String.eqb (_id d) (_id o')) (fun _ => o') orders)
  else inl ValidationError.

(** The unique index on [orderNumber]. *)
Definition orderNumberTaken (orders : list Order) (n : string) : bool :=
  existsb (fun d => String.eqb (orderNumber d) n) orders.

(** [Order.create({user, orderNumber, items, shippingAddress, paymentMethod,
    totalAmount, notes})]: schema defaults (an absent [country] is the
    empty string here), validation, the hook on a new document (no status
    path was assigned), then the insert, which the unique index can
    reject. *)
Definition create (newId userId orderNumber0 : string) (items0 : list OrderItem)
           (address : ShippingAddress) (paymentMethod0 : string) (totalAmount0 : Z)
           (notes0 : option string) (now : Z) (rnd : Js.Random) (cur : nat)
           (orders : list Order) : Exception + (Order * list Order) :=
  let address := if String.eqb (country address) "" then set_country address "India"
                 else address in
  let o := mkOrder newId orderNumber0 userId items0 address paymentMethod0
                   "pending" "processing" (mkPaymentDetails None None None)
                   None None notes0 None totalAmount0 0 0 false None now in
  if validate o then
    let o' := preSave true false false now rnd cur o in
    if orderNumberTaken orders (orderNumber o') then inl DuplicateKeyError
    else inr (o', (orders ++ [o'])%list)
  else inl ValidationError.

(** [Order.findById(id)] *)
Definition findById (orders : list Order) (id : string) : option Order :=
  List.find (fun d => String.eqb (_id d) id) orders.

(** [Order.findOne({_id, user})] *)
Definition findOne (orders : list Order) (id userId : string) : option Order :=
  List.find (fun d => String.eqb (_id d) id && String.eqb (user d) userId) orders.

End OrderModel.

(** ** cart.controller.js *)

Module CartController.
Import CartModel.

(** [addtoCart]: body fields [product], [quantity], [priceAtAddTime];
    [userId] is [req.user._id] and [newId] the [_id] a new cart would get.
    The held lines are compared, through [item.product.toString()], with
    the string of the request as it came; a line that is created holds the
    [ObjectId] the schema casts that string to.  The whole handler sits in
    a [try]/[catch] that answers 500. *)
Definition addtoCart (userId newId productId : string) (quantity0 priceAtAddTime0 : Z)
           (carts : list Cart) : Outcome Cart * list Cart :=
  if String.eqb productId "" || (priceAtAddTime0 =? 0) then
    (RespondError 400 "Missing product or price", carts)
  else
    let saved :=
      match findOne carts userId with
      | None =>
          save true
               (mkCart newId userId
                       [mkCartItem (ObjectId.canonical productId) quantity0 priceAtAddTime0]
                       0 0)
               carts
      | Some cart =>
          let sameProduct := fun item : CartItem => String.eqb (product item) productId in
          match List.find sameProduct (items cart) with
          | Some _ =>
              save false
                (set_items cart
                   (updateFirst sameProduct
                      (fun item => set_quantity item (quantity item + quantity0))
                      (items cart)))
                carts
          | None =>
              save false
                (set_items cart
                   (items cart
                    ++ [mkCartItem (ObjectId.canonical productId) quantity0
                                   priceAtAddTime0])%list)
                carts
          end
      end in
    match saved with
    | inr (cart, carts') => (Respond 200 cart None, carts')
    | inl _ => (RespondError 500 "Server error", carts)
    end.

(** Write-back shared by the handlers without a [catch]. *)
Definition saveOr (statusCode : Z) (message : string) (c : Cart) (carts : list Cart)
  : Outcome Cart * list Cart :=
  match save false c carts with
  | inr (cart, carts') => (Respond statusCode cart (Some message), carts')
  | inl e => (Throw e, carts)
  end.

Definition updateCart (userId productId : string) (quantity0 : Z)
           (carts : list Cart) : Outcome Cart * list Cart :=
  if String.eqb productId "" || (quantity0 <? 0) then
    (Throw (ApiError 400 "Invalid product ID or quantity"), carts)
  else
    match findOne carts userId with
    | None => (Throw (ApiError 404 "Cart not found"), carts)
    | Some cart =>
        match findIndex (fun item => String.eqb (product item) productId) (items cart) with
        | None => (Throw (ApiError 404 "Product not found in cart"), carts)
        | Some itemIndex =>
            let items' :=
              if quantity0 =? 0 then delete itemIndex (items cart)
              else alter (fun item => set_quantity item quantity0) itemIndex (items cart) in
            saveOr 200 "Cart updated successfully" (set_items cart items') carts
        end
    end.

Definition removeFromCart (userId productId : string)
           (carts : list Cart) : Outcome Cart * list Cart :=
  if String.eqb productId "" then
    (Throw (ApiError 400 "Product ID is required"), carts)
  else
    match findOne carts userId with
    | None => (Throw (ApiError 404 "Cart not found"), carts)
    | Some cart =>
        match findIndex (fun item => String.eqb (product item) productId) (items cart) with
        | None => (Throw (ApiError 404 "Product not found in cart"), carts)
        | Some itemIndex =>
            saveOr 200 "Product removed from cart successfully"
                   (set_items cart (delete itemIndex (items cart))) carts
        end
    end.

Definition clearCart (userId : string) (carts : list Cart) : Outcome Cart * list Cart :=
  match findOne carts userId with
  | None => (Throw (ApiError 404 "Cart not found"), carts)
  | Some cart =>
      saveOr 200 "Cart cleared successfully"
             (set_totalPrice (set_totalItems (set_items cart []) 0) 0) carts
  end.

End CartController.

(** ** order.controller.js *)

Module OrderController.
Import OrderModel.

Record Db := mkDb {
  products : list ProductModel.Product;
  carts : list CartModel.Cart;
  orders : list Order
}.

(** An element of [req.body.items]. *)
Record BodyItem := mkBodyItem {
  body_product : string;
  body_quantity : Z;
  body_sellingPrice : option Z
}.

Record CreateBody := mkCreateBody {
  body_shippingAddress : ShippingAddress;
  body_paymentMethod : string;
  body_totalAmount : Z;
  body_notes : option string;
  body_items : option (list BodyItem);
  body_fromCart : option bool
}.

(** [populate("items.product")] for one line: a [find] on products, which
    the [pre(/^find/)] hook restricts to documents not soft-deleted; a
    missing product populates as [null]. *)
Definition populate (ps : list ProductModel.Product) (item : CartModel.CartItem)
  : option ProductModel.Product :=
  List.find (fun p => String.eqb (ProductModel._id p) (CartModel.product item)
                      && negb (ProductModel.isDeleted p)) ps.

(** [cart.items.map(item => ({...}))] over the populated lines.  Reading
    [item.product._id] on a [null] product throws, which is [None] here. *)
Fixpoint snapshot (ps : list ProductModel.Product) (lines : list CartModel.CartItem)
  : option (list OrderItem) :=
  match lines with
  | [] => Some []
  | item :: rest =>
      match populate ps item with
      | None => None
      | Some p =>
          cons (mkOrderItem (ProductModel._id p) (CartModel.quantity item)
                            (ProductModel.sellingPrice p)
                            ((fun price => price * CartModel.quantity item)
                               <$> ProductModel.sellingPrice p))
            <$> snapshot ps rest
      end
  end.

Definition fromBody (item : BodyItem) : OrderItem :=
  mkOrderItem (body_product item) (body_quantity item) (body_sellingPrice item)
              ((fun price => price * body_quantity item) <$> body_sellingPrice item).

(** The relation the specification states between a cart line and the
    order item snapshotted from it, read on the catalog [ps] itself: the
    item names the product and the quantity of the line; the catalog holds
    a product with that id which is not soft-deleted, [p] being the first
    such in store order (the only one, ids being unique); the unit price is
    the selling price of [p], the line total that price times the
    quantity.  The line's [priceAtAddTime] does not occur. *)
Definition snapshotOf (ps : list ProductModel.Product)
           (line : CartModel.CartItem) (it : OrderItem) : Prop :=
  product it = CartModel.product line
  /\ quantity it = CartModel.quantity line
  /\ exists (i : nat) (p : ProductModel.Product) (price : Z),
      ps !! i = Some p
      /\ ProductModel._id p = CartModel.product line
      /\ ProductModel.isDeleted p = false
      /\ (forall (j : nat) (q : ProductModel.Product),
            (j < i)%nat -> ps !! j = Some q ->
            ProductModel._id q = CartModel.product line ->
            ProductModel.isDeleted q = true)
      /\ ProductModel.sellingPrice p = Some price
      /\ unitPrice it = Some price
      /\ totalPrice it = Some (price * CartModel.quantity line).

(** The [catch] block of [createOrder]. *)
Definition caught {A} (e : Exception) : Outcome A :=
  match e with
  | ApiError statusCode message => RespondError statusCode message
  | _ => RespondError 500 "Internal Server Error"
  end.

(** [createOrder].  [reqUser] is [req.user._id] when present, [now] is the
    clock of the request, [newId] the [_id] of the order to insert.  The
    success payload is [{_id, orderNumber}]. *)
Definition createOrder (reqUser : option string) (body : CreateBody) (now : Z)
           (newId : string) (rnd : Js.Random) (cur : nat) (db : Db)
  : Outcome (string * string) * Db :=
  if negb (Js.truthyStr reqUser) then (RespondError 401 "User not authenticated", db)
  else
    let userId := default "" reqUser in
    let fromCart := default true (body_fromCart body) in
    let gathered : Exception + list OrderItem :=
      if fromCart then
        match CartModel.findOne (carts db) userId with
        | None => inl (ApiError 400 "Cart is empty")
        | Some cart =>
            if Nat.eqb (List.length (CartModel.items cart)) 0
            then inl (ApiError 400 "Cart is empty")
            else match snapshot (products db) (CartModel.items cart) with
                 | None => inl TypeError
                 | Some its => inr its
                 end
        end
      else
        match body_items body with
        | None => inl (ApiError 400 "No items provided")
        | Some bodyItems =>
            if Nat.eqb (List.length bodyItems) 0
            then inl (ApiError 400 "No items provided")
            else inr (map fromBody bodyItems)
        end in
    match gathered with
    | inl e => (caught e, db)
    | inr items0 =>
        let orderNumber0 := "ORD-" +:+ Js.toString now in
        match create newId userId orderNumber0 items0 (body_shippingAddress body)
                     (body_paymentMethod body) (body_totalAmount body)
                     (body_notes body) now rnd cur (orders db) with
        | inl e => (caught e, db)
        | inr (order, orders') =>
            let carts' :=
              if fromCart
              then CartModel.findOneAndUpdate_items (carts db) userId []
              else carts db in
            (Respond 201 (_id order, orderNumber order) (Some "Order created successfully"),
             mkDb (products db) carts' orders')
        end
    end.

(** Write-back shared by the administrative handlers. *)
Definition saveOr (message : string) (loaded o : Order) (now : Z) (rnd : Js.Random)
           (cur : nat) (os : list Order) : Outcome Order * list Order :=
  match save loaded o now rnd cur os with
  | inr (o', os') => (Respond 200 o' (Some message), os')
  | inl e => (Throw e, os)
  end.

Definition updateOrderStatus (id status0 : string) (trackingNumber0 : option string)
           (estimatedDelivery0 : option Z) (now : Z) (rnd : Js.Random) (cur : nat)
           (os : list Order) : Outcome Order * list Order :=
  if negb (includes ORDER_STATUS status0) then
    (Throw (ApiError 400 "Invalid order status"), os)
  else
    match findById os id with
    | None => (Throw (ApiError 404 "Order not found"), os)
    | Some order =>
        let o1 := set_orderStatus order status0 in
        let o2 := if Js.truthyStr trackingNumber0
                  then set_trackingNumber o1 trackingNumber0 else o1 in
        let o3 := match estimatedDelivery0 with
                  | Some d => set_estimatedDelivery o2 (Some d)
                  | None => o2
                  end in
        saveOr "Order status updated successfully" order o3 now rnd cur os
    end.

Definition cancelOrder (orderId userId : string) (cancelReason0 : option string)
           (now : Z) (rnd : Js.Random) (cur : nat)
           (os : list Order) : Outcome Order * list Order :=
  match findOne os orderId userId with
  | None => (Throw (ApiError 404 "Order not found"), os)
  | Some order =>
      if negb (canBeCancelled order) then
        (Throw (ApiError 400 "Order cannot be cancelled at this stage"), os)
      else
        saveOr "Order cancelled successfully" order
               (set_cancelReason (set_orderStatus order "cancelled") cancelReason0)
               now rnd cur os
  end.

(** The exception [cancelOrder] throws at the [canBeCancelled] gate, which
    the specification names [InvalidTransition]. *)
Definition InvalidTransition : Exception :=
  ApiError 400 "Order cannot be cancelled at this stage".

(** *** [getOrderAnalytics] *)

Inductive JsValue := JNull | JNumber (q : Q).

Record Analytics := mkAnalytics {
  summary : gmap string JsValue;
  statusBreakdown : gmap string Z
}.

(** [startDate.setDate(startDate.getDate() - days)] in a zone without
    clock changes: [days] whole days before [now]. *)
Definition startDate (now days : Z) : Z := now - days * 86400000.

(** [{ $match: { createdAt: { $gte: startDate } } }] *)
Definition matchStage (start : Z) (os : list Order) : list Order :=
  List.filter (fun o => start <=? createdAt o) os.

Definition sumAmount (docs : list Order) : Z :=
  fold_left (fun acc o => acc + totalAmount o) docs 0.

Definition countStatus (s : string) (docs : list Order) : Z :=
  fold_left (fun acc o => acc + (if String.eqb (orderStatus o) s then 1 else 0)) docs 0.

(** [{ $group: { _id: null, ... } }]: one output document per distinct
    key among the input documents, hence none for an empty input. *)
Definition groupAll (docs : list Order) : list (gmap string JsValue) :=
  match docs with
  | [] => []
  | _ :: _ =>
      let n := Z.of_nat (List.length docs) in
      [ list_to_map
          [ ("_id", JNull);
            ("totalOrders", JNumber (inject_Z n));
            ("totalRevenue", JNumber (inject_Z (sumAmount docs)));
            ("avgOrderValue", JNumber (Qred (Qmake (sumAmount docs) (Z.to_pos n))));
            ("cancelledOrders", JNumber (inject_Z (countStatus "cancelled" docs)));
            ("deliveredOrders", JNumber (inject_Z (countStatus "delivered" docs))) ] ]
  end.

(** [{ $group: { _id: '$orderStatus', count: { $sum: 1 } } }], as the map
    from each status present to its count. *)
Definition groupByStatus (docs : list Order) : gmap string Z :=
  fold_left (fun m o => <[orderStatus o := default 0 (m !! orderStatus o) + 1]> m)
            docs ∅.

(** [days] is [req.query.days], 30 when absent. *)
Definition getOrderAnalytics (days0 : option Z) (now : Z) (os : list Order)
  : Outcome Analytics :=
  let days := default 30 days0 in
  let start := startDate now days in
  let analytics := groupAll (matchStage start os) in
  let breakdown := groupByStatus (matchStage start os) in
  Respond 200 (mkAnalytics (default ∅ (head analytics)) breakdown)
          (Some "Order analytics retrieved successfully").


(** *** [updatePaymentStatus] and [deleteOrder] *)

Definition withTransactionId (d : PaymentDetails) (v : option string) : PaymentDetails :=
  mkPaymentDetails v (paymentGateway d) (paidAt d).

Definition withPaymentGateway (d : PaymentDetails) (v : option string) : PaymentDetails :=
  mkPaymentDetails (transactionId d) v (paidAt d).

Definition updatePaymentStatus (id status0 : string)
           (transactionId0 paymentGateway0 : option string)
           (now : Z) (rnd : Js.Random) (cur : nat)
           (os : list Order) : Outcome Order * list Order :=
  if negb (includes PAYMENT_STATUS status0) then
    (Throw (ApiError 400 "Invalid payment status"), os)
  else
    match findById os id with
    | None => (Throw (ApiError 404 "Order not found"), os)
    | Some order =>
        let o1 := set_paymentStatus order status0 in
        let o2 := if Js.truthyStr transactionId0
                  then set_paymentDetails o1
                         (withTransactionId (paymentDetails o1) transactionId0)
                  else o1 in
        let o3 := if Js.truthyStr paymentGateway0
                  then set_paymentDetails o2
                         (withPaymentGateway (paymentDetails o2) paymentGateway0)
                  else o2 in
        saveOr "Payment status updated successfully" order o3 now rnd cur os
    end.

(** [Order.findByIdAndDelete(id)]: the first document with that [_id] is
    removed and returned. *)
Fixpoint findByIdAndDelete (os : list Order) (id : string) : option Order * list Order :=
  match os with
  | [] => (None, [])
  | d :: rest =>
      if String.eqb (_id d) id then (Some d, rest)
      else let '(found, rest') := findByIdAndDelete rest id in (found, d :: rest')
  end.

(** [deleteOrder]; the success payload is [{}]. *)
Definition deleteOrder (id : string) (os : list Order) : Outcome unit * list Order :=
  if String.eqb id "" then (Throw (ApiError 400 "Order ID is required"), os)
  else
    match findByIdAndDelete os id with
    | (None, _) => (Throw (ApiError 404 "Order not found"), os)
    | (Some _, os') => (Respond 200 tt (Some "Order deleted successfully"), os')
    end.

End OrderController.

(** ** helpers.js: rate limiting, retry and log levels *)

Module Helpers.

(** *** [SecurityUtils.checkRateLimit]

    [rateLimitStore] is the module-level [Map] from a key to the times of
    its recent requests; [now] is [Date.now()]. *)

Record RateLimit := mkRateLimit {
  allowed : bool;
  remaining : Z;
  resetTime : Z
}.

(** [requests.filter(time => now - time < windowMs)] *)
Definition validAt (now windowMs : Z) (requests : list Z) : list Z :=
  List.filter (fun time => now - time <? windowMs) requests.

Definition checkRateLimit (key : string) (max windowMs now : Z)
           (rateLimitStore : gmap string (list Z))
  : RateLimit * gmap string (list Z) :=
  let requests := default [] (rateLimitStore !! key) in
  let validRequests := validAt now windowMs requests in
  if max <=? Z.of_nat (length validRequests) then
    (mkRateLimit false 0 (now + windowMs), rateLimitStore)
  else
    let pushed := (validRequests ++ [now])%list in
    (mkRateLimit true (Z.max 0 (max - Z.of_nat (length pushed))) (now + windowMs),
     <[key := pushed]> rateLimitStore).

(** The [setInterval] callback: every entry keeps its requests of the last
    60000 ms, and an entry left with none is deleted. *)
Definition sweep (now : Z) (rateLimitStore : gmap string (list Z))
  : gmap string (list Z) :=
  omap (fun requests =>
          let validRequests := validAt now 60000 requests in
          if Nat.eqb (length validRequests) 0 then None else Some validRequests)
       rateLimitStore.

(** A run of [checkRateLimit] calls for one key at the given times; the
    answers are collected in order. *)
Fixpoint checkAll (key : string) (max windowMs : Z) (times : list Z)
         (rateLimitStore : gmap string (list Z))
  : list bool * gmap string (list Z) :=
  match times with
  | [] => ([], rateLimitStore)
  | now :: rest =>
      let '(r, store1) := checkRateLimit key max windowMs now rateLimitStore in
      let '(rs, store2) := checkAll key max windowMs rest store1 in
      (allowed r :: rs, store2)
  end.

(** *** [asyncUtils.retry]

    [fn i] is what the [i]-th call of [fn] does: it rejects with an error
    or resolves with a value.  The result is what [retry] returns or throws
    ([inl None] is [throw undefined], the initial [lastError]) together with
    the delays it slept, in order. *)

Section Retry.
Context {E A : Type}.

Fixpoint retryLoop (fn : nat -> E + A) (attempts : nat) (delay : Z)
         (i togo : nat) (lastError : option E) : (option E + A) * list Z :=
  match togo with
  | O => (inl lastError, [])
  | S togo' =>
      match fn i with
      | inr value => (inr value, [])
      | inl error =>
          if Nat.eqb i (attempts - 1) then (inl (Some error), [])
          else
            let backoffDelay := delay * 2 ^ Z.of_nat i in
            let '(r, slept) := retryLoop fn attempts delay (S i) togo' (Some error) in
            (r, backoffDelay :: slept)
      end
  end.

(** [for (let i = 0; i < attempts; i++)] runs [attempts] rounds at most. *)
Definition retry (fn : nat -> E + A) (attempts : nat) (delay : Z)
  : (option E + A) * list Z :=
  retryLoop fn attempts delay 0 attempts None.

End Retry.

(** *** [shouldLog]

    [LOG_LEVELS[name]] is [undefined] for an unknown name, and a comparison
    with [undefined] is false. *)

Definition LOG_LEVELS (name : string) : option Z :=
  if String.eqb name "error" then Some 0
  else if String.eqb name "warn" then Some 1
  else if String.eqb name "info" then Some 2
  else if String.eqb name "debug" then Some 3
  else None.

Definition shouldLog (currentLevel level : string) : bool :=
  match LOG_LEVELS level, LOG_LEVELS currentLevel with
  | Some a, Some b => a <=? b
  | _, _ => false
  end.

End Helpers.

(** ** Reading aids for the statements *)

Module Reading.

(** The total quantity the items of a bulk decrement ask of product [id]. *)
Fixpoint demand (items : list ProductModel.StockItem) (id : string) : Z :=
  match items with
  | [] => 0
  | item :: rest =>
      (if String.eqb (ProductModel.item_id item) id then ProductModel.quantity item else 0)
      + demand rest id
  end.

Definition isUpperLetter (c : ascii) : bool :=
  let n := nat_of_ascii c in Nat.leb 65 n && Nat.leb n 90.

Definition isDigit (c : ascii) : bool :=
  let n := nat_of_ascii c in Nat.leb 48 n && Nat.leb n 57.

(** The shape the header comment of generateRandomSKU.js announces:
    three capital letters, a dash, four digits, a dash, three capital
    letters. *)
Definition skuShape (s : string) : bool :=
  match String.list_ascii_of_string s with
  | [a; b; c; d1; n1; n2; n3; n4; d2; x; y; z] =>
      isUpperLetter a && isUpperLetter b && isUpperLetter c
      && Ascii.eqb d1 "-"%char && isDigit n1 && isDigit n2 && isDigit n3 && isDigit n4
      && Ascii.eqb d2 "-"%char && isUpperLetter x && isUpperLetter y && isUpperLetter z
  | _ => false
  end.

(** The number of orders of a list that carry status [s]. *)
Definition countOf (s : string) (docs : list OrderModel.Order) : nat :=
  length (List.filter (fun o => String.eqb (OrderModel.orderStatus o) s) docs).


(** Four characters, all of them digits. *)
Definition fourDigits (s : string) : bool :=
  match String.list_ascii_of_string s with
  | [a; b; c; d] => isDigit a && isDigit b && isDigit c && isDigit d
  | _ => false
  end.

End Reading.

(** ** Sample data *)

Module Samples.

Definition soap : ProductModel.Product :=
  ProductModel.mkProduct "p1" "Soap" (Some 12) 5 10 ProductModel.ACTIVE
                         (Some "AAA-0000-AAA") false 0.

Definition tea : ProductModel.Product :=
  ProductModel.mkProduct "p2" "Tea" (Some 20) 0 10 ProductModel.ACTIVE None false 0.

(** Every draw is 0: each candidate is ["AAA-0000-AAA"]. *)
Definition zeros : Js.Random := fun _ => 0%Q.

(** Seven draws of 0, then draws of one half: ["AAA-0000-AAA"], then
    ["NNN-5000-NNN"] ever after. *)
Definition zerosThenHalves : Js.Random :=
  fun i => if Nat.ltb i 7 then 0%Q else (1 # 2)%Q.

Definition address : OrderModel.ShippingAddress :=
  OrderModel.mkShippingAddress "Asha Rao" "9800000000" "1 Main Street" "Pune"
                               "MH" "411001" "".

(** Two units of soap, added when it cost 10; the catalog now says 12. *)
Definition cart : CartModel.Cart :=
  CartModel.mkCart "c1" "u1" [CartModel.mkCartItem "p1" 2 10] 20 2.

(** Another customer's cart. *)
Definition cart2 : CartModel.Cart :=
  CartModel.mkCart "c2" "u2" [CartModel.mkCartItem "p2" 1 20] 20 1.

Definition db : OrderController.Db :=
  OrderController.mkDb [soap; tea] [cart; cart2] [].

(** A checkout of the current cart, cash on delivery. *)
Definition checkout : OrderController.CreateBody :=
  OrderController.mkCreateBody address "COD" 24 None None None.

Definition now : Z := 1700000000000.

Definition placed : OrderModel.Order :=
  OrderModel.mkOrder "o1" "ORD-1700000000000" "u1"
    [OrderModel.mkOrderItem "p1" 2 (Some 12) (Some 24)]
    (OrderModel.set_country address "India") "COD" "pending" "processing"
    (OrderModel.mkPaymentDetails None None None)
    None None None None 24 0 0 false None now.

(** The store after the first customer's checkout at [now]. *)
Definition dbAfter : OrderController.Db :=
  OrderController.mkDb [soap; tea] [CartModel.mkCart "c1" "u1" [] 20 2; cart2] [placed].

(** A cart holding one product under its object id, as the store prints
    it. *)
Definition butterCart : CartModel.Cart :=
  CartModel.mkCart "64b7f0a2c3d4e5f601234567" "64b7f0a2c3d4e5f60123450a"
                   [CartModel.mkCartItem "507f1f77bcf86cd799439011" 1 30] 30 1.

(** A third customer's cart: tea added when it cost 15 and soap added
    when it cost 10; the catalog now says 20 and 12. *)
Definition cart3 : CartModel.Cart :=
  CartModel.mkCart "c3" "u3"
                   [CartModel.mkCartItem "p2" 1 15; CartModel.mkCartItem "p1" 2 10] 35 3.

Definition db3 : OrderController.Db :=
  OrderController.mkDb [soap; tea] [cart; cart2; cart3] [].

(** A checkout of that cart, paid by UPI. *)
Definition checkout3 : OrderController.CreateBody :=
  OrderController.mkCreateBody address "UPI" 44 None None None.

Definition placed3 : OrderModel.Order :=
  OrderModel.mkOrder "o3" "ORD-1700000000000" "u3"
    [OrderModel.mkOrderItem "p2" 1 (Some 20) (Some 20);
     OrderModel.mkOrderItem "p1" 2 (Some 12) (Some 24)]
    (OrderModel.set_country address "India") "UPI" "pending" "processing"
    (OrderModel.mkPaymentDetails None None None)
    None None None None 44 0 0 false None now.

(** The store after the third customer's checkout at [now]. *)
Definition db3After : OrderController.Db :=
  OrderController.mkDb [soap; tea] [cart; cart2; CartModel.mkCart "c3" "u3" [] 35 3]
                       [placed3].

End Samples.

(** * Properties *)

(** ** Product stock ledger *)

Module ProductProps.
Import ProductModel.

Lemma updateStock_subtract_stock p q :
  stock (updateStock p q "subtract") = Z.max 0 (stock p - q).
Proof. reflexivity. Qed.

Lemma subtractAll_cons p q qs :
  subtractAll p (q :: qs) = subtractAll (updateStock p q "subtract") qs.
Proof. reflexivity. Qed.

(** A run of subtractions keeps a non-negative stock non-negative. *)
Lemma subtractAll_nonneg qs : forall p, 0 <= stock p -> 0 <= stock (subtractAll p qs).
Proof.
  induction qs as [|q qs IH]; intros p Hp; [exact Hp|].
  rewrite subtractAll_cons. apply IH.
  rewrite updateStock_subtract_stock. lia.
Qed.

(** C5: [updateStock] with ["subtract"] stores the maximum of 0 and the
    difference, so the stock is non-negative after one call and after any
    run of such calls, whatever the stock was before; with ["add"] it
    stores the sum, and no bound caps what a single call can reach. *)
Theorem updateStock_subtract_clamps_add_unbounded :
  (forall p q, stock (updateStock p q "subtract") = Z.max 0 (stock p - q)
               /\ 0 <= stock (updateStock p q "subtract"))
  /\ (forall p q qs, 0 <= stock (subtractAll p (q :: qs)))
  /\ (forall p q, stock (updateStock p q "add") = stock p + q)
  /\ (forall p bound, exists q, bound < stock (updateStock p q "add")).
Proof.
  repeat split.
  - rewrite updateStock_subtract_stock. lia.
  - intros p q qs. rewrite subtractAll_cons. apply subtractAll_nonneg.
    rewrite updateStock_subtract_stock. lia.
  - intros p bound. exists (bound - stock p + 1).
    change (stock (updateStock p (bound - stock p + 1) "add"))
      with (stock p + (bound - stock p + 1)).
    lia.
Qed.

(** C10: with a non-negative threshold, a product whose stock is 0 reads
    as ["low-stock"], and ["out-of-stock"] is reported exactly when the
    stock exceeds the threshold and the status is [OUT_OF_STOCK]. *)
Theorem stockStatus_low_stock_shadows_out_of_stock p :
  0 <= lowStockThreshold p ->
  (stock p = 0 -> stockStatus p = "low-stock")
  /\ (stockStatus p = "out-of-stock"
      <-> lowStockThreshold p < stock p /\ status p = OUT_OF_STOCK).
Proof.
  intros Hthr. unfold stockStatus. split.
  - intros H0. rewrite H0.
    destruct (Z.leb_spec 0 (lowStockThreshold p)); [reflexivity | lia].
  - destruct (Z.leb_spec (stock p) (lowStockThreshold p)) as [Hle|Hlt].
    + split; [discriminate | intros [Hgt _]; lia].
    + destruct (Z.eqb_spec (stock p) 0) as [H0|Hne]; [lia|].
      cbn [orb]. case_bool_decide as Hst.
      * split; [intros _; split; [lia | exact Hst] | reflexivity].
      * split; [discriminate | intros [_ Hs]; contradiction].
Qed.

Lemma stockStatus_low_stock_shadows_out_of_stock_witness :
  0 <= lowStockThreshold Samples.tea
  /\ ((stock Samples.tea = 0 -> stockStatus Samples.tea = "low-stock")
      /\ (stockStatus Samples.tea = "out-of-stock"
          <-> lowStockThreshold Samples.tea < stock Samples.tea
              /\ status Samples.tea = OUT_OF_STOCK)).
Proof.
  split.
  - vm_compute. discriminate.
  - apply (stockStatus_low_stock_shadows_out_of_stock Samples.tea).
    vm_compute. discriminate.
Defined.


(** *** Bulk stock decrement *)

Lemma bulkOps_length items now : length (bulkOps items now) = length items.
Proof. unfold bulkOps. apply length_map. Qed.

(** The [i]-th operation is built from the [i]-th item alone: it selects
    that product when not soft-deleted and decrements by that quantity. *)
Lemma bulkOps_lookup items now i item :
  items !! i = Some item ->
  bulkOps items now !! i
  = Some (mkUpdateOne (mkFilter (item_id item) false) (mkUpdate (- quantity item) now)).
Proof.
  revert i. induction items as [|x items IH]; intros [|i] H; try discriminate.
  - injection H as ->. reflexivity.
  - apply IH, H.
Qed.

Lemma matches_soft_deleted f p :
  filter_isDeleted f = false -> isDeleted p = true -> matches f p = false.
Proof.
  intros Hf Hp. unfold matches. rewrite Hf, Hp. apply andb_false_r.
Qed.

Lemma updateFirst_map_inv {A B} (g : A -> B) (P : A -> bool) (f : A -> A) l :
  (forall x, g (f x) = g x) -> map g (updateFirst P f l) = map g l.
Proof.
  intros Hg. induction l as [|x l IH]; [reflexivity|].
  simpl. destruct (P x); simpl; [rewrite Hg | rewrite IH]; reflexivity.
Qed.

(** No operation of the bulk write assigns [status]. *)
Lemma bulkWrite_status ops : forall ps, map status (bulkWrite ops ps) = map status ps.
Proof.
  induction ops as [|op ops IH]; intros ps; [reflexivity|].
  unfold bulkWrite in *. simpl. rewrite IH.
  apply updateFirst_map_inv. reflexivity.
Qed.

Lemma bulkUpdateStock_status items now ps :
  map status (bulkUpdateStock items now ps) = map status ps.
Proof. apply bulkWrite_status. Qed.

(** C2: the bulk decrement of 5 units on an ACTIVE product holding 5
    leaves it ACTIVE with stock 0, while the save hook on the same stock
    change turns it OUT_OF_STOCK; a further unit takes the stock below 0. *)
Theorem bulkUpdateStock_skips_status_transition :
  bulkUpdateStock [mkStockItem "p1" 5] 99 [Samples.soap]
  = [set_updatedAt (set_stock Samples.soap 0) 99]
  /\ status (set_updatedAt (set_stock Samples.soap 0) 99) = ACTIVE
  /\ status (preSaveStatus true (set_stock Samples.soap 0)) = OUT_OF_STOCK
  /\ map stock (bulkUpdateStock [mkStockItem "p1" 6] 99 [Samples.soap]) = [-1].
Proof. repeat split. Qed.

(** *** SKU generation *)

Lemma candidate_0 rnd cur : candidate rnd cur 0 = generateRandomSKU rnd cur.
Proof. unfold candidate. f_equal. lia. Qed.

Lemma candidate_shift rnd cur k : candidate rnd (cur + 7) k = candidate rnd cur (S k).
Proof. unfold candidate. f_equal. lia. Qed.

(** While the candidates collide the loop has not left. *)
Lemma skuLoop_colliding ps rnd : forall n cur,
  (forall j, (j < n)%nat -> is_Some (findOneBySku ps (candidate rnd cur j))) ->
  skuLoop n ps rnd cur = None.
Proof.
  induction n as [|n IH]; intros cur Hcol; [reflexivity|].
  simpl. destruct (Hcol O ltac:(lia)) as [found Hfound].
  rewrite candidate_0 in Hfound. rewrite Hfound.
  apply IH. intros j Hj. rewrite candidate_shift. apply Hcol. lia.
Qed.

(** The loop leaves at the first candidate that is not found. *)
Lemma skuLoop_first_free ps rnd : forall n cur fuel,
  (forall j, (j < n)%nat -> is_Some (findOneBySku ps (candidate rnd cur j))) ->
  findOneBySku ps (candidate rnd cur n) = None ->
  (n < fuel)%nat ->
  skuLoop fuel ps rnd cur = Some (candidate rnd cur n).
Proof.
  induction n as [|n IH]; intros cur [|fuel] Hcol Hfree Hlt; try lia.
  - simpl. rewrite candidate_0 in Hfree. rewrite Hfree.
    rewrite candidate_0. reflexivity.
  - simpl. destruct (Hcol O ltac:(lia)) as [found Hfound].
    rewrite candidate_0 in Hfound. rewrite Hfound.
    rewrite <- candidate_shift. apply IH.
    + intros j Hj. rewrite candidate_shift. apply Hcol. lia.
    + rewrite candidate_shift. exact Hfree.
    + lia.
Qed.

Lemma zeros_candidate cur k : candidate Samples.zeros cur k = "AAA-0000-AAA".
Proof. reflexivity. Qed.

(** C6, as stated, fails: against a store holding ["AAA-0000-AAA"] and
    draws that keep producing it, no number of iterations ends the hook,
    neither with a SKU nor with an error. *)
Lemma preSaveSku_never_ends_under_collisions :
  ~ exists fuel out,
      preSaveSku fuel [Samples.soap] Samples.zeros 0 Samples.tea = Some out.
Proof.
  intros (fuel & out & H). unfold preSaveSku in H. simpl in H.
  rewrite skuLoop_colliding in H; [discriminate|].
  intros j _. rewrite zeros_candidate. eexists. reflexivity.
Qed.

(** C6, amended: for a product saved without a SKU, the hook draws
    candidates until one is not found among the persisted products.  As
    long as the first [n] candidates collide, [n] iterations have not
    ended it; once candidate [n] is free, any longer run ends with that
    candidate, upper-cased, as the SKU.  No iteration count makes it fail. *)
Theorem preSaveSku_runs_until_first_free ps rnd cur p n :
  Js.truthyStr (sku p) = false ->
  (forall j, (j < n)%nat -> is_Some (findOneBySku ps (candidate rnd cur j))) ->
  preSaveSku n ps rnd cur p = None
  /\ (findOneBySku ps (candidate rnd cur n) = None ->
      forall fuel, (n < fuel)%nat ->
        preSaveSku fuel ps rnd cur p
        = Some (set_sku p (Some (Js.toUpperCase (candidate rnd cur n))))).
Proof.
  intros Hsku Hcol. unfold preSaveSku. rewrite Hsku. split.
  - rewrite skuLoop_colliding by exact Hcol. reflexivity.
  - intros Hfree fuel Hlt.
    rewrite (skuLoop_first_free ps rnd n cur fuel Hcol Hfree Hlt). reflexivity.
Qed.

Lemma preSaveSku_runs_until_first_free_witness :
  Js.truthyStr (sku Samples.tea) = false
  /\ (forall j, (j < 1)%nat ->
        is_Some (findOneBySku [Samples.soap] (candidate Samples.zerosThenHalves 0 j)))
  /\ preSaveSku 1 [Samples.soap] Samples.zerosThenHalves 0 Samples.tea = None
  /\ (findOneBySku [Samples.soap] (candidate Samples.zerosThenHalves 0 1) = None ->
      forall fuel, (1 < fuel)%nat ->
        preSaveSku fuel [Samples.soap] Samples.zerosThenHalves 0 Samples.tea
        = Some (set_sku Samples.tea (Some "NNN-5000-NNN"))).
Proof.
  assert (Hcol : forall j, (j < 1)%nat ->
            is_Some (findOneBySku [Samples.soap] (candidate Samples.zerosThenHalves 0 j))).
  { intros j Hj. assert (j = O) as -> by lia. eexists. reflexivity. }
  split; [reflexivity|]. split; [exact Hcol|].
  exact (preSaveSku_runs_until_first_free [Samples.soap] Samples.zerosThenHalves 0
           Samples.tea 1 eq_refl Hcol).
Defined.

End ProductProps.

(** ** Cart aggregate *)

Module CartProps.
Import CartModel CartController.

Lemma fold_quantity l : forall a,
  fold_left (fun total item => total + quantity item) l a = a + sumQuantity l.
Proof.
  induction l as [|i l IH]; intros a; simpl; [lia|]. rewrite IH. lia.
Qed.

Lemma fold_price l : forall a,
  fold_left (fun total item => total + quantity item * priceAtAddTime item) l a
  = a + sumPrice l.
Proof.
  induction l as [|i l IH]; intros a; simpl; [lia|]. rewrite IH. lia.
Qed.

(** The hook rebuilds both totals from the lines. *)
Lemma preSave_consistent c : totalsConsistent (preSave c).
Proof.
  unfold totalsConsistent, preSave. simpl.
  rewrite fold_quantity, fold_price. split; reflexivity.
Qed.

Lemma preSave_items c : items (preSave c) = items c.
Proof. reflexivity. Qed.

Lemma updateFirst_Forall {A} (Q : A -> Prop) (P : A -> bool) (f : A -> A) l :
  (forall x, Q (f x)) -> Forall Q l -> Forall Q (updateFirst P f l).
Proof.
  intros Hf. induction 1 as [|x l Hx Hl IH]; simpl; [constructor|].
  destruct (P x); constructor; auto.
Qed.








End CartProps.

(** ** Order creation *)

Module OrderProps.
Import OrderModel OrderController.

(** *** Store lemmas *)

Lemma find_some_true {A} (P : A -> bool) l x : List.find P l = Some x -> P x = true.
Proof. intros H. apply find_some in H. tauto. Qed.

(** After a write-back through predicate [P], a lookup through a stronger
    predicate [R] that the written document satisfies returns it. *)
Lemma find_updateFirst {A} (P R : A -> bool) (y : A) l x :
  (forall a, R a = true -> P a = true) ->
  List.find R l = Some x -> P y = true -> R y = true ->
  List.find R (updateFirst P (fun _ => y) l) = Some y.
Proof.
  intros HRP Hfind HPy HRy. induction l as [|a l IH]; [discriminate|].
  simpl in *. destruct (P a) eqn:HPa.
  - simpl. rewrite HRy. reflexivity.
  - simpl. destruct (R a) eqn:HRa.
    + apply HRP in HRa. congruence.
    + apply IH, Hfind.
Qed.

Lemma existsb_false_not_in (n : string) (l : list Order) :
  orderNumberTaken l n = false -> ~ In n (map orderNumber l).
Proof.
  unfold orderNumberTaken. induction l as [|d l IH]; simpl; [tauto|].
  intros H. apply orb_false_elim in H as [Hd Hl].
  intros [Heq|Hin]; [|exact (IH Hl Hin)].
  rewrite Heq, String.eqb_refl in Hd. discriminate.
Qed.

(** *** The hook and [create] *)

Lemma preSave_untouched now rnd cur o :
  String.eqb (orderNumber o) "" = false ->
  preSave true false false now rnd cur o = o.
Proof. intros H. unfold preSave. rewrite H. reflexivity. Qed.

Lemma validate_orderNumber o : validate o = true -> String.eqb (orderNumber o) "" = false.
Proof.
  unfold validate. rewrite !andb_true_iff, negb_true_iff. tauto.
Qed.

Lemma validate_items o : validate o = true -> forallb validItem (items o) = true.
Proof. unfold validate. rewrite !andb_true_iff. tauto. Qed.

Lemma create_inr newId userId n items0 addr pm amount notes0 now rnd cur os o os' :
  create newId userId n items0 addr pm amount notes0 now rnd cur os = inr (o, os') ->
  _id o = newId /\ user o = userId /\ orderNumber o = n /\ items o = items0
  /\ orderStatus o = "processing" /\ paymentStatus o = "pending"
  /\ validate o = true /\ orderNumberTaken os n = false /\ os' = (os ++ [o])%list.
Proof.
  unfold create.
  set (a := if String.eqb (country addr) "" then _ else _).
  set (d := mkOrder _ _ _ _ _ _ _ _ _ _ _ _ _ _ _ _ _ _ _).
  destruct (validate d) eqn:Hv; [|discriminate].
  rewrite (preSave_untouched _ _ _ _ (validate_orderNumber _ Hv)).
  destruct (orderNumberTaken os (orderNumber d)) eqn:Ht; [discriminate|].
  intros [= <- <-]. repeat split; assumption.
Qed.

(** *** [createOrder] *)

Lemma snapshot_items ps lines : forall its,
  snapshot ps lines = Some its ->
  Forall2 (fun line it =>
             exists p, populate ps line = Some p
               /\ it = mkOrderItem (ProductModel._id p) (CartModel.quantity line)
                         (ProductModel.sellingPrice p)
                         ((fun price => price * CartModel.quantity line)
                            <$> ProductModel.sellingPrice p))
          lines its.
Proof.
  induction lines as [|line lines IH]; intros its H; simpl in H.
  - injection H as <-. constructor.
  - destruct (populate ps line) as [p|] eqn:Hp; [|discriminate].
    destruct (snapshot ps lines) as [rest|]; [|discriminate].
    injection H as <-. constructor; [eauto | apply IH; reflexivity].
Qed.

(** [find] returns the first element satisfying the predicate. *)
Lemma find_first {A} (P : A -> bool) (l : list A) x :
  List.find P l = Some x ->
  exists i : nat, l !! i = Some x /\ P x = true
    /\ forall (j : nat) y, (j < i)%nat -> l !! j = Some y -> P y = false.
Proof.
  induction l as [|a l IH]; [discriminate|].
  simpl. destruct (P a) eqn:Pa.
  - intros [= <-]. exists O. split; [reflexivity|]. split; [exact Pa|].
    intros j y Hj. inversion Hj.
  - intros H. destruct (IH H) as (i & Hi & Px & Hbefore).
    exists (S i). split; [exact Hi|]. split; [exact Px|].
    intros [|j] y Hj Hy.
    + injection Hy as <-. exact Pa.
    + apply (Hbefore j y); [apply PeanoNat.lt_S_n, Hj | exact Hy].
Qed.

Lemma snapshot_valid ps lines its :
  snapshot ps lines = Some its -> forallb validItem its = true ->
  Forall2 (snapshotOf ps) lines its.
Proof.
  intros Hs Hv. apply snapshot_items in Hs.
  induction Hs as [|line it lines its (p & Hp & ->) _ IH]; [constructor|].
  simpl in Hv. apply andb_prop in Hv as [Hit Hrest].
  constructor; [|exact (IH Hrest)].
  unfold populate in Hp. apply find_first in Hp as (i & Hi & HP & Hbefore).
  apply andb_prop in HP as [Hid Hlive].
  apply String.eqb_eq in Hid. apply negb_true_iff in Hlive.
  unfold validItem in Hit. simpl in Hit.
  destruct (ProductModel.sellingPrice p) as [price|] eqn:Hprice.
  - split; [exact Hid|]. split; [reflexivity|].
    exists i, p, price. split; [exact Hi|]. split; [exact Hid|].
    split; [exact Hlive|]. split; [|repeat split; assumption].
    intros j q Hj Hq Hqid. specialize (Hbefore j q Hj Hq).
    apply String.eqb_eq in Hqid. rewrite Hqid in Hbefore.
    destruct (ProductModel.isDeleted q); [reflexivity | discriminate].
  - rewrite !andb_false_r in Hit. discriminate.
Qed.

(** With distinct ids in the catalog the product of a snapshot is the
    product the line names: any catalog product with the line's id is live
    and its selling price is the unit price of the item. *)
Lemma snapshotOf_the_product ps line it p :
  NoDup (map ProductModel._id ps) ->
  snapshotOf ps line it ->
  In p ps -> ProductModel._id p = CartModel.product line ->
  ProductModel.isDeleted p = false
  /\ unitPrice it = ProductModel.sellingPrice p
  /\ totalPrice it
     = (fun price => price * CartModel.quantity line) <$> ProductModel.sellingPrice p.
Proof.
  intros Hnd (_ & _ & i & p0 & price & Hi & Hid & Hlive & _ & Hprice & Hu & Ht) Hin Hpid.
  apply list_elem_of_In, list_elem_of_lookup in Hin as [k Hk].
  assert (Hik : i = k).
  { apply (NoDup_lookup _ _ _ (CartModel.product line) Hnd);
      rewrite list_lookup_fmap; [rewrite Hi | rewrite Hk]; simpl; congruence. }
  subst k. assert (p0 = p) by congruence. subst p0.
  rewrite Hprice, Hu, Ht. auto.
Qed.

(** What a successful checkout of the cart did, step by step. *)
Lemma createOrder_fromCart_inv reqUser body now newId rnd cur db code payload message db' :
  default true (body_fromCart body) = true ->
  createOrder reqUser body now newId rnd cur db = (Respond code payload message, db') ->
  exists userId cart order,
    reqUser = Some userId
    /\ CartModel.findOne (carts db) userId = Some cart
    /\ snapshot (products db) (CartModel.items cart) = Some (items order)
    /\ validate order = true
    /\ orderNumber order = "ORD-" +:+ Js.toString now
    /\ orderNumberTaken (orders db) (orderNumber order) = false
    /\ payload = (_id order, orderNumber order)
    /\ db' = mkDb (products db)
                  (CartModel.findOneAndUpdate_items (carts db) userId [])
                  (orders db ++ [order])%list.
Proof.
  intros Hfrom. unfold createOrder. rewrite Hfrom.
  destruct reqUser as [userId|]; simpl; [|discriminate].
  destruct (negb (negb (String.eqb userId ""))); [discriminate|].
  destruct (CartModel.findOne (carts db) userId) as [cart|] eqn:Hcart; [|discriminate].
  destruct (Nat.eqb _ 0); [discriminate|].
  destruct (snapshot (products db) (CartModel.items cart)) as [its|] eqn:Hsnap;
    [|discriminate].
  destruct (create _ _ _ _ _ _ _ _ _ _ _ _) as [e|[order os']] eqn:Hc;
    [destruct e; discriminate|].
  intros [= <- <- _ <-].
  apply create_inr in Hc as (_ & _ & Hn & Hi & _ & _ & Hv & Ht & ->).
  exists userId, cart, order. rewrite Hi, Hn. repeat split; assumption.
Qed.


(** C4: when [createOrder] places an order from the cart, the cart was
    not empty, the order is the one appended to the store, and its items
    pair with the cart lines, in order: each item names the product and
    the quantity of its line, its [unitPrice] is the selling price the
    catalog holds at that moment for the product with the line's id (the
    live one) and its [totalPrice] is that price times the quantity; the
    line's [priceAtAddTime] does not enter. *)
Theorem createOrder_snapshots_catalog_price
        reqUser body now newId rnd cur db code payload message db' :
  default true (body_fromCart body) = true ->
  createOrder reqUser body now newId rnd cur db = (Respond code payload message, db') ->
  exists userId cart order,
    reqUser = Some userId
    /\ CartModel.findOne (carts db) userId = Some cart
    /\ CartModel.items cart <> []
    /\ orders db' = (orders db ++ [order])%list
    /\ payload = (_id order, orderNumber order)
    /\ Forall2 (snapshotOf (products db)) (CartModel.items cart) (items order).
Proof.
  intros Hfrom Hrun.
  destruct (createOrder_fromCart_inv _ _ _ _ _ _ _ _ _ _ _ Hfrom Hrun)
    as (userId & cart & order & Hu & Hcart & Hsnap & Hv & _ & _ & Hp & ->).
  exists userId, cart, order. repeat split; try assumption.
  - intros Hnil. apply validate_items in Hv as Hvi.
    unfold validate in Hv. rewrite !andb_true_iff in Hv.
    rewrite Hnil in Hsnap. simpl in Hsnap. injection Hsnap as Hitems.
    rewrite <- Hitems in Hv. simpl in Hv. intuition discriminate.
  - apply snapshot_valid; [exact Hsnap | apply validate_items, Hv].
Qed.

Lemma createOrder_snapshots_catalog_price_witness :
  default true (body_fromCart Samples.checkout3) = true
  /\ createOrder (Some "u3") Samples.checkout3 Samples.now "o3" Samples.zeros 0 Samples.db3
     = (Respond 201 ("o3", "ORD-1700000000000") (Some "Order created successfully"),
        Samples.db3After)
  /\ exists userId cart order,
      Some "u3" = Some userId
      /\ CartModel.findOne (carts Samples.db3) userId = Some cart
      /\ CartModel.items cart <> []
      /\ orders Samples.db3After = (orders Samples.db3 ++ [order])%list
      /\ ("o3", "ORD-1700000000000") = (_id order, orderNumber order)
      /\ Forall2 (snapshotOf (products Samples.db3)) (CartModel.items cart) (items order).
Proof.
  split; [reflexivity|]. split; [reflexivity|].
  exact (createOrder_snapshots_catalog_price (Some "u3") Samples.checkout3 Samples.now
           "o3" Samples.zeros 0 Samples.db3 201 ("o3", "ORD-1700000000000")
           (Some "Order created successfully") Samples.db3After eq_refl eq_refl).
Defined.

(** The third customer's order: tea at 20 and soap at 12, the catalog's
    prices, where the cart recorded 15 and 10. *)
Example createOrder_snapshot_of_two_lines :
  Forall2 (snapshotOf (products Samples.db3))
          (CartModel.items Samples.cart3) (items Samples.placed3)
  /\ map unitPrice (items Samples.placed3) = [Some 20; Some 12]
  /\ map CartModel.priceAtAddTime (CartModel.items Samples.cart3) = [15; 10].
Proof.
  split; [|split; reflexivity].
  apply snapshot_valid; reflexivity.
Qed.

(** The order number of a placed order is the clock reading alone: the
    random stream does not enter it. *)
Lemma createOrder_orderNumber reqUser body now newId rnd cur db code id n message db' :
  createOrder reqUser body now newId rnd cur db = (Respond code (id, n) message, db') ->
  n = "ORD-" +:+ Js.toString now.
Proof.
  unfold createOrder.
  destruct (negb (Js.truthyStr reqUser)); [discriminate|].
  match goal with |- context [match ?g with inl _ => _ | inr _ => _ end] =>
    destruct g as [e|its] end; [destruct e; discriminate|].
  destruct (create _ _ _ _ _ _ _ _ _ _ _ _) as [e|[order os']] eqn:Hc;
    [destruct e; discriminate|].
  intros [= _ _ <- _]. apply create_inr in Hc. tauto.
Qed.

(** The unique index keeps the order numbers of the store distinct. *)
Lemma createOrder_unique_orderNumbers reqUser body now newId rnd cur db out db' :
  createOrder reqUser body now newId rnd cur db = (out, db') ->
  NoDup (map orderNumber (orders db)) ->
  NoDup (map orderNumber (orders db')).
Proof.
  unfold createOrder.
  destruct (negb (Js.truthyStr reqUser)); [intros [= _ <-]; auto|].
  match goal with |- context [match ?g with inl _ => _ | inr _ => _ end] =>
    destruct g as [e|its] end; [intros [= _ <-]; auto|].
  destruct (create _ _ _ _ _ _ _ _ _ _ _ _) as [e|[order os']] eqn:Hc;
    [intros [= _ <-]; auto|].
  intros [= _ <-] Hnd. simpl.
  apply create_inr in Hc as (_ & _ & Hn & _ & _ & _ & _ & Ht & ->).
  rewrite map_app. simpl.
  apply NoDup_app. split; [exact Hnd|]. split.
  - intros x Hx Hx1. apply list_elem_of_In in Hx. apply list_elem_of_In in Hx1.
    destruct Hx1 as [<-|[]]. rewrite Hn in Hx.
    exact (existsb_false_not_in _ _ Ht Hx).
  - apply NoDup_singleton.
Qed.

(** C8: two customers check out at the same clock reading.  The first
    order gets ["ORD-1700000000000"], the timestamp with nothing after it;
    the second request builds the same number whatever the random draws,
    the unique index rejects it, and the customer is answered 500 with
    nothing written. *)
Theorem createOrder_same_millisecond_collides :
  createOrder (Some "u1") Samples.checkout Samples.now "o1" Samples.zeros 0 Samples.db
  = (Respond 201 ("o1", "ORD-" +:+ Js.toString Samples.now)
        (Some "Order created successfully"), Samples.dbAfter)
  /\ createOrder (Some "u2") Samples.checkout Samples.now "o2"
                 Samples.zerosThenHalves 7 Samples.dbAfter
     = (RespondError 500 "Internal Server Error", Samples.dbAfter).
Proof. split; reflexivity. Qed.

(** After a checkout of the cart, the customer's cart has no lines and
    the totals it had before. *)
Lemma createOrder_cart_after reqUser body now newId rnd cur db code payload message db' :
  default true (body_fromCart body) = true ->
  createOrder reqUser body now newId rnd cur db = (Respond code payload message, db') ->
  exists userId cart,
    reqUser = Some userId
    /\ CartModel.findOne (carts db) userId = Some cart
    /\ CartModel.findOne (carts db') userId = Some (CartModel.set_items cart []).
Proof.
  intros Hfrom Hrun.
  destruct (createOrder_fromCart_inv _ _ _ _ _ _ _ _ _ _ _ Hfrom Hrun)
    as (userId & cart & order & Hu & Hcart & _ & _ & _ & _ & _ & ->).
  exists userId, cart. split; [exact Hu|]. split; [exact Hcart|].
  simpl. unfold CartModel.findOne, CartModel.findOneAndUpdate_items in *.
  revert Hcart. generalize (carts db) as cs.
  induction cs as [|c cs IH]; [discriminate|].
  simpl. destruct (String.eqb (CartModel.user c) userId) eqn:Hc.
  - intros [= ->]. simpl. rewrite Hc. reflexivity.
  - intros Hcart. simpl. rewrite Hc. apply IH, Hcart.
Qed.

(** C1: the checkout of a cart holding two units at 10 leaves it with no
    lines but with [totalItems] 2 and [totalPrice] 20, so the totals are
    no longer the sums over the lines; [clearCart] on the same cart
    stores 0 and 0. *)
Theorem createOrder_clears_lines_keeps_totals :
  CartModel.storeConsistent (carts Samples.db)
  /\ createOrder (Some "u1") Samples.checkout Samples.now "o1" Samples.zeros 0 Samples.db
     = (Respond 201 ("o1", "ORD-1700000000000")
           (Some "Order created successfully"), Samples.dbAfter)
  /\ CartModel.findOne (carts Samples.dbAfter) "u1"
     = Some (CartModel.mkCart "c1" "u1" [] 20 2)
  /\ ~ CartModel.totalsConsistent (CartModel.mkCart "c1" "u1" [] 20 2)
  /\ fst (CartController.clearCart "u1" (carts Samples.db))
     = Respond 200 (CartModel.mkCart "c1" "u1" [] 0 0) (Some "Cart cleared successfully").
Proof.
  split; [repeat constructor|].
  split; [reflexivity|]. split; [reflexivity|].
  split; [intros [H _]; discriminate H | reflexivity].
Qed.


(** *** Order status transitions *)

(** Validation does not read the fields the status handlers assign, other
    than [orderStatus] and [cancelReason]. *)
Lemma validate_reassigned o s tn ed reason dl dAt :
  validate o = true ->
  includes ORDER_STATUS s = true ->
  maxlength 200 reason = true ->
  validate (mkOrder (_id o) (orderNumber o) (user o) (items o) (shippingAddress o)
                    (paymentMethod o) (paymentStatus o) s (paymentDetails o) tn ed
                    (notes o) reason (totalAmount o) (discount o) (shippingFee o)
                    dl dAt (createdAt o)) = true.
Proof.
  unfold validate. cbn [orderNumber user items shippingAddress paymentMethod
    paymentStatus orderStatus notes cancelReason totalAmount discount shippingFee].
  rewrite !andb_true_iff. intros H Hs Hr. tauto.
Qed.

Lemma validate_cancelReason o : validate o = true -> maxlength 200 (cancelReason o) = true.
Proof. unfold validate. rewrite !andb_true_iff. tauto. Qed.

Lemma canBeCancelled_iff o :
  canBeCancelled o = true
  <-> orderStatus o = "processing" \/ orderStatus o = "confirmed".
Proof.
  unfold canBeCancelled, includes. simpl.
  rewrite orb_false_r, orb_true_iff, !String.eqb_eq. tauto.
Qed.

(** The hook leaves alone a loaded order that is not being delivered or
    paid. *)
Lemma preSave_cancelled m now rnd cur o :
  orderStatus o = "cancelled" -> preSave false m false now rnd cur o = o.
Proof.
  intros H. unfold preSave. simpl. rewrite H. simpl.
  rewrite andb_false_r. reflexivity.
Qed.

(** C3: for an order found for its owner (stored schema-valid, with a
    reason the schema accepts), [cancelOrder] answers with the order set to
    cancelled and the reason recorded, and stores it, when the status is
    processing or confirmed; for any other status it throws the
    [InvalidTransition] error and writes nothing. *)
Theorem cancelOrder_exactly_when_cancellable orderId userId reason now rnd cur os o :
  findOne os orderId userId = Some o ->
  validate o = true ->
  maxlength 200 reason = true ->
  (orderStatus o = "processing" \/ orderStatus o = "confirmed" ->
   exists o' os',
     cancelOrder orderId userId reason now rnd cur os
       = (Respond 200 o' (Some "Order cancelled successfully"), os')
     /\ o' = set_cancelReason (set_orderStatus o "cancelled") reason
     /\ orderStatus o' = "cancelled" /\ cancelReason o' = reason
     /\ findOne os' orderId userId = Some o')
  /\ (~ (orderStatus o = "processing" \/ orderStatus o = "confirmed") ->
      cancelOrder orderId userId reason now rnd cur os = (Throw InvalidTransition, os)).
Proof.
  intros Hfind Hv Hr. unfold cancelOrder. rewrite Hfind. split.
  - intros Hst. apply canBeCancelled_iff in Hst as Hcan. rewrite Hcan. simpl.
    set (o' := set_cancelReason (set_orderStatus o "cancelled") reason).
    assert (Hv' : validate o' = true)
      by exact (validate_reassigned o "cancelled" (trackingNumber o)
                  (estimatedDelivery o) reason (isDelivered o) (deliveredAt o)
                  Hv eq_refl Hr).
    unfold saveOr, save. rewrite Hv'.
    replace (paymentStatus o') with (paymentStatus o) by reflexivity.
    rewrite (String.eqb_refl (paymentStatus o)). cbn [negb].
    rewrite preSave_cancelled by reflexivity.
    eexists _, _. split; [reflexivity|]. repeat split.
    apply find_some_true in Hfind as Ho. apply andb_prop in Ho as [Hid Hu].
    apply String.eqb_eq in Hid.
    eapply find_updateFirst; [| exact Hfind | apply String.eqb_refl |].
    + intros a Ha. apply andb_prop in Ha as [Ha _].
      apply String.eqb_eq in Ha. apply String.eqb_eq. rewrite Ha. symmetry. exact Hid.
    + simpl. rewrite Hu, andb_true_r. apply String.eqb_eq, Hid.
  - intros Hst. destruct (canBeCancelled o) eqn:Hcan.
    + apply canBeCancelled_iff in Hcan. contradiction.
    + reflexivity.
Qed.

Lemma cancelOrder_exactly_when_cancellable_witness :
  findOne [Samples.placed] "o1" "u1" = Some Samples.placed
  /\ validate Samples.placed = true
  /\ maxlength 200 (Some "changed my mind") = true
  /\ (orderStatus Samples.placed = "processing"
      \/ orderStatus Samples.placed = "confirmed" ->
      exists o' os',
        cancelOrder "o1" "u1" (Some "changed my mind") Samples.now Samples.zeros 0
                    [Samples.placed] = (Respond 200 o' (Some "Order cancelled successfully"), os')
        /\ o' = set_cancelReason (set_orderStatus Samples.placed "cancelled")
                                 (Some "changed my mind")
        /\ orderStatus o' = "cancelled" /\ cancelReason o' = Some "changed my mind"
        /\ findOne os' "o1" "u1" = Some o')
  /\ (~ (orderStatus Samples.placed = "processing"
         \/ orderStatus Samples.placed = "confirmed") ->
      cancelOrder "o1" "u1" (Some "changed my mind") Samples.now Samples.zeros 0
                  [Samples.placed] = (Throw InvalidTransition, [Samples.placed])).
Proof.
  split; [reflexivity|]. split; [reflexivity|]. split; [reflexivity|].
  exact (cancelOrder_exactly_when_cancellable "o1" "u1" (Some "changed my mind")
           Samples.now Samples.zeros 0 [Samples.placed] Samples.placed
           eq_refl eq_refl eq_refl).
Defined.

(** The statuses the specification lists are all refused. *)
Lemma not_cancellable_statuses o :
  In (orderStatus o) ["shipped"; "out_for_delivery"; "delivered"; "cancelled"; "returned"] ->
  canBeCancelled o = false.
Proof.
  unfold canBeCancelled. simpl.
  intros [<-|[<-|[<-|[<-|[<-|[]]]]]]; reflexivity.
Qed.


(** Validation reads neither the delivery fields nor the tracking fields. *)
Lemma validate_agree o o2 :
  validate o = true ->
  orderNumber o2 = orderNumber o -> user o2 = user o -> items o2 = items o ->
  shippingAddress o2 = shippingAddress o -> paymentMethod o2 = paymentMethod o ->
  paymentStatus o2 = paymentStatus o -> notes o2 = notes o ->
  totalAmount o2 = totalAmount o -> discount o2 = discount o ->
  shippingFee o2 = shippingFee o ->
  includes ORDER_STATUS (orderStatus o2) = true ->
  maxlength 200 (cancelReason o2) = true ->
  validate o2 = true.
Proof.
  unfold validate. rewrite !andb_true_iff.
  intros H -> -> -> -> -> -> -> -> -> -> -> ->. tauto.
Qed.

(** One [updateOrderStatus(id, "delivered")] on a stored order: the
    answer is stored under the same id, stays schema-valid, and its
    delivery fields depend on whether the status was delivered before. *)
Lemma updateOrderStatus_delivered_step id tn ed now rnd cur os o :
  findById os id = Some o ->
  validate o = true ->
  exists o' os',
    updateOrderStatus id "delivered" tn ed now rnd cur os
      = (Respond 200 o' (Some "Order status updated successfully"), os')
    /\ findById os' id = Some o'
    /\ validate o' = true
    /\ orderStatus o' = "delivered"
    /\ (orderStatus o <> "delivered" ->
        isDelivered o' = true /\ deliveredAt o' = Some (default now (deliveredAt o)))
    /\ (orderStatus o = "delivered" ->
        isDelivered o' = isDelivered o /\ deliveredAt o' = deliveredAt o).
Proof.
  intros Hfind Hv. unfold updateOrderStatus.
  change (negb (includes ORDER_STATUS "delivered")) with false. cbv iota.
  rewrite Hfind.
  set (o3 := match ed with Some _ => _ | None => _ end).
  assert (Hsame : orderNumber o3 = orderNumber o /\ user o3 = user o
                  /\ items o3 = items o /\ shippingAddress o3 = shippingAddress o
                  /\ paymentMethod o3 = paymentMethod o
                  /\ paymentStatus o3 = paymentStatus o /\ notes o3 = notes o
                  /\ totalAmount o3 = totalAmount o /\ discount o3 = discount o
                  /\ shippingFee o3 = shippingFee o /\ cancelReason o3 = cancelReason o
                  /\ orderStatus o3 = "delivered" /\ _id o3 = _id o
                  /\ isDelivered o3 = isDelivered o /\ deliveredAt o3 = deliveredAt o).
  { subst o3. destruct ed, (Js.truthyStr tn); repeat split. }
  destruct Hsame as (E1 & E2 & E3 & E4 & E5 & E6 & E7 & E8 & E9 & E10 & E11 & E12
                     & E13 & E14 & E15).
  assert (Hv3 : validate o3 = true).
  { apply (validate_agree o); try assumption.
    - rewrite E12. reflexivity.
    - rewrite E11. apply validate_cancelReason, Hv. }
  apply find_some_true in Hfind as Hid. apply String.eqb_eq in Hid.
  unfold saveOr, save. rewrite Hv3, E6, String.eqb_refl, E12. cbn [negb].
  set (o' := preSave _ _ _ _ _ _ _).
  assert (Ho' : o' = if String.eqb (orderStatus o) "delivered" then o3
                     else match deliveredAt o with
                          | None => set_deliveredAt (set_isDelivered o3 true) (Some now)
                          | Some _ => set_isDelivered o3 true
                          end).
  { subst o'. unfold preSave. cbn [andb]. rewrite E12.
    destruct (String.eqb (orderStatus o) "delivered"); cbn [negb andb];
      [reflexivity|].
    change (String.eqb "delivered" "delivered") with true. cbv iota.
    change (deliveredAt (set_isDelivered o3 true)) with (deliveredAt o3).
    rewrite E15. destruct (deliveredAt o); reflexivity. }
  assert (Hfacts : _id o' = id /\ validate o' = true /\ orderStatus o' = "delivered").
  { rewrite Ho'. destruct (String.eqb (orderStatus o) "delivered").
    - rewrite E13. auto.
    - destruct (deliveredAt o); (split; [cbn; rewrite E13; exact Hid|]);
        (split; [apply (validate_agree o3); try reflexivity; try assumption;
                 [cbn [orderStatus set_deliveredAt set_isDelivered]; rewrite E12; reflexivity
                 | cbn [cancelReason set_deliveredAt set_isDelivered]; rewrite E11;
                   apply validate_cancelReason, Hv]
                | cbn; exact E12]). }
  destruct Hfacts as (Hid' & Hv' & Hst').
  exists o', (updateFirst (fun d => String.eqb (_id d) (_id o')) (fun _ => o') os).
  split; [reflexivity|]. split.
  { unfold findById in *. rewrite Hid'.
    eapply find_updateFirst; [auto | exact Hfind | |]; apply String.eqb_eq, Hid'. }
  split; [exact Hv'|]. split; [exact Hst'|]. split.
  - intros Hne. apply String.eqb_neq in Hne. rewrite Ho', Hne.
    destruct (deliveredAt o); cbn; auto.
  - intros Heq. apply String.eqb_eq in Heq. rewrite Ho', Heq. auto.
Qed.

(** C9: on an order not yet delivered, [updateOrderStatus(id, "delivered")]
    sets [isDelivered] and gives [deliveredAt] the current time (an order
    delivered before keeps the time it had); a second such call, at any
    later time and with any tracking fields, leaves [deliveredAt] as the
    first call left it. *)
Theorem updateOrderStatus_delivered_once
        id tn1 ed1 tn2 ed2 now1 now2 rnd cur1 cur2 os o :
  findById os id = Some o ->
  validate o = true ->
  orderStatus o <> "delivered" ->
  exists o1 os1 o2 os2,
    updateOrderStatus id "delivered" tn1 ed1 now1 rnd cur1 os
      = (Respond 200 o1 (Some "Order status updated successfully"), os1)
    /\ orderStatus o1 = "delivered" /\ isDelivered o1 = true
    /\ deliveredAt o1 = Some (default now1 (deliveredAt o))
    /\ findById os1 id = Some o1
    /\ updateOrderStatus id "delivered" tn2 ed2 now2 rnd cur2 os1
      = (Respond 200 o2 (Some "Order status updated successfully"), os2)
    /\ orderStatus o2 = "delivered" /\ isDelivered o2 = true
    /\ deliveredAt o2 = deliveredAt o1
    /\ findById os2 id = Some o2.
Proof.
  intros Hfind Hv Hne.
  destruct (updateOrderStatus_delivered_step id tn1 ed1 now1 rnd cur1 os o Hfind Hv)
    as (o1 & os1 & Hrun1 & Hfind1 & Hv1 & Hst1 & Hfirst & _).
  destruct (Hfirst Hne) as [Hd1 Hat1].
  destruct (updateOrderStatus_delivered_step id tn2 ed2 now2 rnd cur2 os1 o1 Hfind1 Hv1)
    as (o2 & os2 & Hrun2 & Hfind2 & _ & Hst2 & _ & Hagain).
  destruct (Hagain Hst1) as [Hd2 Hat2].
  exists o1, os1, o2, os2. repeat split; try assumption.
  rewrite Hd2. exact Hd1.
Qed.

Lemma updateOrderStatus_delivered_once_witness :
  findById [Samples.placed] "o1" = Some Samples.placed
  /\ validate Samples.placed = true
  /\ orderStatus Samples.placed <> "delivered"
  /\ exists o1 os1 o2 os2,
      updateOrderStatus "o1" "delivered" (Some "TRK1") None Samples.now Samples.zeros 0
                        [Samples.placed]
                          = (Respond 200 o1 (Some "Order status updated successfully"), os1)
      /\ orderStatus o1 = "delivered" /\ isDelivered o1 = true
      /\ deliveredAt o1 = Some (default Samples.now (deliveredAt Samples.placed))
      /\ findById os1 "o1" = Some o1
      /\ updateOrderStatus "o1" "delivered" None None (Samples.now + 60000)
                           Samples.zeros 0 os1
                             = (Respond 200 o2 (Some "Order status updated successfully"), os2)
      /\ orderStatus o2 = "delivered" /\ isDelivered o2 = true
      /\ deliveredAt o2 = deliveredAt o1
      /\ findById os2 "o1" = Some o2.
Proof.
  assert (Hne : orderStatus Samples.placed <> "delivered") by discriminate.
  split; [reflexivity|]. split; [reflexivity|]. split; [exact Hne|].
  exact (updateOrderStatus_delivered_once "o1" (Some "TRK1") None None None
           Samples.now (Samples.now + 60000) Samples.zeros 0 0
           [Samples.placed] Samples.placed eq_refl eq_refl Hne).
Defined.

End OrderProps.

(** ** Order analytics *)

Module AnalyticsProps.
Import OrderModel OrderController.

Lemma matchStage_nil start os :
  (forall o, In o os -> createdAt o < start) -> matchStage start os = [].
Proof.
  unfold matchStage. induction os as [|o os IH]; intros H; [reflexivity|].
  simpl. destruct (Z.leb_spec start (createdAt o)) as [Hle|_].
  - specialize (H o (or_introl eq_refl)). lia.
  - apply IH. intros d Hd. apply H. right. exact Hd.
Qed.

(** With an order in the window the summary carries the figures. *)
Lemma getOrderAnalytics_some_orders days0 now os d ds :
  matchStage (startDate now (default 30 days0)) os = d :: ds ->
  exists a,
    getOrderAnalytics days0 now os = Respond 200 a (Some "Order analytics retrieved successfully")
    /\ summary a !! "totalOrders" = Some (JNumber (inject_Z (Z.of_nat (length (d :: ds)))))
    /\ summary a !! "totalRevenue" = Some (JNumber (inject_Z (sumAmount (d :: ds)))).
Proof.
  intros H. unfold getOrderAnalytics. rewrite H.
  eexists. split; [reflexivity|]. split; reflexivity.
Qed.

(** C7, as stated, fails: with no order at all, the summary of a 30-day
    window has no [totalOrders] field, so it is not 0. *)
Lemma getOrderAnalytics_no_orders_no_zero_fields :
  ~ exists a,
      getOrderAnalytics (Some 30) Samples.now []
        = Respond 200 a (Some "Order analytics retrieved successfully")
      /\ summary a !! "totalOrders" = Some (JNumber 0)
      /\ summary a !! "totalRevenue" = Some (JNumber 0)
      /\ summary a !! "avgOrderValue" = Some (JNumber 0).
Proof.
  intros (a & Hrun & Htotal & _).
  injection Hrun as <-. discriminate Htotal.
Qed.

(** C7, amended: for every window length, when no order was created
    within the window the handler answers 200 (no error) with an empty
    summary object, in which no field is present, and an empty status
    breakdown. *)
Theorem getOrderAnalytics_empty_window days0 now os :
  (forall o, In o os -> createdAt o < startDate now (default 30 days0)) ->
  exists a,
    getOrderAnalytics days0 now os = Respond 200 a (Some "Order analytics retrieved successfully")
    /\ summary a = ∅ /\ statusBreakdown a = ∅
    /\ forall field, summary a !! field = None.
Proof.
  intros Hout. unfold getOrderAnalytics.
  rewrite (matchStage_nil _ _ Hout).
  eexists. split; [reflexivity|]. repeat split.
Qed.

Lemma getOrderAnalytics_empty_window_witness :
  (forall o, In o [Samples.placed] ->
             createdAt o < startDate (Samples.now + 90 * 86400000) (default 30 (Some 30)))
  /\ exists a,
      getOrderAnalytics (Some 30) (Samples.now + 90 * 86400000) [Samples.placed]
      = Respond 200 a (Some "Order analytics retrieved successfully")
      /\ summary a = ∅ /\ statusBreakdown a = ∅
      /\ forall field, summary a !! field = None.
Proof.
  assert (Hout : forall o, In o [Samples.placed] ->
            createdAt o < startDate (Samples.now + 90 * 86400000) (default 30 (Some 30))).
  { intros o [<-|[]]. reflexivity. }
  split; [exact Hout|].
  exact (getOrderAnalytics_empty_window (Some 30) (Samples.now + 90 * 86400000)
           [Samples.placed] Hout).
Defined.

End AnalyticsProps.

(** * Further properties of the modelled code *)

(** ** Cart handlers *)

Module CartExtra.
Import CartModel CartController.

(** *** Array facts *)

Lemma findIndex_spec {A} (P : A -> bool) (l : list A) i :
  findIndex P l = Some i ->
  exists x, l !! i = Some x /\ P x = true /\ List.find P l = Some x.
Proof.
  revert i. induction l as [|a l IH]; intros i H; [discriminate|].
  simpl in H. simpl. destruct (P a) eqn:Pa.
  - injection H as <-. exists a. auto.
  - destruct (findIndex P l) as [k|]; [|discriminate].
    injection H as <-. destruct (IH k eq_refl) as (x & Hx & Px & Hf).
    exists x. auto.
Qed.

Lemma find_findIndex {A} (P : A -> bool) (l : list A) x :
  List.find P l = Some x -> exists i, findIndex P l = Some i.
Proof.
  induction l as [|a l IH]; [discriminate|].
  simpl. destruct (P a); [eauto|].
  intros H. destruct (IH H) as [i ->]. eauto.
Qed.

Lemma find_None_findIndex {A} (P : A -> bool) (l : list A) :
  List.find P l = None -> findIndex P l = None.
Proof.
  induction l as [|a l IH]; [reflexivity|].
  simpl. destruct (P a); [discriminate|]. intros H. rewrite (IH H). reflexivity.
Qed.

(** Rewriting the first match is rewriting the element at its index. *)
Lemma updateFirst_alter {A} (P : A -> bool) (f : A -> A) (l : list A) i :
  findIndex P l = Some i -> updateFirst P f l = alter f i l.
Proof.
  revert i. induction l as [|a l IH]; intros i H; [discriminate|].
  simpl in H. simpl. destruct (P a).
  - injection H as <-. reflexivity.
  - destruct (findIndex P l) as [k|]; [|discriminate].
    injection H as <-. rewrite (IH k eq_refl). reflexivity.
Qed.

Lemma sumQuantity_alter f (l : list CartItem) i x :
  l !! i = Some x ->
  sumQuantity (alter f i l) = sumQuantity l - quantity x + quantity (f x).
Proof.
  revert i. induction l as [|a l IH]; intros [|i] H; try discriminate; simpl in *.
  - injection H as ->. lia.
  - change (list_alter f i l) with (alter f i l). rewrite (IH i H). lia.
Qed.

Lemma sumPrice_alter f (l : list CartItem) i x :
  l !! i = Some x ->
  sumPrice (alter f i l)
  = sumPrice l - quantity x * priceAtAddTime x + quantity (f x) * priceAtAddTime (f x).
Proof.
  revert i. induction l as [|a l IH]; intros [|i] H; try discriminate; simpl in *.
  - injection H as ->. lia.
  - change (list_alter f i l) with (alter f i l). rewrite (IH i H). lia.
Qed.

Lemma sumQuantity_delete (l : list CartItem) i x :
  l !! i = Some x -> sumQuantity (delete i l) = sumQuantity l - quantity x.
Proof.
  revert i. induction l as [|a l IH]; intros [|i] H; try discriminate; simpl in *.
  - injection H as ->. lia.
  - rewrite (IH i H). lia.
Qed.

Lemma sumPrice_delete (l : list CartItem) i x :
  l !! i = Some x ->
  sumPrice (delete i l) = sumPrice l - quantity x * priceAtAddTime x.
Proof.
  revert i. induction l as [|a l IH]; intros [|i] H; try discriminate; simpl in *.
  - injection H as ->. lia.
  - rewrite (IH i H). lia.
Qed.

Lemma save_inr isNew c carts c' carts' :
  save isNew c carts = inr (c', carts') -> c' = preSave c /\ validate c = true.
Proof.
  unfold save. destruct (validate c); [|discriminate].
  intros [= <- _]. auto.
Qed.

Lemma saveOr_respond code msg c carts r carts' :
  saveOr code msg c carts = (Respond code r (Some msg), carts') ->
  r = preSave c /\ validate c = true.
Proof.
  unfold saveOr. destruct (save false c carts) as [e|[d ds]] eqn:Hs; [discriminate|].
  intros [= <- _]. exact (save_inr _ _ _ _ _ Hs).
Qed.

Lemma preSave_totals c :
  totalItems (preSave c) = sumQuantity (items c)
  /\ totalPrice (preSave c) = sumPrice (items c).
Proof. exact (CartProps.preSave_consistent c). Qed.




Lemma alter_as_insert {A} (f : A -> A) (l : list A) i x :
  l !! i = Some x -> alter f i l = <[i := f x]> l.
Proof.
  revert i. induction l as [|a l IH]; intros [|i] H; try discriminate; simpl in *.
  - injection H as ->. reflexivity.
  - f_equal. exact (IH i H).
Qed.

(** X2: adding [q] more of a product the cart already holds raises the
    quantity of its line by [q] and keeps the price recorded at the first
    add; the price sent with the request is ignored, so the total price
    rises by [q] times the old price. *)
Theorem addtoCart_merge_keeps_first_price
        userId newId productId q price carts cart i r carts' :
  findOne carts userId = Some cart ->
  findIndex (fun item => String.eqb (product item) productId) (items cart) = Some i ->
  addtoCart userId newId productId q price carts = (Respond 200 r None, carts') ->
  exists line,
    items cart !! i = Some line
    /\ product line = productId
    /\ items r
       = <[i := mkCartItem productId (quantity line + q) (priceAtAddTime line)]> (items cart)
    /\ totalItems r = sumQuantity (items cart) + q
    /\ totalPrice r = sumPrice (items cart) + q * priceAtAddTime line.
Proof.
  intros Hcart Hidx. unfold addtoCart.
  destruct (String.eqb productId "" || (price =? 0)); [discriminate|].
  rewrite Hcart.
  destruct (findIndex_spec _ _ _ Hidx) as (line & Hline & Hp & Hfind).
  rewrite Hfind. apply String.eqb_eq in Hp.
  destruct (save false _ carts) as [e|[c cs]] eqn:Hs; [discriminate|].
  intros [= <- <-]. apply save_inr in Hs as [-> _].
  exists line. split; [exact Hline|]. split; [exact Hp|].
  destruct (preSave_totals
              (set_items cart
                 (updateFirst (fun item => String.eqb (product item) productId)
                    (fun item => set_quantity item (quantity item + q)) (items cart))))
    as [Hn Hpr].
  rewrite Hn, Hpr. cbn [items set_items preSave set_totalItems set_totalPrice].
  rewrite (updateFirst_alter _ _ _ _ Hidx).
  rewrite (sumQuantity_alter _ _ _ _ Hline), (sumPrice_alter _ _ _ _ Hline).
  rewrite (alter_as_insert _ _ _ _ Hline).
  unfold set_quantity. cbn [quantity priceAtAddTime]. rewrite Hp.
  split; [reflexivity|]. split; lia.
Qed.

Lemma addtoCart_merge_keeps_first_price_witness :
  findOne (OrderController.carts Samples.db) "u1" = Some Samples.cart
  /\ findIndex (fun item => String.eqb (product item) "p1") (items Samples.cart) = Some O
  /\ addtoCart "u1" "c9" "p1" 3 99 (OrderController.carts Samples.db)
     = (Respond 200 (mkCart "c1" "u1" [mkCartItem "p1" 5 10] 50 5) None,
        [mkCart "c1" "u1" [mkCartItem "p1" 5 10] 50 5; Samples.cart2])
  /\ exists line,
      items Samples.cart !! O = Some line
      /\ product line = "p1"
      /\ items (mkCart "c1" "u1" [mkCartItem "p1" 5 10] 50 5)
         = <[O := mkCartItem "p1" (quantity line + 3) (priceAtAddTime line)]>
             (items Samples.cart)
      /\ totalItems (mkCart "c1" "u1" [mkCartItem "p1" 5 10] 50 5)
         = sumQuantity (items Samples.cart) + 3
      /\ totalPrice (mkCart "c1" "u1" [mkCartItem "p1" 5 10] 50 5)
         = sumPrice (items Samples.cart) + 3 * priceAtAddTime line.
Proof.
  split; [reflexivity|]. split; [reflexivity|]. split; [reflexivity|].
  exact (addtoCart_merge_keeps_first_price "u1" "c9" "p1" 3 99
           (OrderController.carts Samples.db) Samples.cart O _ _
           eq_refl eq_refl eq_refl).
Defined.

(** X3: a cart request that does not answer with a cart writes nothing:
    whenever a handler refuses, throws or answers an error, the store is
    the one it was given. *)
Theorem cart_failures_write_nothing userId newId productId q price carts :
  match addtoCart userId newId productId q price carts with
  | (Respond _ _ _, _) => True
  | (_, carts') => carts' = carts
  end
  /\ match updateCart userId productId q carts with
     | (Respond _ _ _, _) => True
     | (_, carts') => carts' = carts
     end
  /\ match removeFromCart userId productId carts with
     | (Respond _ _ _, _) => True
     | (_, carts') => carts' = carts
     end
  /\ match clearCart userId carts with
     | (Respond _ _ _, _) => True
     | (_, carts') => carts' = carts
     end.
Proof.
  repeat split.
  - unfold addtoCart.
    destruct (String.eqb productId "" || (price =? 0)); [reflexivity|].
    match goal with |- context [match ?saved with inl _ => _ | inr _ => _ end] =>
      destruct saved as [e|[stored rest]] end; [reflexivity | exact I].
  - unfold updateCart, saveOr.
    destruct (String.eqb productId "" || (q <? 0)); [reflexivity|].
    destruct (findOne carts userId); [|reflexivity].
    destruct (findIndex _ _); [|reflexivity].
    destruct (save false _ carts) as [e|[stored rest]]; [reflexivity | exact I].
  - unfold removeFromCart, saveOr.
    destruct (String.eqb productId ""); [reflexivity|].
    destruct (findOne carts userId); [|reflexivity].
    destruct (findIndex _ _); [|reflexivity].
    destruct (save false _ carts) as [e|[stored rest]]; [reflexivity | exact I].
  - unfold clearCart, saveOr.
    destruct (findOne carts userId); [|reflexivity].
    destruct (save false _ carts) as [e|[stored rest]]; [reflexivity | exact I].
Qed.

(** X4: for a product id that is present in the request, [updateCart] with
    quantity 0 does what [removeFromCart] does: it refuses with the same
    exception where [removeFromCart] refuses, and otherwise answers with the
    same status and the same cart and leaves the same store.  Only the
    message of the answer differs: ["Cart updated successfully"] against
    ["Product removed from cart successfully"]. *)
Theorem updateCart_zero_is_removeFromCart userId productId carts :
  productId <> "" ->
  match removeFromCart userId productId carts with
  | (Respond statusCode cart message, carts') =>
      message = Some "Product removed from cart successfully"
      /\ updateCart userId productId 0 carts
         = (Respond statusCode cart (Some "Cart updated successfully"), carts')
  | refusal => updateCart userId productId 0 carts = refusal
  end.
Proof.
  intros Hne. apply String.eqb_neq in Hne.
  unfold updateCart, removeFromCart. rewrite Hne. cbn [orb Z.ltb Z.compare Z.eqb].
  destruct (findOne carts userId) as [cart|]; [|reflexivity].
  destruct (findIndex _ _) as [itemIndex|]; [|reflexivity].
  unfold saveOr. destruct (save false _ carts) as [e|[stored rest]]; [reflexivity|].
  split; reflexivity.
Qed.

Lemma updateCart_zero_is_removeFromCart_witness :
  "p1" <> ""
  /\ removeFromCart "u1" "p1" (OrderController.carts Samples.db)
     = (Respond 200 (mkCart "c1" "u1" [] 0 0)
                (Some "Product removed from cart successfully"),
        [mkCart "c1" "u1" [] 0 0; Samples.cart2])
  /\ Some "Product removed from cart successfully"
     = Some "Product removed from cart successfully"
  /\ updateCart "u1" "p1" 0 (OrderController.carts Samples.db)
     = (Respond 200 (mkCart "c1" "u1" [] 0 0) (Some "Cart updated successfully"),
        [mkCart "c1" "u1" [] 0 0; Samples.cart2]).
Proof.
  assert (H : "p1" <> "") by discriminate.
  split; [exact H|]. split; [reflexivity|].
  exact (updateCart_zero_is_removeFromCart "u1" "p1" (OrderController.carts Samples.db) H).
Defined.

(** X5: a successful [updateCart] with a non-zero quantity had a positive
    quantity, stores it on the product's line at the price recorded there,
    and moves both totals by the difference. *)
Theorem updateCart_sets_quantity userId productId q carts cart i line r carts' :
  findOne carts userId = Some cart ->
  findIndex (fun item => String.eqb (product item) productId) (items cart) = Some i ->
  items cart !! i = Some line ->
  q <> 0 ->
  updateCart userId productId q carts
    = (Respond 200 r (Some "Cart updated successfully"), carts') ->
  0 < q
  /\ items r = <[i := mkCartItem (product line) q (priceAtAddTime line)]> (items cart)
  /\ totalItems r = sumQuantity (items cart) + (q - quantity line)
  /\ totalPrice r = sumPrice (items cart) + (q - quantity line) * priceAtAddTime line.
Proof.
  intros Hcart Hidx Hline Hq. unfold updateCart.
  destruct (String.eqb productId "") ; [discriminate|]. cbn [orb].
  destruct (Z.ltb_spec q 0) as [Hneg|Hpos]; [discriminate|].
  rewrite Hcart, Hidx.
  destruct (Z.eqb_spec q 0) as [H0|_]; [contradiction|].
  intros Hrun. apply saveOr_respond in Hrun as [-> _].
  split; [lia|].
  destruct (preSave_totals
              (set_items cart (alter (fun item => set_quantity item q) i (items cart))))
    as [Hn Hpr].
  rewrite Hn, Hpr. cbn [items set_items preSave set_totalItems set_totalPrice].
  rewrite (sumQuantity_alter _ _ _ _ Hline), (sumPrice_alter _ _ _ _ Hline).
  rewrite (alter_as_insert _ _ _ _ Hline).
  unfold set_quantity. cbn [quantity priceAtAddTime].
  split; [reflexivity|]. split; lia.
Qed.

Lemma updateCart_sets_quantity_witness :
  findOne (OrderController.carts Samples.db) "u1" = Some Samples.cart
  /\ findIndex (fun item => String.eqb (product item) "p1") (items Samples.cart) = Some O
  /\ items Samples.cart !! O = Some (mkCartItem "p1" 2 10)
  /\ 7 <> 0
  /\ updateCart "u1" "p1" 7 (OrderController.carts Samples.db)
     = (Respond 200 (mkCart "c1" "u1" [mkCartItem "p1" 7 10] 70 7)
           (Some "Cart updated successfully"),
        [mkCart "c1" "u1" [mkCartItem "p1" 7 10] 70 7; Samples.cart2])
  /\ (0 < 7
      /\ items (mkCart "c1" "u1" [mkCartItem "p1" 7 10] 70 7)
         = <[O := mkCartItem (product (mkCartItem "p1" 2 10)) 7
                             (priceAtAddTime (mkCartItem "p1" 2 10))]> (items Samples.cart)
      /\ totalItems (mkCart "c1" "u1" [mkCartItem "p1" 7 10] 70 7)
         = sumQuantity (items Samples.cart) + (7 - quantity (mkCartItem "p1" 2 10))
      /\ totalPrice (mkCart "c1" "u1" [mkCartItem "p1" 7 10] 70 7)
         = sumPrice (items Samples.cart)
           + (7 - quantity (mkCartItem "p1" 2 10)) * priceAtAddTime (mkCartItem "p1" 2 10)).
Proof.
  assert (H7 : 7 <> 0) by discriminate.
  split; [reflexivity|]. split; [reflexivity|]. split; [reflexivity|].
  split; [exact H7|]. split; [reflexivity|].
  exact (updateCart_sets_quantity "u1" "p1" 7 (OrderController.carts Samples.db)
           Samples.cart O (mkCartItem "p1" 2 10) _ _ eq_refl eq_refl eq_refl H7 eq_refl).
Defined.


(** *** One line per product *)

Lemma map_alter_inv {A B} (g : A -> B) (f : A -> A) (l : list A) i :
  (forall x, g (f x) = g x) -> map g (alter f i l) = map g l.
Proof.
  intros Hg. revert i. induction l as [|a l IH]; intros [|i]; simpl;
    try reflexivity.
  - rewrite Hg. reflexivity.
  - change (list_alter f i l) with (alter f i l). rewrite IH. reflexivity.
Qed.

Lemma not_in_map_delete {A B} (g : A -> B) (l : list A) i b :
  b ∉ map g l -> b ∉ map g (delete i l).
Proof.
  revert i. induction l as [|a l IH]; intros [|i] H; simpl in *; try exact H.
  - apply not_elem_of_cons in H as [_ H]. exact H.
  - apply not_elem_of_cons in H as [Hne H].
    apply not_elem_of_cons. split; [exact Hne | exact (IH i H)].
Qed.

Lemma NoDup_map_delete {A B} (g : A -> B) (l : list A) i :
  NoDup (map g l) -> NoDup (map g (delete i l)).
Proof.
  revert i. induction l as [|a l IH]; intros [|i] H; simpl in *; try exact H.
  - apply NoDup_cons in H as [_ H]. exact H.
  - apply NoDup_cons in H as [Hn H]. apply NoDup_cons.
    split; [apply not_in_map_delete, Hn | exact (IH i H)].
Qed.

Lemma find_none_not_in productId (l : list CartItem) :
  List.find (fun item => String.eqb (product item) productId) l = None ->
  productId ∉ map product l.
Proof.
  induction l as [|a l IH]; simpl; [intros _; apply not_elem_of_nil|].
  destruct (String.eqb (product a) productId) eqn:Ha; [discriminate|].
  intros H. apply not_elem_of_cons. split; [|exact (IH H)].
  apply String.eqb_neq in Ha. congruence.
Qed.

Lemma NoDup_map_snoc (l : list CartItem) (x : CartItem) :
  NoDup (map product l) -> product x ∉ map product l ->
  NoDup (map product (l ++ [x])).
Proof.
  intros Hnd Hx. rewrite map_app. apply NoDup_app.
  split; [exact Hnd|]. split; [|apply NoDup_singleton].
  intros b Hb Hb'. apply list_elem_of_singleton in Hb'. subst b. exact (Hx Hb).
Qed.

Lemma findOne_in carts userId cart : findOne carts userId = Some cart -> In cart carts.
Proof. intros H. apply find_some in H. tauto. Qed.

Lemma save_keeps (Q : Cart -> Prop) isNew c carts :
  Q (preSave c) -> Forall Q carts ->
  match save isNew c carts with
  | inr (_, carts') => Forall Q carts'
  | inl _ => True
  end.
Proof.
  intros Hc Hst. unfold save. destruct (validate c); [|exact I].
  destruct isNew.
  - apply Forall_app. split; [exact Hst | repeat constructor; exact Hc].
  - apply CartProps.updateFirst_Forall; [intros _; exact Hc | exact Hst].
Qed.

Lemma saveOr_keeps (Q : Cart -> Prop) code msg c carts :
  Q (preSave c) -> Forall Q carts -> Forall Q (snd (saveOr code msg c carts)).
Proof.
  intros Hc Hst. unfold saveOr.
  pose proof (save_keeps Q false c carts Hc Hst) as H.
  destruct (save false c carts) as [e|[stored rest]]; [exact Hst | exact H].
Qed.

Lemma find_some_in productId (l : list CartItem) line :
  List.find (fun item => String.eqb (product item) productId) l = Some line ->
  productId ∈ map product l.
Proof.
  intros H. apply find_some in H as [Hin Heq]. apply String.eqb_eq in Heq.
  rewrite <- Heq. apply list_elem_of_In, in_map, Hin.
Qed.

Lemma NoDup_map_snoc_inv (l : list CartItem) (x : CartItem) :
  NoDup (map product (l ++ [x])) -> product x ∉ map product l.
Proof.
  rewrite map_app. intros H. apply NoDup_app in H as (_ & H & _).
  intros Hin. apply (H _ Hin). apply list_elem_of_singleton. reflexivity.
Qed.

(** X6: one line per product.  [updateCart], [removeFromCart] and
    [clearCart] never give a cart two lines for one product, and neither
    does [addtoCart] when the request spells the product id as the store
    prints it.  [addtoCart] looks for the string of the request on the held
    lines and, when it finds none, appends a line under the id that string
    casts to: after a successful call on a cart with distinct products the
    products are distinct exactly when the string was found on a line or
    its id was held by none.  Another spelling of a held id is therefore
    appended as a second line for the same product. *)
Theorem cart_handlers_keep_one_line_per_product userId newId productId q price carts :
  Forall (fun c => NoDup (map product (items c))) carts ->
  (ObjectId.canonical productId = productId ->
   Forall (fun c => NoDup (map product (items c)))
          (snd (addtoCart userId newId productId q price carts)))
  /\ Forall (fun c => NoDup (map product (items c)))
            (snd (updateCart userId productId q carts))
  /\ Forall (fun c => NoDup (map product (items c)))
            (snd (removeFromCart userId productId carts))
  /\ Forall (fun c => NoDup (map product (items c))) (snd (clearCart userId carts))
  /\ (forall cart r carts',
        findOne carts userId = Some cart ->
        addtoCart userId newId productId q price carts = (Respond 200 r None, carts') ->
        (productId ∉ map product (items cart) ->
         items r
         = (items cart ++ [mkCartItem (ObjectId.canonical productId) q price])%list)
        /\ (NoDup (map product (items r))
            <-> productId ∈ map product (items cart)
                \/ ObjectId.canonical productId ∉ map product (items cart))).
Proof.
  intros Hst.
  assert (Hcart : forall cart, findOne carts userId = Some cart ->
                               NoDup (map product (items cart))).
  { intros cart Hc. apply findOne_in in Hc.
    rewrite List.Forall_forall in Hst. exact (Hst cart Hc). }
  split; [|split; [|split; [|split]]].
  - intros Hcanon. unfold addtoCart.
    destruct (String.eqb productId "" || (price =? 0)); [exact Hst|].
    destruct (findOne carts userId) as [cart|] eqn:Hc.
    + destruct (List.find _ (items cart)) eqn:Hf.
      * match goal with |- context [save false ?doc carts] =>
          pose proof (save_keeps (fun c => NoDup (map product (items c))) false doc carts)
            as Hk; destruct (save false doc carts) as [e|[stored rest]] end;
          [exact Hst|].
        apply Hk; [|exact Hst]. cbn [items preSave set_items set_totalItems set_totalPrice].
        rewrite ProductProps.updateFirst_map_inv by reflexivity. exact (Hcart cart eq_refl).
      * match goal with |- context [save false ?doc carts] =>
          pose proof (save_keeps (fun c => NoDup (map product (items c))) false doc carts)
            as Hk; destruct (save false doc carts) as [e|[stored rest]] end;
          [exact Hst|].
        apply Hk; [|exact Hst]. cbn [items preSave set_items set_totalItems set_totalPrice].
        apply NoDup_map_snoc; [exact (Hcart cart eq_refl)|].
        cbn [product]. rewrite Hcanon. exact (find_none_not_in _ _ Hf).
    + match goal with |- context [save true ?doc carts] =>
        pose proof (save_keeps (fun c => NoDup (map product (items c))) true doc carts)
          as Hk; destruct (save true doc carts) as [e|[stored rest]] end;
        [exact Hst|].
      apply Hk; [|exact Hst]. cbn. apply NoDup_singleton.
  - unfold updateCart.
    destruct (String.eqb productId "" || (q <? 0)); [exact Hst|].
    destruct (findOne carts userId) as [cart|] eqn:Hc; [|exact Hst].
    destruct (findIndex _ (items cart)) as [i|]; [|exact Hst].
    apply saveOr_keeps; [|exact Hst].
    cbn [items preSave set_items set_totalItems set_totalPrice].
    destruct (q =? 0).
    + apply NoDup_map_delete, (Hcart cart eq_refl).
    + rewrite map_alter_inv by reflexivity. exact (Hcart cart eq_refl).
  - unfold removeFromCart.
    destruct (String.eqb productId ""); [exact Hst|].
    destruct (findOne carts userId) as [cart|] eqn:Hc; [|exact Hst].
    destruct (findIndex _ (items cart)) as [i|]; [|exact Hst].
    apply saveOr_keeps; [|exact Hst].
    cbn [items preSave set_items set_totalItems set_totalPrice].
    apply NoDup_map_delete, (Hcart cart eq_refl).
  - unfold clearCart.
    destruct (findOne carts userId) as [cart|] eqn:Hc; [|exact Hst].
    apply saveOr_keeps; [|exact Hst]. cbn. apply NoDup_nil_2.
  - intros cart r carts' Hc. specialize (Hcart cart Hc). unfold addtoCart.
    destruct (String.eqb productId "" || (price =? 0)); [discriminate|].
    rewrite Hc.
    destruct (List.find _ (items cart)) as [line|] eqn:Hf.
    + destruct (save false _ carts) as [e|[stored rest]] eqn:Hs; [discriminate|].
      intros [= <- <-]. apply save_inr in Hs as [-> _].
      pose proof (find_some_in _ _ _ Hf) as Hin.
      split; [intros Hn; destruct (Hn Hin)|].
      cbn [items preSave set_items set_totalItems set_totalPrice].
      rewrite ProductProps.updateFirst_map_inv by reflexivity.
      split; [intros _; left; exact Hin | intros _; exact Hcart].
    + destruct (save false _ carts) as [e|[stored rest]] eqn:Hs; [discriminate|].
      intros [= <- <-]. apply save_inr in Hs as [-> _].
      pose proof (find_none_not_in _ _ Hf) as Hnin.
      cbn [items preSave set_items set_totalItems set_totalPrice].
      split; [intros _; reflexivity|].
      split.
      * intros Hnd. right. exact (NoDup_map_snoc_inv _ _ Hnd).
      * intros [Hin|Hn]; [destruct (Hnin Hin)|].
        apply NoDup_map_snoc; [exact Hcart | exact Hn].
Qed.

Lemma cart_handlers_keep_one_line_per_product_witness :
  Forall (fun c => NoDup (map product (items c))) [Samples.butterCart]
  /\ (ObjectId.canonical "507F1F77BCF86CD799439011" = "507F1F77BCF86CD799439011" ->
      Forall (fun c => NoDup (map product (items c)))
             (snd (addtoCart "64b7f0a2c3d4e5f60123450a" "64b7f0a2c3d4e5f601234999"
                             "507F1F77BCF86CD799439011" 2 30 [Samples.butterCart])))
  /\ Forall (fun c => NoDup (map product (items c)))
            (snd (updateCart "64b7f0a2c3d4e5f60123450a" "507F1F77BCF86CD799439011" 2
                             [Samples.butterCart]))
  /\ Forall (fun c => NoDup (map product (items c)))
            (snd (removeFromCart "64b7f0a2c3d4e5f60123450a" "507F1F77BCF86CD799439011"
                                 [Samples.butterCart]))
  /\ Forall (fun c => NoDup (map product (items c)))
            (snd (clearCart "64b7f0a2c3d4e5f60123450a" [Samples.butterCart]))
  /\ (forall cart r carts',
        findOne [Samples.butterCart] "64b7f0a2c3d4e5f60123450a" = Some cart ->
        addtoCart "64b7f0a2c3d4e5f60123450a" "64b7f0a2c3d4e5f601234999"
                  "507F1F77BCF86CD799439011" 2 30 [Samples.butterCart]
        = (Respond 200 r None, carts') ->
        ("507F1F77BCF86CD799439011" ∉ map product (items cart) ->
         items r
         = (items cart
            ++ [mkCartItem (ObjectId.canonical "507F1F77BCF86CD799439011") 2 30])%list)
        /\ (NoDup (map product (items r))
            <-> "507F1F77BCF86CD799439011" ∈ map product (items cart)
                \/ ObjectId.canonical "507F1F77BCF86CD799439011"
                   ∉ map product (items cart))).
Proof.
  assert (H : Forall (fun c => NoDup (map product (items c))) [Samples.butterCart]).
  { constructor; [cbn; apply NoDup_singleton | constructor]. }
  split; [exact H|].
  exact (cart_handlers_keep_one_line_per_product
           "64b7f0a2c3d4e5f60123450a" "64b7f0a2c3d4e5f601234999"
           "507F1F77BCF86CD799439011" 2 30 [Samples.butterCart] H).
Defined.

(** The request spells the id of the held product in upper case: the cart
    ends with two lines for it. *)
Example addtoCart_other_spelling_second_line :
  addtoCart "64b7f0a2c3d4e5f60123450a" "64b7f0a2c3d4e5f601234999"
            "507F1F77BCF86CD799439011" 2 30 [Samples.butterCart]
  = (Respond 200
       (mkCart "64b7f0a2c3d4e5f601234567" "64b7f0a2c3d4e5f60123450a"
               [mkCartItem "507f1f77bcf86cd799439011" 1 30;
                mkCartItem "507f1f77bcf86cd799439011" 2 30] 90 3)
       None,
     [mkCart "64b7f0a2c3d4e5f601234567" "64b7f0a2c3d4e5f60123450a"
             [mkCartItem "507f1f77bcf86cd799439011" 1 30;
              mkCartItem "507f1f77bcf86cd799439011" 2 30] 90 3]).
Proof. reflexivity. Qed.

(** *** [clearCart] *)

Lemma find_after_write {A} (P R : A -> bool) (y : A) l x :
  List.find R l = Some x -> P x = true -> P y = true -> R y = true ->
  List.find R (updateFirst P (fun _ => y) l) = Some y.
Proof.
  intros Hfind HPx HPy HRy. induction l as [|a l IH]; [discriminate|].
  simpl in *. destruct (P a) eqn:HPa.
  - simpl. rewrite HRy. reflexivity.
  - simpl. destruct (R a) eqn:HRa.
    + injection Hfind as ->. congruence.
    + apply IH, Hfind.
Qed.

Lemma updateFirst_again {A} (P : A -> bool) (y : A) l :
  P y = true ->
  updateFirst P (fun _ => y) (updateFirst P (fun _ => y) l)
  = updateFirst P (fun _ => y) l.
Proof.
  intros HPy. induction l as [|a l IH]; [reflexivity|].
  simpl. destruct (P a) eqn:HPa; simpl.
  - rewrite HPy. reflexivity.
  - rewrite HPa, IH. reflexivity.
Qed.

(** X7: [clearCart] cannot fail once the user has a cart: it answers 200
    with that cart emptied and both totals 0, the emptied cart is what a
    later lookup finds, and clearing again gives the same answer and
    leaves the store as it is. *)
Theorem clearCart_succeeds_and_repeats userId carts cart :
  findOne carts userId = Some cart ->
  exists carts',
    clearCart userId carts
      = (Respond 200 (mkCart (_id cart) userId [] 0 0) (Some "Cart cleared successfully"), carts')
    /\ findOne carts' userId = Some (mkCart (_id cart) userId [] 0 0)
    /\ clearCart userId carts'
      = (Respond 200 (mkCart (_id cart) userId [] 0 0) (Some "Cart cleared successfully"), carts').
Proof.
  intros Hcart.
  assert (Hu : user cart = userId).
  { apply find_some in Hcart as [_ H]. apply String.eqb_eq, H. }
  set (r := mkCart (_id cart) userId [] 0 0).
  set (P := fun d : Cart => String.eqb (_id d) (_id r)).
  assert (Hfind' : findOne (updateFirst P (fun _ => r) carts) userId = Some r).
  { unfold findOne. eapply find_after_write; [exact Hcart | | |].
    - apply String.eqb_refl.
    - apply String.eqb_refl.
    - apply String.eqb_refl. }
  assert (Hr : preSave (set_totalPrice (set_totalItems (set_items cart []) 0) 0) = r)
    by (subst r; rewrite <- Hu; reflexivity).
  exists (updateFirst P (fun _ => r) carts). split; [|split; [exact Hfind'|]].
  - unfold clearCart. rewrite Hcart. unfold saveOr, save.
    change (validate (set_totalPrice (set_totalItems (set_items cart []) 0) 0))
      with true.
    cbv iota. rewrite Hr. reflexivity.
  - unfold clearCart. rewrite Hfind'. unfold saveOr, save.
    change (set_totalPrice (set_totalItems (set_items r []) 0) 0) with r.
    change (validate r) with true. change (preSave r) with r. cbv iota.
    fold P. rewrite updateFirst_again by apply String.eqb_refl. reflexivity.
Qed.

Lemma clearCart_succeeds_and_repeats_witness :
  findOne (OrderController.carts Samples.db) "u2" = Some Samples.cart2
  /\ exists carts',
      clearCart "u2" (OrderController.carts Samples.db)
      = (Respond 200 (mkCart (_id Samples.cart2) "u2" [] 0 0)
            (Some "Cart cleared successfully"), carts')
      /\ findOne carts' "u2" = Some (mkCart (_id Samples.cart2) "u2" [] 0 0)
      /\ clearCart "u2" carts'
         = (Respond 200 (mkCart (_id Samples.cart2) "u2" [] 0 0)
               (Some "Cart cleared successfully"), carts').
Proof.
  split; [reflexivity|].
  exact (clearCart_succeeds_and_repeats "u2" (OrderController.carts Samples.db)
           Samples.cart2 eq_refl).
Defined.

End CartExtra.

(** ** Order handlers *)

Module OrderExtra.
Import OrderModel OrderController.

(** *** What the hook and a write-back keep *)

(** On a loaded document the hook only writes the delivery fields and
    [paymentDetails]. *)
Lemma preSave_loaded_keeps m1 m2 now rnd cur o :
  let o' := preSave false m1 m2 now rnd cur o in
  _id o' = _id o /\ orderNumber o' = orderNumber o /\ user o' = user o
  /\ items o' = items o /\ shippingAddress o' = shippingAddress o
  /\ paymentMethod o' = paymentMethod o /\ paymentStatus o' = paymentStatus o
  /\ orderStatus o' = orderStatus o /\ notes o' = notes o
  /\ cancelReason o' = cancelReason o /\ totalAmount o' = totalAmount o
  /\ discount o' = discount o /\ shippingFee o' = shippingFee o
  /\ trackingNumber o' = trackingNumber o
  /\ estimatedDelivery o' = estimatedDelivery o.
Proof.
  unfold preSave. cbn [andb].
  destruct (m1 && String.eqb (orderStatus o) "delivered");
    [destruct (deliveredAt (set_isDelivered o true))|];
    match goal with
    | |- context [if ?c then _ else _] => destruct c
    end; cbn; repeat split.
Qed.

Lemma validate_fields o o2 :
  validate o = true ->
  orderNumber o2 = orderNumber o -> user o2 = user o -> items o2 = items o ->
  shippingAddress o2 = shippingAddress o -> paymentMethod o2 = paymentMethod o ->
  notes o2 = notes o -> totalAmount o2 = totalAmount o -> discount o2 = discount o ->
  shippingFee o2 = shippingFee o ->
  includes PAYMENT_STATUS (paymentStatus o2) = true ->
  includes ORDER_STATUS (orderStatus o2) = true ->
  maxlength 200 (cancelReason o2) = true ->
  validate o2 = true.
Proof.
  unfold validate. rewrite !andb_true_iff.
  intros H -> -> -> -> -> -> -> -> -> -> -> ->. tauto.
Qed.

Lemma validate_enums o :
  validate o = true ->
  includes PAYMENT_STATUS (paymentStatus o) = true
  /\ includes ORDER_STATUS (orderStatus o) = true
  /\ maxlength 200 (cancelReason o) = true.
Proof. unfold validate. rewrite !andb_true_iff. tauto. Qed.

(** A schema-valid write-back of a stored order answers 200 with the
    hooked document and stores it under the same id. *)
Lemma saveOr_ok msg loaded o now rnd cur os x :
  validate o = true ->
  findById os (_id o) = Some x ->
  exists o',
    saveOr msg loaded o now rnd cur os
    = (Respond 200 o' (Some msg),
          updateFirst (fun d => String.eqb (_id d) (_id o)) (fun _ => o') os)
    /\ o' = preSave false
              (negb (String.eqb (orderStatus loaded) (orderStatus o)))
              (negb (String.eqb (paymentStatus loaded) (paymentStatus o)))
              now rnd cur o
    /\ validate o' = true
    /\ _id o' = _id o
    /\ findById (updateFirst (fun d => String.eqb (_id d) (_id o)) (fun _ => o') os) (_id o)
       = Some o'.
Proof.
  intros Hv Hfind. unfold saveOr, save. rewrite Hv.
  set (o' := preSave _ _ _ _ _ _ _).
  destruct (preSave_loaded_keeps
              (negb (String.eqb (orderStatus loaded) (orderStatus o)))
              (negb (String.eqb (paymentStatus loaded) (paymentStatus o)))
              now rnd cur o)
    as (K1 & K2 & K3 & K4 & K5 & K6 & K7 & K8 & K9 & K10 & K11 & K12 & K13 & _).
  fold o' in K1, K2, K3, K4, K5, K6, K7, K8, K9, K10, K11, K12, K13.
  destruct (validate_enums o Hv) as (E1 & E2 & E3).
  exists o'. rewrite K1. split; [reflexivity|]. split; [reflexivity|]. split; [|split].
  - apply (validate_fields o); try assumption.
    + rewrite K7. exact E1.
    + rewrite K8. exact E2.
    + rewrite K10. exact E3.
  - reflexivity.
  - unfold findById in *.
    eapply OrderProps.find_updateFirst; [| exact Hfind | |].
    + auto.
    + rewrite K1. apply String.eqb_refl.
    + rewrite K1. apply String.eqb_refl.
Qed.


Lemma findById_id os id o : findById os id = Some o -> _id o = id.
Proof. intros H. apply find_some in H as [_ H]. apply String.eqb_eq, H. Qed.

(** *** [updateOrderStatus]: no transition is refused *)

(** X8: [updateOrderStatus] checks the new status against the list of
    seven and nothing else: on a stored schema-valid order every listed
    status is applied whatever the current one is (a cancelled or delivered
    order can be set back to processing), and a value outside the list is
    refused with 400 and nothing written. *)
Theorem updateOrderStatus_is_unguarded id s tn ed now rnd cur os o :
  findById os id = Some o ->
  validate o = true ->
  (includes ORDER_STATUS s = true ->
   exists o' os',
     updateOrderStatus id s tn ed now rnd cur os
       = (Respond 200 o' (Some "Order status updated successfully"), os')
     /\ orderStatus o' = s
     /\ findById os' id = Some o')
  /\ (includes ORDER_STATUS s = false ->
      updateOrderStatus id s tn ed now rnd cur os
      = (Throw (ApiError 400 "Invalid order status"), os)).
Proof.
  intros Hfind Hv. unfold updateOrderStatus. split; intros Hs; rewrite Hs;
    [|reflexivity].
  cbn [negb]. rewrite Hfind.
  set (o3 := match ed with Some _ => _ | None => _ end).
  assert (Hsame : orderNumber o3 = orderNumber o /\ user o3 = user o
                  /\ items o3 = items o /\ shippingAddress o3 = shippingAddress o
                  /\ paymentMethod o3 = paymentMethod o /\ notes o3 = notes o
                  /\ totalAmount o3 = totalAmount o /\ discount o3 = discount o
                  /\ shippingFee o3 = shippingFee o
                  /\ paymentStatus o3 = paymentStatus o
                  /\ cancelReason o3 = cancelReason o
                  /\ orderStatus o3 = s /\ _id o3 = _id o).
  { subst o3. destruct ed, (Js.truthyStr tn); repeat split. }
  destruct Hsame as (E1 & E2 & E3 & E4 & E5 & E6 & E7 & E8 & E9 & E10 & E11 & E12 & E13).
  destruct (validate_enums o Hv) as (V1 & _ & V3).
  assert (Hv3 : validate o3 = true).
  { apply (validate_fields o); try assumption.
    - rewrite E10. exact V1.
    - rewrite E12. exact Hs.
    - rewrite E11. exact V3. }
  pose proof (findById_id _ _ _ Hfind) as Hid.
  assert (Hfind3 : findById os (_id o3) = Some o) by (rewrite E13, Hid; exact Hfind).
  destruct (saveOr_ok "Order status updated successfully" o o3 now rnd cur os o Hv3 Hfind3)
    as (o' & Hrun & Ho' & _ & _ & Hf).
  rewrite Hrun. eexists _, _. split; [reflexivity|]. split.
  - rewrite Ho'.
    destruct (preSave_loaded_keeps
                (negb (String.eqb (orderStatus o) (orderStatus o3)))
                (negb (String.eqb (paymentStatus o) (paymentStatus o3)))
                now rnd cur o3) as (_ & _ & _ & _ & _ & _ & _ & K & _).
    rewrite K. exact E12.
  - rewrite E13, Hid in Hf. rewrite E13, Hid. exact Hf.
Qed.

Lemma updateOrderStatus_is_unguarded_witness :
  findById [Samples.placed] "o1" = Some Samples.placed
  /\ validate Samples.placed = true
  /\ (includes ORDER_STATUS "returned" = true ->
      exists o' os',
        updateOrderStatus "o1" "returned" None None Samples.now Samples.zeros 0
                          [Samples.placed]
                            = (Respond 200 o' (Some "Order status updated successfully"), os')
        /\ orderStatus o' = "returned"
        /\ findById os' "o1" = Some o')
  /\ (includes ORDER_STATUS "returned" = false ->
      updateOrderStatus "o1" "returned" None None Samples.now Samples.zeros 0 [Samples.placed]
      = (Throw (ApiError 400 "Invalid order status"), [Samples.placed])).
Proof.
  split; [reflexivity|]. split; [reflexivity|].
  exact (updateOrderStatus_is_unguarded "o1" "returned" None None Samples.now
           Samples.zeros 0 [Samples.placed] Samples.placed eq_refl eq_refl).
Defined.

(** *** [updatePaymentStatus] *)

Lemma preSave_payment m now rnd cur o :
  paymentStatus o = "paid" ->
  let o' := preSave false false m now rnd cur o in
  paidAt (paymentDetails o')
  = (if m then Some (default now (paidAt (paymentDetails o)))
     else paidAt (paymentDetails o))
  /\ isDelivered o' = isDelivered o /\ deliveredAt o' = deliveredAt o.
Proof.
  intros Hp. unfold preSave. cbn [andb]. rewrite Hp.
  change (String.eqb "paid" "paid") with true.
  destruct m; cbn [andb]; [|repeat split].
  destruct (paidAt (paymentDetails o)) eqn:Hat; cbn; rewrite ?Hat; repeat split.
Qed.

Lemma updatePaymentStatus_paid_step id tx gw now rnd cur os o :
  findById os id = Some o ->
  validate o = true ->
  exists o' os',
    updatePaymentStatus id "paid" tx gw now rnd cur os
      = (Respond 200 o' (Some "Payment status updated successfully"), os')
    /\ findById os' id = Some o'
    /\ validate o' = true
    /\ paymentStatus o' = "paid"
    /\ orderStatus o' = orderStatus o
    /\ isDelivered o' = isDelivered o /\ deliveredAt o' = deliveredAt o
    /\ paidAt (paymentDetails o')
       = (if String.eqb (paymentStatus o) "paid" then paidAt (paymentDetails o)
          else Some (default now (paidAt (paymentDetails o)))).
Proof.
  intros Hfind Hv. unfold updatePaymentStatus.
  change (negb (includes PAYMENT_STATUS "paid")) with false. cbv iota.
  rewrite Hfind.
  set (o3 := if Js.truthyStr gw then _ else _).
  assert (Hsame : orderNumber o3 = orderNumber o /\ user o3 = user o
                  /\ items o3 = items o /\ shippingAddress o3 = shippingAddress o
                  /\ paymentMethod o3 = paymentMethod o /\ notes o3 = notes o
                  /\ totalAmount o3 = totalAmount o /\ discount o3 = discount o
                  /\ shippingFee o3 = shippingFee o
                  /\ paymentStatus o3 = "paid"
                  /\ cancelReason o3 = cancelReason o
                  /\ orderStatus o3 = orderStatus o /\ _id o3 = _id o
                  /\ paidAt (paymentDetails o3) = paidAt (paymentDetails o)
                  /\ isDelivered o3 = isDelivered o /\ deliveredAt o3 = deliveredAt o).
  { subst o3. destruct (Js.truthyStr gw), (Js.truthyStr tx); repeat split. }
  destruct Hsame as (E1 & E2 & E3 & E4 & E5 & E6 & E7 & E8 & E9 & E10 & E11 & E12
                     & E13 & E14 & E15 & E16).
  destruct (validate_enums o Hv) as (_ & V2 & V3).
  assert (Hv3 : validate o3 = true).
  { apply (validate_fields o); try assumption.
    - rewrite E10. reflexivity.
    - rewrite E12. exact V2.
    - rewrite E11. exact V3. }
  pose proof (findById_id _ _ _ Hfind) as Hid.
  assert (Hfind3 : findById os (_id o3) = Some o) by (rewrite E13, Hid; exact Hfind).
  destruct (saveOr_ok "Payment status updated successfully" o o3 now rnd cur os o Hv3 Hfind3)
    as (o' & Hrun & Ho' & Hv' & _ & Hf).
  rewrite Hrun. eexists _, _. split; [reflexivity|].
  rewrite E13, Hid in Hf. rewrite E13, Hid. split; [exact Hf|]. split; [exact Hv'|].
  rewrite E12, String.eqb_refl, E10 in Ho'. cbn [negb] in Ho'.
  destruct (preSave_loaded_keeps false (negb (String.eqb (paymentStatus o) "paid"))
              now rnd cur o3) as (_ & _ & _ & _ & _ & _ & K7 & K8 & _).
  destruct (preSave_payment (negb (String.eqb (paymentStatus o) "paid")) now rnd cur o3 E10)
    as (P1 & P2 & P3).
  rewrite <- Ho' in K7, K8, P1, P2, P3.
  rewrite K7, K8, P1, P2, P3, E10, E12, E14, E15, E16.
  repeat split. destruct (String.eqb (paymentStatus o) "paid"); reflexivity.
Qed.

(** X9: on an order not yet paid, [updatePaymentStatus(id, "paid")] records
    [paidAt] as the current time (or keeps a time recorded earlier); a
    second such call, at any time and with any transaction fields, keeps
    that [paidAt].  Neither call touches the order status or the delivery
    fields. *)
Theorem updatePaymentStatus_paid_once
        id tx1 gw1 tx2 gw2 now1 now2 rnd cur1 cur2 os o :
  findById os id = Some o ->
  validate o = true ->
  paymentStatus o <> "paid" ->
  exists o1 os1 o2 os2,
    updatePaymentStatus id "paid" tx1 gw1 now1 rnd cur1 os
      = (Respond 200 o1 (Some "Payment status updated successfully"), os1)
    /\ paymentStatus o1 = "paid"
    /\ paidAt (paymentDetails o1) = Some (default now1 (paidAt (paymentDetails o)))
    /\ updatePaymentStatus id "paid" tx2 gw2 now2 rnd cur2 os1
      = (Respond 200 o2 (Some "Payment status updated successfully"), os2)
    /\ paidAt (paymentDetails o2) = paidAt (paymentDetails o1)
    /\ orderStatus o2 = orderStatus o
    /\ isDelivered o2 = isDelivered o /\ deliveredAt o2 = deliveredAt o.
Proof.
  intros Hfind Hv Hne. apply String.eqb_neq in Hne.
  destruct (updatePaymentStatus_paid_step id tx1 gw1 now1 rnd cur1 os o Hfind Hv)
    as (o1 & os1 & Hrun1 & Hfind1 & Hv1 & Hp1 & Hs1 & Hd1 & Ha1 & Hat1).
  destruct (updatePaymentStatus_paid_step id tx2 gw2 now2 rnd cur2 os1 o1 Hfind1 Hv1)
    as (o2 & os2 & Hrun2 & _ & _ & _ & Hs2 & Hd2 & Ha2 & Hat2).
  rewrite Hne in Hat1. rewrite Hp1 in Hat2. cbn in Hat2.
  exists o1, os1, o2, os2. repeat split; try assumption; congruence.
Qed.

Lemma updatePaymentStatus_paid_once_witness :
  findById [Samples.placed] "o1" = Some Samples.placed
  /\ validate Samples.placed = true
  /\ paymentStatus Samples.placed <> "paid"
  /\ exists o1 os1 o2 os2,
      updatePaymentStatus "o1" "paid" (Some "tx-1") (Some "razorpay") Samples.now
                          Samples.zeros 0 [Samples.placed]
                            = (Respond 200 o1 (Some "Payment status updated successfully"), os1)
      /\ paymentStatus o1 = "paid"
      /\ paidAt (paymentDetails o1)
         = Some (default Samples.now (paidAt (paymentDetails Samples.placed)))
      /\ updatePaymentStatus "o1" "paid" None None (Samples.now + 5) Samples.zeros 0 os1
         = (Respond 200 o2 (Some "Payment status updated successfully"), os2)
      /\ paidAt (paymentDetails o2) = paidAt (paymentDetails o1)
      /\ orderStatus o2 = orderStatus Samples.placed
      /\ isDelivered o2 = isDelivered Samples.placed
      /\ deliveredAt o2 = deliveredAt Samples.placed.
Proof.
  assert (Hne : paymentStatus Samples.placed <> "paid") by discriminate.
  split; [reflexivity|]. split; [reflexivity|]. split; [exact Hne|].
  exact (updatePaymentStatus_paid_once "o1" (Some "tx-1") (Some "razorpay") None None
           Samples.now (Samples.now + 5) Samples.zeros 0 0 [Samples.placed]
           Samples.placed eq_refl eq_refl Hne).
Defined.


(** *** [cancelOrder] after a cancellation *)

Lemma findOne_findById os id userId o :
  findOne os id userId = Some o -> exists x, findById os id = Some x.
Proof.
  unfold findOne, findById. induction os as [|d os IH]; [discriminate|].
  simpl. destruct (String.eqb (_id d) id); [eauto|]. exact IH.
Qed.

(** X10: once [cancelOrder] has cancelled an order, a further [cancelOrder]
    on it, with any reason, throws the cannot-be-cancelled error and
    writes nothing, so the reason recorded first stays. *)
Theorem cancelOrder_only_once orderId userId reason reason2 now now2 rnd cur cur2 os o :
  findOne os orderId userId = Some o ->
  validate o = true ->
  maxlength 200 reason = true ->
  canBeCancelled o = true ->
  exists o' os',
    cancelOrder orderId userId reason now rnd cur os
      = (Respond 200 o' (Some "Order cancelled successfully"), os')
    /\ findOne os' orderId userId = Some o'
    /\ orderStatus o' = "cancelled" /\ cancelReason o' = reason
    /\ cancelOrder orderId userId reason2 now2 rnd cur2 os' = (Throw InvalidTransition, os').
Proof.
  intros Hfind Hv Hr Hcan.
  apply find_some in Hfind as Hin. destruct Hin as [_ Hmatch].
  apply andb_prop in Hmatch as [Hid Hu]. apply String.eqb_eq in Hid.
  set (o3 := set_cancelReason (set_orderStatus o "cancelled") reason).
  destruct (validate_enums o Hv) as (V1 & _ & _).
  assert (Hv3 : validate o3 = true)
    by (apply (validate_fields o); try reflexivity; assumption).
  destruct (findOne_findById _ _ _ _ Hfind) as [x Hx].
  assert (Hx3 : findById os (_id o3) = Some x) by (cbn; rewrite Hid; exact Hx).
  destruct (saveOr_ok "Order cancelled successfully" o o3 now rnd cur os x Hv3 Hx3)
    as (o' & Hrun & Ho' & _ & Hid' & _).
  destruct (preSave_loaded_keeps
              (negb (String.eqb (orderStatus o) (orderStatus o3)))
              (negb (String.eqb (paymentStatus o) (paymentStatus o3)))
              now rnd cur o3) as (_ & _ & K3 & _ & _ & _ & _ & K8 & _ & K10 & _).
  rewrite <- Ho' in K3, K8, K10.
  assert (Hfind' : findOne (updateFirst (fun d => String.eqb (_id d) (_id o3))
                              (fun _ => o') os) orderId userId = Some o').
  { unfold findOne. eapply OrderProps.find_updateFirst; [| exact Hfind | |].
    - intros a Ha. apply andb_prop in Ha as [Ha _]. apply String.eqb_eq in Ha.
      apply String.eqb_eq. cbn. congruence.
    - rewrite Hid'. apply String.eqb_refl.
    - rewrite Hid', K3. cbn. rewrite Hu, andb_true_r. apply String.eqb_eq, Hid. }
  eexists _, _. split.
  { unfold cancelOrder. rewrite Hfind, Hcan. cbn [negb]. exact Hrun. }
  split; [exact Hfind'|]. split; [rewrite K8; reflexivity|].
  split; [rewrite K10; reflexivity|].
  unfold cancelOrder. rewrite Hfind'. unfold canBeCancelled. rewrite K8. reflexivity.
Qed.

Lemma cancelOrder_only_once_witness :
  findOne [Samples.placed] "o1" "u1" = Some Samples.placed
  /\ validate Samples.placed = true
  /\ maxlength 200 (Some "ordered twice") = true
  /\ canBeCancelled Samples.placed = true
  /\ exists o' os',
      cancelOrder "o1" "u1" (Some "ordered twice") Samples.now Samples.zeros 0
                  [Samples.placed] = (Respond 200 o' (Some "Order cancelled successfully"), os')
      /\ findOne os' "o1" "u1" = Some o'
      /\ orderStatus o' = "cancelled" /\ cancelReason o' = Some "ordered twice"
      /\ cancelOrder "o1" "u1" (Some "never mind") (Samples.now + 1) Samples.zeros 0 os'
         = (Throw InvalidTransition, os').
Proof.
  split; [reflexivity|]. split; [reflexivity|]. split; [reflexivity|].
  split; [reflexivity|].
  exact (cancelOrder_only_once "o1" "u1" (Some "ordered twice") (Some "never mind")
           Samples.now (Samples.now + 1) Samples.zeros 0 0 [Samples.placed]
           Samples.placed eq_refl eq_refl eq_refl eq_refl).
Defined.

(** *** [deleteOrder] *)

Lemma findByIdAndDelete_found os id :
  fst (findByIdAndDelete os id) = findById os id.
Proof.
  unfold findById. induction os as [|d os IH]; [reflexivity|].
  simpl. destruct (String.eqb (_id d) id); [reflexivity|].
  destruct (findByIdAndDelete os id) as [found rest]. exact IH.
Qed.

Lemma findByIdAndDelete_missing os id :
  findById os id = None -> snd (findByIdAndDelete os id) = os.
Proof.
  unfold findById. induction os as [|d os IH]; [reflexivity|].
  simpl. destruct (String.eqb (_id d) id); [discriminate|].
  intros H. specialize (IH H).
  destruct (findByIdAndDelete os id) as [found rest]. simpl in *. congruence.
Qed.

Lemma findById_not_in os id : id ∉ map _id os -> findById os id = None.
Proof.
  unfold findById. induction os as [|d os IH]; [reflexivity|].
  simpl. intros H. apply not_elem_of_cons in H as [Hne H].
  destruct (String.eqb_spec (_id d) id) as [Heq|_]; [congruence|]. exact (IH H).
Qed.

Lemma findByIdAndDelete_rest os id o :
  NoDup (map _id os) ->
  findById os id = Some o ->
  findById (snd (findByIdAndDelete os id)) id = None
  /\ S (length (snd (findByIdAndDelete os id))) = length os
  /\ forall id', id' <> id ->
       findById (snd (findByIdAndDelete os id)) id' = findById os id'.
Proof.
  unfold findById. induction os as [|d os IH]; [discriminate|].
  simpl. intros Hnd Hfind. apply NoDup_cons in Hnd as [Hnotin Hnd].
  destruct (String.eqb_spec (_id d) id) as [Heq|Hne].
  - simpl. split; [|split; [reflexivity|]].
    + rewrite Heq in Hnotin. exact (findById_not_in os id Hnotin).
    + intros id' Hid'. destruct (String.eqb_spec (_id d) id'); [congruence|reflexivity].
  - destruct (IH Hnd Hfind) as (H1 & H2 & H3).
    destruct (findByIdAndDelete os id) as [found rest]. simpl in *.
    apply String.eqb_neq in Hne. rewrite Hne.
    split; [exact H1|]. split; [congruence|].
    intros id' Hid'. rewrite (H3 id' Hid'). reflexivity.
Qed.

(** X11: with distinct ids in the store, [deleteOrder] on a stored id
    answers 200 and removes exactly that order: the id is no longer found,
    every other id is found as before, one document is gone.  On an id that
    is not stored it throws 404 and leaves the store alone.  No owner is
    asked for. *)
Theorem deleteOrder_removes_that_order id os :
  id <> "" ->
  NoDup (map _id os) ->
  (forall o, findById os id = Some o ->
     exists os',
       deleteOrder id os = (Respond 200 tt (Some "Order deleted successfully"), os')
       /\ findById os' id = None
       /\ S (length os') = length os
       /\ forall id', id' <> id -> findById os' id' = findById os id')
  /\ (findById os id = None ->
      deleteOrder id os = (Throw (ApiError 404 "Order not found"), os)).
Proof.
  intros Hid Hnd. apply String.eqb_neq in Hid. unfold deleteOrder. rewrite Hid.
  pose proof (findByIdAndDelete_found os id) as Hfst. split.
  - intros o Hfind. pose proof (findByIdAndDelete_rest os id o Hnd Hfind) as Hrest.
    destruct (findByIdAndDelete os id) as [found rest]. simpl in *.
    rewrite Hfst, Hfind. exists rest. split; [reflexivity | exact Hrest].
  - intros Hnone. destruct (findByIdAndDelete os id) as [found rest]. simpl in *.
    rewrite Hfst, Hnone. reflexivity.
Qed.

Lemma deleteOrder_removes_that_order_witness :
  "o1" <> ""
  /\ NoDup (map _id [Samples.placed])
  /\ (forall o, findById [Samples.placed] "o1" = Some o ->
        exists os',
          deleteOrder "o1" [Samples.placed]
            = (Respond 200 tt (Some "Order deleted successfully"), os')
          /\ findById os' "o1" = None
          /\ S (length os') = length [Samples.placed]
          /\ forall id', id' <> "o1" -> findById os' id' = findById [Samples.placed] id')
  /\ (findById [Samples.placed] "o1" = None ->
      deleteOrder "o1" [Samples.placed]
      = (Throw (ApiError 404 "Order not found"), [Samples.placed])).
Proof.
  assert (H1 : "o1" <> "") by discriminate.
  assert (H2 : NoDup (map _id [Samples.placed])) by apply NoDup_singleton.
  split; [exact H1|]. split; [exact H2|].
  exact (deleteOrder_removes_that_order "o1" [Samples.placed] H1 H2).
Defined.


(** *** [createOrder] *)

Lemma create_document newId userId n items0 addr pm amount notes0 now rnd cur os o os' :
  create newId userId n items0 addr pm amount notes0 now rnd cur os = inr (o, os') ->
  o = mkOrder newId n userId items0
              (if String.eqb (country addr) "" then set_country addr "India" else addr)
              pm "pending" "processing" (mkPaymentDetails None None None)
              None None notes0 None amount 0 0 false None now
  /\ validate o = true
  /\ os' = (os ++ [o])%list.
Proof.
  unfold create.
  set (d := mkOrder _ _ _ _ _ _ _ _ _ _ _ _ _ _ _ _ _ _ _).
  destruct (validate d) eqn:Hv; [|discriminate].
  rewrite (OrderProps.preSave_untouched _ _ _ _ (OrderProps.validate_orderNumber _ Hv)).
  destruct (orderNumberTaken os (orderNumber d)); [discriminate|].
  intros [= <- <-]. auto.
Qed.

(** How a placed order came about, for either source of items. *)
Lemma createOrder_inv reqUser body now newId rnd cur db code payload message db' :
  createOrder reqUser body now newId rnd cur db = (Respond code payload message, db') ->
  exists userId items0 order,
    reqUser = Some userId
    /\ create newId userId ("ORD-" +:+ Js.toString now) items0
              (body_shippingAddress body) (body_paymentMethod body)
              (body_totalAmount body) (body_notes body) now rnd cur (orders db)
       = inr (order, (orders db ++ [order])%list)
    /\ payload = (_id order, orderNumber order)
    /\ db' = mkDb (products db)
                  (if default true (body_fromCart body)
                   then CartModel.findOneAndUpdate_items (carts db) userId []
                   else carts db)
                  (orders db ++ [order])%list
    /\ (default true (body_fromCart body) = false ->
        exists bodyItems,
          body_items body = Some bodyItems /\ bodyItems <> []
          /\ items0 = map fromBody bodyItems).
Proof.
  unfold createOrder.
  destruct reqUser as [userId|]; simpl; [|discriminate].
  destruct (negb (negb (String.eqb userId ""))); [discriminate|].
  match goal with |- context [match ?g with inl _ => _ | inr _ => _ end] =>
    destruct g as [e|items0] eqn:Hg end; [destruct e; discriminate|].
  destruct (create _ _ _ _ _ _ _ _ _ _ _ _) as [e|[order os']] eqn:Hc;
    [destruct e; discriminate|].
  intros [= <- <- _ <-].
  apply create_document in Hc as Hdoc. destruct Hdoc as (_ & _ & ->).
  exists userId, items0, order. split; [reflexivity|]. split; [exact Hc|].
  split; [reflexivity|]. split; [reflexivity|].
  intros Hfrom. rewrite Hfrom in Hg.
  destruct (body_items body) as [bodyItems|]; [|discriminate].
  destruct bodyItems as [|b bs]; [discriminate|].
  injection Hg as <-. exists (b :: bs). repeat split. discriminate.
Qed.

(** X12: [createOrder] never writes to the product collection, so placing
    an order changes no stock; and a request it does not answer with an
    order leaves the whole store as it was, while a placed order adds
    exactly one order document. *)
Theorem createOrder_never_touches_products reqUser body now newId rnd cur db :
  products (snd (createOrder reqUser body now newId rnd cur db)) = products db
  /\ match createOrder reqUser body now newId rnd cur db with
     | (Respond _ _ _, db') => length (orders db') = S (length (orders db))
     | (_, db') => db' = db
     end.
Proof.
  destruct (createOrder reqUser body now newId rnd cur db) as [out db'] eqn:Hrun.
  destruct out as [code payload|code msg|e].
  - destruct (createOrder_inv _ _ _ _ _ _ _ _ _ _ _ Hrun)
      as (userId & items0 & order & _ & _ & _ & -> & _).
    simpl. split; [reflexivity|]. rewrite length_app. simpl. lia.
  - assert (db' = db) as ->; [|auto].
    revert Hrun. unfold createOrder.
    destruct (negb (Js.truthyStr reqUser)); [intros H; inversion H; reflexivity|].
    match goal with |- context [match ?g with inl _ => _ | inr _ => _ end] =>
      destruct g as [e|items0] end; [intros H; inversion H; reflexivity|].
    destruct (create _ _ _ _ _ _ _ _ _ _ _ _) as [e|[order os']];
      [intros H; inversion H; reflexivity | discriminate].
  - exfalso. revert Hrun. unfold createOrder.
    destruct (negb (Js.truthyStr reqUser)); [discriminate|].
    match goal with |- context [match ?g with inl _ => _ | inr _ => _ end] =>
      destruct g as [e0|items0] end; [destruct e0; discriminate|].
    destruct (create _ _ _ _ _ _ _ _ _ _ _ _) as [e0|[order os']];
      [destruct e0; discriminate | discriminate].
Qed.

(** X13: an order placed from an explicit item list ([fromCart] false)
    takes each unit price from the request: the catalog is not consulted,
    the cart is not cleared, and every accepted item has a quantity of at
    least 1, a price of at least 0 and that price times the quantity as
    its total. *)
Theorem createOrder_explicit_items_use_request_prices
        reqUser body now newId rnd cur db code payload message db' :
  body_fromCart body = Some false ->
  createOrder reqUser body now newId rnd cur db = (Respond code payload message, db') ->
  exists bodyItems order,
    body_items body = Some bodyItems
    /\ bodyItems <> []
    /\ orders db' = (orders db ++ [order])%list
    /\ carts db' = carts db
    /\ Forall2 (fun b it =>
                  product it = body_product b
                  /\ quantity it = body_quantity b
                  /\ 1 <= body_quantity b
                  /\ exists price,
                      body_sellingPrice b = Some price /\ 0 <= price
                      /\ unitPrice it = Some price
                      /\ totalPrice it = Some (price * body_quantity b))
               bodyItems (items order).
Proof.
  intros Hfrom Hrun.
  destruct (createOrder_inv _ _ _ _ _ _ _ _ _ _ _ Hrun)
    as (userId & items0 & order & _ & Hc & _ & -> & Hbody).
  rewrite Hfrom in *. cbn [default] in *.
  destruct (Hbody eq_refl) as (bodyItems & Hitems & Hne & ->).
  apply create_document in Hc as (Ho & Hv & _).
  exists bodyItems, order. repeat split; try assumption.
  apply OrderProps.validate_items in Hv. rewrite Ho in *. cbn [items] in *.
  clear -Hv. induction bodyItems as [|b bs IH]; [constructor|].
  simpl in Hv. apply andb_prop in Hv as [Hb Hbs].
  constructor; [|exact (IH Hbs)].
  unfold validItem, fromBody in *. cbn [product quantity unitPrice totalPrice] in *.
  rewrite !andb_true_iff in Hb. destruct Hb as [[[_ Hq] Hu] _].
  destruct (body_sellingPrice b) as [price|]; [|discriminate].
  cbn in Hu. repeat split; [lia|]. exists price. repeat split. lia.
Qed.

Lemma createOrder_explicit_items_use_request_prices_witness :
  body_fromCart (mkCreateBody Samples.address "UPI" 5 None
                              (Some [mkBodyItem "p2" 3 (Some 1)]) (Some false))
  = Some false
  /\ createOrder (Some "u1")
       (mkCreateBody Samples.address "UPI" 5 None (Some [mkBodyItem "p2" 3 (Some 1)])
                     (Some false))
       Samples.now "o7" Samples.zeros 0 Samples.db
     = (Respond 201 ("o7", "ORD-1700000000000") (Some "Order created successfully"),
        mkDb (products Samples.db) (carts Samples.db)
             [mkOrder "o7" "ORD-1700000000000" "u1"
                      [mkOrderItem "p2" 3 (Some 1) (Some 3)]
                      (set_country Samples.address "India") "UPI" "pending" "processing"
                      (mkPaymentDetails None None None) None None None None 5 0 0
                      false None Samples.now])
  /\ exists bodyItems order,
      Some [mkBodyItem "p2" 3 (Some 1)] = Some bodyItems
      /\ bodyItems <> []
      /\ [mkOrder "o7" "ORD-1700000000000" "u1"
                  [mkOrderItem "p2" 3 (Some 1) (Some 3)]
                  (set_country Samples.address "India") "UPI" "pending" "processing"
                  (mkPaymentDetails None None None) None None None None 5 0 0
                  false None Samples.now]
         = (orders Samples.db ++ [order])%list
      /\ carts Samples.db = carts Samples.db
      /\ Forall2 (fun b it =>
                    product it = body_product b
                    /\ quantity it = body_quantity b
                    /\ 1 <= body_quantity b
                    /\ exists price,
                        body_sellingPrice b = Some price /\ 0 <= price
                        /\ unitPrice it = Some price
                        /\ totalPrice it = Some (price * body_quantity b))
                 bodyItems (items order).
Proof.
  split; [reflexivity|]. split; [reflexivity|].
  exact (createOrder_explicit_items_use_request_prices (Some "u1")
           (mkCreateBody Samples.address "UPI" 5 None (Some [mkBodyItem "p2" 3 (Some 1)])
                         (Some false))
           Samples.now "o7" Samples.zeros 0 Samples.db 201 ("o7", "ORD-1700000000000")
           (Some "Order created successfully") _ eq_refl eq_refl).
Defined.

(** X14: every order [createOrder] places starts as processing, pending
    payment and not delivered, belongs to the requesting user, and carries
    as [totalAmount] the non-negative amount of the request as it was sent:
    the amount is not derived from the items. *)
Theorem createOrder_new_order_state reqUser body now newId rnd cur db code payload message db' :
  createOrder reqUser body now newId rnd cur db = (Respond code payload message, db') ->
  exists order,
    orders db' = (orders db ++ [order])%list
    /\ reqUser = Some (user order)
    /\ _id order = newId /\ createdAt order = now
    /\ orderStatus order = "processing" /\ paymentStatus order = "pending"
    /\ isDelivered order = false /\ deliveredAt order = None
    /\ paidAt (paymentDetails order) = None /\ cancelReason order = None
    /\ totalAmount order = body_totalAmount body /\ 0 <= totalAmount order
    /\ discount order = 0 /\ shippingFee order = 0.
Proof.
  intros Hrun.
  destruct (createOrder_inv _ _ _ _ _ _ _ _ _ _ _ Hrun)
    as (userId & items0 & order & -> & Hc & _ & -> & _).
  apply create_document in Hc as (Ho & Hv & _).
  exists order. split; [reflexivity|].
  assert (Ha : 0 <= totalAmount order).
  { unfold validate in Hv. rewrite !andb_true_iff in Hv.
    destruct Hv as [[[_ Ha] _] _]. lia. }
  rewrite Ho in *. cbn in *. repeat split. exact Ha.
Qed.

Lemma createOrder_new_order_state_witness :
  createOrder (Some "u1") Samples.checkout Samples.now "o1" Samples.zeros 0 Samples.db
  = (Respond 201 ("o1", "ORD-1700000000000") (Some "Order created successfully"), Samples.dbAfter)
  /\ exists order,
      orders Samples.dbAfter = (orders Samples.db ++ [order])%list
      /\ Some "u1" = Some (user order)
      /\ _id order = "o1" /\ createdAt order = Samples.now
      /\ orderStatus order = "processing" /\ paymentStatus order = "pending"
      /\ isDelivered order = false /\ deliveredAt order = None
      /\ paidAt (paymentDetails order) = None /\ cancelReason order = None
      /\ totalAmount order = body_totalAmount Samples.checkout
      /\ 0 <= totalAmount order
      /\ discount order = 0 /\ shippingFee order = 0.
Proof.
  split; [reflexivity|].
  exact (createOrder_new_order_state (Some "u1") Samples.checkout Samples.now "o1"
           Samples.zeros 0 Samples.db 201 ("o1", "ORD-1700000000000")
           (Some "Order created successfully") Samples.dbAfter eq_refl).
Defined.

End OrderExtra.

(** ** Order analytics *)

Module AnalyticsExtra.
Import OrderModel OrderController Reading.

Lemma countStatus_fold s docs : forall acc,
  fold_left (fun acc o => acc + (if String.eqb (orderStatus o) s then 1 else 0)) docs acc
  = acc + Z.of_nat (countOf s docs).
Proof.
  unfold countOf. induction docs as [|o docs IH]; intros acc; simpl; [lia|].
  rewrite IH. destruct (String.eqb (orderStatus o) s); simpl length; lia.
Qed.

Lemma countStatus_countOf s docs : countStatus s docs = Z.of_nat (countOf s docs).
Proof. unfold countStatus. rewrite countStatus_fold. lia. Qed.

Lemma groupByStatus_fold s docs : forall m : gmap string Z,
  fold_left (fun m o => <[orderStatus o := default 0 (m !! orderStatus o) + 1]> m) docs m
    !! s
  = if Nat.eqb (countOf s docs) 0 then m !! s
    else Some (default 0 (m !! s) + Z.of_nat (countOf s docs)).
Proof.
  unfold countOf. induction docs as [|o docs IH]; intros m; [reflexivity|].
  simpl fold_left. rewrite IH. simpl List.filter.
  destruct (String.eqb_spec (orderStatus o) s) as [Heq|Hne].
  - rewrite Heq, lookup_insert_eq. simpl length. cbn [Nat.eqb default].
    destruct (Nat.eqb_spec (length (List.filter
                (fun o0 => String.eqb (orderStatus o0) s) docs)) 0) as [H0|_].
    + rewrite H0. reflexivity.
    + f_equal. unfold id. lia.
  - rewrite lookup_insert_ne by exact Hne. reflexivity.
Qed.

(** X15: in the answer of [getOrderAnalytics], the status breakdown has an
    entry for a status exactly when some order of the window carries it,
    and the entry is the number of those orders. *)
Theorem getOrderAnalytics_breakdown_counts days0 now os s :
  exists a,
    getOrderAnalytics days0 now os = Respond 200 a (Some "Order analytics retrieved successfully")
    /\ statusBreakdown a !! s
       = if Nat.eqb (countOf s (matchStage (startDate now (default 30 days0)) os)) 0
         then None
         else Some (Z.of_nat (countOf s (matchStage (startDate now (default 30 days0)) os))).
Proof.
  unfold getOrderAnalytics. eexists. split; [reflexivity|].
  cbn [statusBreakdown]. unfold groupByStatus. rewrite groupByStatus_fold.
  rewrite lookup_empty. cbn [default]. reflexivity.
Qed.

(** X16: when the window holds at least one order, the summary reports the
    number of orders, the sum of their [totalAmount]s as revenue, an average
    that multiplied by the number of orders gives the revenue, and the
    numbers of cancelled and of delivered orders. *)
Theorem getOrderAnalytics_summary_figures days0 now os docs :
  docs = matchStage (startDate now (default 30 days0)) os ->
  docs <> [] ->
  exists a avg,
    getOrderAnalytics days0 now os = Respond 200 a (Some "Order analytics retrieved successfully")
    /\ summary a !! "totalOrders" = Some (JNumber (inject_Z (Z.of_nat (length docs))))
    /\ summary a !! "totalRevenue" = Some (JNumber (inject_Z (sumAmount docs)))
    /\ summary a !! "avgOrderValue" = Some (JNumber avg)
    /\ (avg * inject_Z (Z.of_nat (length docs)) == inject_Z (sumAmount docs))%Q
    /\ summary a !! "cancelledOrders"
       = Some (JNumber (inject_Z (Z.of_nat (countOf "cancelled" docs))))
    /\ summary a !! "deliveredOrders"
       = Some (JNumber (inject_Z (Z.of_nat (countOf "delivered" docs)))).
Proof.
  intros Hdocs Hne. unfold getOrderAnalytics. rewrite <- Hdocs.
  destruct docs as [|d ds]; [contradiction|].
  eexists _, _. split; [reflexivity|].
  split; [reflexivity|]. split; [reflexivity|]. split; [reflexivity|].
  split; [|split].
  - rewrite Qred_correct. unfold Qeq, Qmult, inject_Z. cbn [Qnum Qden].
    rewrite Pos.mul_1_r, Z2Pos.id by (simpl length; lia). lia.
  - rewrite <- countStatus_countOf. reflexivity.
  - rewrite <- countStatus_countOf. reflexivity.
Qed.

Lemma getOrderAnalytics_summary_figures_witness :
  [Samples.placed] = matchStage (startDate Samples.now (default 30 None)) [Samples.placed]
  /\ [Samples.placed] <> []
  /\ exists a avg,
      getOrderAnalytics None Samples.now [Samples.placed]
        = Respond 200 a (Some "Order analytics retrieved successfully")
      /\ summary a !! "totalOrders"
         = Some (JNumber (inject_Z (Z.of_nat (length [Samples.placed]))))
      /\ summary a !! "totalRevenue" = Some (JNumber (inject_Z (sumAmount [Samples.placed])))
      /\ summary a !! "avgOrderValue" = Some (JNumber avg)
      /\ (avg * inject_Z (Z.of_nat (length [Samples.placed]))
          == inject_Z (sumAmount [Samples.placed]))%Q
      /\ summary a !! "cancelledOrders"
         = Some (JNumber (inject_Z (Z.of_nat (countOf "cancelled" [Samples.placed]))))
      /\ summary a !! "deliveredOrders"
         = Some (JNumber (inject_Z (Z.of_nat (countOf "delivered" [Samples.placed])))).
Proof.
  assert (Hne : [Samples.placed] <> []) by discriminate.
  split; [reflexivity|]. split; [exact Hne|].
  exact (getOrderAnalytics_summary_figures None Samples.now [Samples.placed]
           [Samples.placed] eq_refl Hne).
Defined.

End AnalyticsExtra.

(** ** Product stock ledger and SKU generation *)

Module ProductExtra.
Import ProductModel Reading.

(** X17: the stock hook of [save] leaves the stock alone and settles the
    status: after it, a product with stock 0 is not ACTIVE and a product
    with positive stock is not OUT_OF_STOCK; DRAFT and DISCONTINUED products
    are never touched; running the hook again changes nothing, and without
    a modified stock it does nothing at all. *)
Theorem preSaveStatus_settles_status p :
  stock (preSaveStatus true p) = stock p
  /\ (stock p = 0 -> status (preSaveStatus true p) <> ACTIVE)
  /\ (0 < stock p -> status (preSaveStatus true p) <> OUT_OF_STOCK)
  /\ (status p = DRAFT \/ status p = DISCONTINUED ->
      preSaveStatus true p = p)
  /\ preSaveStatus true (preSaveStatus true p) = preSaveStatus true p
  /\ preSaveStatus false p = p.
Proof.
  destruct p as [i n sp st thr s k d u]. unfold preSaveStatus.
  cbn [stock status set_status].
  destruct (st =? 0) eqn:E0; destruct (0 <? st) eqn:Ep; destruct s;
    do 6 (cbn; rewrite ?E0, ?Ep;
          repeat (rewrite bool_decide_eq_true_2 by reflexivity);
          repeat (rewrite bool_decide_eq_false_2 by discriminate));
    (apply Z.eqb_eq in E0 || apply Z.eqb_neq in E0);
    (apply Z.ltb_lt in Ep || apply Z.ltb_ge in Ep);
    repeat split; try reflexivity; try discriminate; try lia;
    try (intros [?|?]; discriminate); intros; try lia; try discriminate.
Qed.

(** X18: through the save path the status follows the stock when the
    stock changes.  An ACTIVE product from which at least its whole stock
    is subtracted is saved with stock 0 and reads as not in stock; it is
    saved as OUT_OF_STOCK unless its stock was 0 already, in which case the
    assignment changes nothing, [isModified("stock")] is false, the hook is
    skipped and the product stays ACTIVE.  Adding a positive quantity to
    the saved product and saving again leaves it ACTIVE and in stock. *)
Theorem drain_then_restock p q q2 :
  status p = ACTIVE ->
  stock p <= q ->
  0 < q2 ->
  let drained := saveStatus p (updateStock p q "subtract") in
  let restocked := saveStatus drained (updateStock drained q2 "add") in
  stock drained = 0
  /\ status drained = (if stock p =? 0 then ACTIVE else OUT_OF_STOCK)
  /\ isInStock drained = false
  /\ stock restocked = q2 /\ status restocked = ACTIVE /\ isInStock restocked = true.
Proof.
  destruct p as [i n sp st thr s k d u]. cbn [status stock]. intros -> Hle Hq2.
  unfold saveStatus, updateStock.
  cbn [String.eqb Ascii.eqb Bool.eqb stock status set_stock].
  replace (Z.max 0 (st - q)) with 0 by lia.
  destruct q2 as [|q2|q2]; try lia.
  destruct (Z.eqb_spec st 0) as [->|Hst]; repeat split.
Qed.

Lemma drain_then_restock_witness :
  status Samples.soap = ACTIVE
  /\ stock Samples.soap <= 8
  /\ 0 < 3
  /\ (let drained := saveStatus Samples.soap (updateStock Samples.soap 8 "subtract") in
      let restocked := saveStatus drained (updateStock drained 3 "add") in
      stock drained = 0
      /\ status drained = (if stock Samples.soap =? 0 then ACTIVE else OUT_OF_STOCK)
      /\ isInStock drained = false
      /\ stock restocked = 3 /\ status restocked = ACTIVE /\ isInStock restocked = true).
Proof.
  assert (H1 : stock Samples.soap <= 8) by (vm_compute; discriminate).
  assert (H2 : 0 < 3) by reflexivity.
  split; [reflexivity|]. split; [exact H1|]. split; [exact H2|].
  exact (drain_then_restock Samples.soap 8 3 eq_refl H1 H2).
Defined.

(** A product that a bulk write left ACTIVE with stock 0: a
    subtraction stores the 0 it already had, the hook does not run and the
    product is saved as it was. *)
Example drain_at_zero_stays_active :
  saveStatus Samples.tea (updateStock Samples.tea 5 "subtract") = Samples.tea.
Proof. reflexivity. Qed.

(** X19: on a non-negative stock, adding a quantity and then subtracting
    it gives the stock back, while subtracting first and adding after ends
    at the larger of the stock and the quantity (the clamp at 0 is not
    undone); any other [op] stores the quantity itself, clamped at 0. *)
Theorem updateStock_add_subtract p q op :
  0 <= stock p ->
  stock (updateStock (updateStock p q "add") q "subtract") = stock p
  /\ stock (updateStock (updateStock p q "subtract") q "add") = Z.max (stock p) q
  /\ (op <> "add" -> op <> "subtract" -> stock (updateStock p q op) = Z.max 0 q).
Proof.
  intros Hs. unfold updateStock. cbn [String.eqb Ascii.eqb Bool.eqb stock set_stock].
  split; [lia|]. split; [lia|].
  intros Ha Hb. apply String.eqb_neq in Ha, Hb. rewrite Ha, Hb. reflexivity.
Qed.

Lemma updateStock_add_subtract_witness :
  0 <= stock Samples.soap
  /\ stock (updateStock (updateStock Samples.soap 9 "add") 9 "subtract") = stock Samples.soap
  /\ stock (updateStock (updateStock Samples.soap 9 "subtract") 9 "add")
     = Z.max (stock Samples.soap) 9
  /\ ("set" <> "add" -> "set" <> "subtract" ->
      stock (updateStock Samples.soap 9 "set") = Z.max 0 9).
Proof.
  assert (H : 0 <= stock Samples.soap) by (vm_compute; discriminate).
  split; [exact H|].
  exact (updateStock_add_subtract Samples.soap 9 "set" H).
Defined.

(** X20: the three stock virtuals agree as far as the code makes them:
    [stockStatus] is one of its three strings; a product that [isLowStock]
    reads ["low-stock"]; ["in-stock"] is reported exactly when the stock
    exceeds the threshold, is not 0 and the status is not OUT_OF_STOCK; and
    with a non-negative threshold an ["in-stock"] product [isInStock] and is
    not [isLowStock]. *)
Theorem stock_virtuals_agree p :
  (stockStatus p = "low-stock" \/ stockStatus p = "out-of-stock"
   \/ stockStatus p = "in-stock")
  /\ (isLowStock p = true -> stockStatus p = "low-stock")
  /\ (stockStatus p = "in-stock"
      <-> lowStockThreshold p < stock p /\ stock p <> 0 /\ status p <> OUT_OF_STOCK)
  /\ (0 <= lowStockThreshold p -> stockStatus p = "in-stock" ->
      isInStock p = true /\ isLowStock p = false).
Proof.
  unfold stockStatus, isLowStock, isInStock.
  destruct (Z.leb_spec (stock p) (lowStockThreshold p)) as [Hle|Hgt];
    destruct (Z.eqb_spec (stock p) 0) as [H0|Hne];
    destruct (Z.ltb_spec 0 (stock p)) as [Hpos|Hnp];
    case_bool_decide as Hst; cbn [orb andb negb];
    (split; [auto|]); (split; [intros; first [reflexivity | discriminate]|]);
    (split; [split; [try discriminate; intros _; repeat split; first [lia | assumption]
                    | intros (H1 & H2 & H3); first [reflexivity | lia | contradiction]]
            |]);
    intros Hthr Hin; first [discriminate Hin | lia | split; reflexivity].
Qed.


(** *** Bulk stock decrement, product by product *)

(** With distinct ids, rewriting the first match is rewriting every match. *)
Lemma updateOne_as_map op ps :
  NoDup (map _id ps) ->
  updateOne op ps
  = map (fun p => if matches (filter op) p then applyUpdate (update op) p else p) ps.
Proof.
  unfold updateOne. induction ps as [|p ps IH]; intros Hnd; [reflexivity|].
  simpl in *. apply NoDup_cons in Hnd as [Hnotin Hnd].
  destruct (matches (filter op) p) eqn:Hm; [|rewrite (IH Hnd); reflexivity].
  f_equal. clear IH. induction ps as [|r ps IH]; [reflexivity|].
  simpl in *. apply not_elem_of_cons in Hnotin as [Hne Hnotin].
  apply NoDup_cons in Hnd as [_ Hnd].
  rewrite <- (IH Hnotin Hnd).
  destruct (matches (filter op) r) eqn:Hr; [|reflexivity].
  unfold matches in Hm, Hr. apply andb_prop in Hm as [Hm _].
  apply andb_prop in Hr as [Hr _]. apply String.eqb_eq in Hm, Hr. congruence.
Qed.

Lemma bulkWrite_as_map ops : forall ps,
  NoDup (map _id ps) ->
  bulkWrite ops ps
  = map (fun p => fold_left
                    (fun acc op =>
                       if matches (filter op) acc then applyUpdate (update op) acc
                       else acc) ops p) ps.
Proof.
  unfold bulkWrite. induction ops as [|op ops IH]; intros ps Hnd; simpl.
  - symmetry. apply map_id.
  - rewrite updateOne_as_map by exact Hnd. rewrite IH.
    + rewrite map_map. reflexivity.
    + rewrite map_map.
      replace (map (fun x => _id (if matches (filter op) x
                                  then applyUpdate (update op) x else x)) ps)
        with (map _id ps); [exact Hnd|].
      apply map_ext. intros x. destruct (matches (filter op) x); reflexivity.
Qed.

Lemma bulkOps_effect items now : forall p,
  let p' := fold_left
              (fun acc op =>
                 if matches (filter op) acc then applyUpdate (update op) acc else acc)
              (bulkOps items now) p in
  _id p' = _id p /\ name p' = name p /\ sellingPrice p' = sellingPrice p
  /\ lowStockThreshold p' = lowStockThreshold p /\ status p' = status p
  /\ sku p' = sku p /\ isDeleted p' = isDeleted p
  /\ stock p' = (if isDeleted p then stock p else stock p - demand items (_id p))
  /\ (isDeleted p = true \/ demand items (_id p) = 0 /\ (forall item, In item items ->
        item_id item <> _id p) -> p' = p).
Proof.
  induction items as [|item items IH]; intros p; simpl.
  - repeat split; try reflexivity; destruct (isDeleted p); lia.
  - assert (Hm : matches (mkFilter (item_id item) false) p
                 = String.eqb (_id p) (item_id item) && negb (isDeleted p))
      by (unfold matches; cbn; destruct (isDeleted p); reflexivity).
    rewrite Hm. clear Hm.
    destruct (String.eqb_spec (_id p) (item_id item)) as [Heq|Hne];
      destruct (isDeleted p) eqn:Hd; cbn [negb andb].
    + specialize (IH p). cbv zeta in IH. rewrite Hd in IH.
      destruct IH as (I1 & I2 & I3 & I4 & I5 & I6 & I7 & I8 & I9).
      repeat (split; [assumption|]). intros _. apply I9. left. reflexivity.
    + specialize (IH (applyUpdate (mkUpdate (- quantity item) now) p)). cbv zeta in IH.
      cbn [applyUpdate _id name sellingPrice lowStockThreshold status sku isDeleted
           stock set_stock set_updatedAt inc_stock set_updatedAt_to] in IH.
      rewrite Hd in IH.
      destruct IH as (I1 & I2 & I3 & I4 & I5 & I6 & I7 & I8 & _).
      repeat (split; [assumption|]). split.
      * rewrite I8. rewrite <- Heq, String.eqb_refl. lia.
      * intros [Hc|[_ Hall]]; [discriminate|].
        exfalso. apply (Hall item); [left; reflexivity | congruence].
    + specialize (IH p). cbv zeta in IH. rewrite Hd in IH.
      destruct IH as (I1 & I2 & I3 & I4 & I5 & I6 & I7 & I8 & I9).
      repeat (split; [assumption|]). intros _. apply I9. left. reflexivity.
    + specialize (IH p). cbv zeta in IH. rewrite Hd in IH.
      destruct IH as (I1 & I2 & I3 & I4 & I5 & I6 & I7 & I8 & I9).
      assert (Hne' : String.eqb (item_id item) (_id p) = false)
        by (apply String.eqb_neq; congruence).
      repeat (split; [assumption|]). split.
      * rewrite I8, Hne'. lia.
      * intros [Hc|[Hz Hall]]; [discriminate|]. apply I9. right.
        rewrite Hne' in Hz. split; [lia|]. intros it Hit. apply Hall. right. exact Hit.
Qed.

(** X21: with distinct product ids, [bulkUpdateStock] changes the store
    product by product and in place: a product that is not soft-deleted
    loses the total quantity the items ask of it (no floor at 0), a
    soft-deleted product and a product no item names stay exactly as they
    were, and ids, status, SKU and the deletion flag never change. *)
Theorem bulkUpdateStock_takes_the_demand items now ps :
  NoDup (map _id ps) ->
  Forall2 (fun p p' =>
             _id p' = _id p /\ status p' = status p /\ sku p' = sku p
             /\ isDeleted p' = isDeleted p
             /\ stock p' = (if isDeleted p then stock p
                            else stock p - demand items (_id p))
             /\ (isDeleted p = true -> p' = p)
             /\ ((forall item, In item items -> item_id item <> _id p) -> p' = p))
          ps (bulkUpdateStock items now ps).
Proof.
  intros Hnd. unfold bulkUpdateStock. rewrite bulkWrite_as_map by exact Hnd.
  clear Hnd. induction ps as [|p ps IH]; simpl; constructor; [|exact IH].
  destruct (bulkOps_effect items now p) as (I1 & _ & _ & _ & I5 & I6 & I7 & I8 & I9).
  repeat (split; [assumption|]). split.
  - intros Hd. apply I9. left. exact Hd.
  - intros Hall. apply I9. right. split; [|exact Hall].
    clear -Hall. induction items as [|it items IH]; [reflexivity|].
    simpl. destruct (String.eqb_spec (item_id it) (_id p)) as [Heq|_].
    + exfalso. apply (Hall it); [left; reflexivity | exact Heq].
    + rewrite IH; [lia|]. intros item Hin. apply Hall. right. exact Hin.
Qed.

Lemma bulkUpdateStock_takes_the_demand_witness :
  NoDup (map _id [Samples.soap; Samples.tea])
  /\ Forall2 (fun p p' =>
                _id p' = _id p /\ status p' = status p /\ sku p' = sku p
                /\ isDeleted p' = isDeleted p
                /\ stock p' = (if isDeleted p then stock p
                               else stock p
                                    - demand [mkStockItem "p1" 2; mkStockItem "p1" 1] (_id p))
                /\ (isDeleted p = true -> p' = p)
                /\ ((forall item, In item [mkStockItem "p1" 2; mkStockItem "p1" 1] ->
                                  item_id item <> _id p) -> p' = p))
             [Samples.soap; Samples.tea]
             (bulkUpdateStock [mkStockItem "p1" 2; mkStockItem "p1" 1] 7
                              [Samples.soap; Samples.tea]).
Proof.
  assert (H : NoDup (map _id [Samples.soap; Samples.tea])).
  { apply NoDup_cons. split; [|apply NoDup_singleton].
    intros Hin. apply list_elem_of_singleton in Hin. discriminate Hin. }
  split; [exact H|].
  exact (bulkUpdateStock_takes_the_demand [mkStockItem "p1" 2; mkStockItem "p1" 1] 7
           [Samples.soap; Samples.tea] H).
Defined.

(** *** What the SKU hook hands out *)

Lemma skuLoop_sound ps rnd : forall fuel cur s,
  skuLoop fuel ps rnd cur = Some s ->
  exists k, (k < fuel)%nat
    /\ s = candidate rnd cur k
    /\ findOneBySku ps (candidate rnd cur k) = None
    /\ forall j, (j < k)%nat -> is_Some (findOneBySku ps (candidate rnd cur j)).
Proof.
  induction fuel as [|fuel IH]; intros cur s H; [discriminate|].
  simpl in H. destruct (findOneBySku ps (generateRandomSKU rnd cur)) as [found|] eqn:Hf.
  - destruct (IH _ _ H) as (k & Hk & Hs & Hfree & Hcol).
    exists (S k). rewrite <- !ProductProps.candidate_shift.
    split; [lia|]. split; [exact Hs|]. split; [exact Hfree|].
    intros [|j] Hj.
    + rewrite ProductProps.candidate_0, Hf. eauto.
    + rewrite <- ProductProps.candidate_shift. apply Hcol. lia.
  - injection H as <-. exists O. rewrite ProductProps.candidate_0.
    split; [lia|]. split; [reflexivity|]. split; [exact Hf|]. intros j Hj. lia.
Qed.

(** X22: whenever the SKU hook ends on a product saved without a SKU, the
    SKU it assigned is the first generated candidate that no product
    visible to the lookup carries (upper-cased): every earlier candidate
    collided, and no product that is not soft-deleted has that candidate
    as its SKU.  Nothing but the [sku] field is changed. *)
Theorem preSaveSku_hands_out_first_free fuel ps rnd cur p p' :
  Js.truthyStr (sku p) = false ->
  preSaveSku fuel ps rnd cur p = Some p' ->
  exists k, (k < fuel)%nat
    /\ p' = set_sku p (Some (Js.toUpperCase (candidate rnd cur k)))
    /\ (forall j, (j < k)%nat -> is_Some (findOneBySku ps (candidate rnd cur j)))
    /\ forall q, In q ps -> isDeleted q = false -> sku q <> Some (candidate rnd cur k).
Proof.
  intros Hsku. unfold preSaveSku. rewrite Hsku.
  destruct (skuLoop fuel ps rnd cur) as [s|] eqn:Hloop; [|discriminate].
  intros [= <-]. destruct (skuLoop_sound _ _ _ _ _ Hloop) as (k & Hk & -> & Hfree & Hcol).
  exists k. split; [exact Hk|]. split; [reflexivity|]. split; [exact Hcol|].
  intros q Hq Hd Hs. unfold findOneBySku in Hfree.
  pose proof (find_none _ _ Hfree q Hq) as Hnone. cbn in Hnone.
  rewrite Hd, bool_decide_eq_true_2 in Hnone by exact Hs. discriminate.
Qed.

Lemma preSaveSku_hands_out_first_free_witness :
  Js.truthyStr (sku Samples.tea) = false
  /\ preSaveSku 3 [Samples.soap] Samples.zerosThenHalves 0 Samples.tea
     = Some (set_sku Samples.tea (Some "NNN-5000-NNN"))
  /\ exists k, (k < 3)%nat
      /\ set_sku Samples.tea (Some "NNN-5000-NNN")
         = set_sku Samples.tea
             (Some (Js.toUpperCase (candidate Samples.zerosThenHalves 0 k)))
      /\ (forall j, (j < k)%nat ->
            is_Some (findOneBySku [Samples.soap] (candidate Samples.zerosThenHalves 0 j)))
      /\ forall q, In q [Samples.soap] -> isDeleted q = false ->
                   sku q <> Some (candidate Samples.zerosThenHalves 0 k).
Proof.
  split; [reflexivity|]. split; [reflexivity|].
  exact (preSaveSku_hands_out_first_free 3 [Samples.soap] Samples.zerosThenHalves 0
           Samples.tea _ eq_refl eq_refl).
Defined.

(** X23: the collision lookup does not see soft-deleted products: when
    every product carrying the first candidate is soft-deleted, the hook
    assigns that candidate at its first attempt, although a stored product
    carries it. *)
Theorem preSaveSku_reuses_sku_of_deleted_product fuel ps rnd cur p :
  Js.truthyStr (sku p) = false ->
  (forall q, In q ps -> sku q = Some (generateRandomSKU rnd cur) -> isDeleted q = true) ->
  preSaveSku (S fuel) ps rnd cur p
  = Some (set_sku p (Some (Js.toUpperCase (generateRandomSKU rnd cur)))).
Proof.
  intros Hsku Hdel. unfold preSaveSku. rewrite Hsku. simpl.
  destruct (findOneBySku ps (generateRandomSKU rnd cur)) as [found|] eqn:Hf;
    [|reflexivity].
  exfalso. unfold findOneBySku in Hf. apply find_some in Hf as [Hin Hm].
  apply andb_prop in Hm as [Hs Hd]. apply bool_decide_eq_true_1 in Hs.
  rewrite (Hdel found Hin Hs) in Hd. discriminate.
Qed.

Lemma preSaveSku_reuses_sku_of_deleted_product_witness :
  Js.truthyStr (sku Samples.tea) = false
  /\ (forall q,
        In q [mkProduct "p9" "Old soap" (Some 9) 0 10 DISCONTINUED
                        (Some "AAA-0000-AAA") true 0] ->
        sku q = Some (generateRandomSKU Samples.zeros 0) -> isDeleted q = true)
  /\ preSaveSku 1 [mkProduct "p9" "Old soap" (Some 9) 0 10 DISCONTINUED
                             (Some "AAA-0000-AAA") true 0]
                Samples.zeros 0 Samples.tea
     = Some (set_sku Samples.tea
               (Some (Js.toUpperCase (generateRandomSKU Samples.zeros 0)))).
Proof.
  assert (H : forall q,
             In q [mkProduct "p9" "Old soap" (Some 9) 0 10 DISCONTINUED
                             (Some "AAA-0000-AAA") true 0] ->
             sku q = Some (generateRandomSKU Samples.zeros 0) -> isDeleted q = true).
  { intros q [<-|[]] _. reflexivity. }
  split; [reflexivity|]. split; [exact H|].
  exact (preSaveSku_reuses_sku_of_deleted_product 0 _ Samples.zeros 0 Samples.tea eq_refl H).
Defined.


(** *** The shape of a generated SKU *)

Lemma floorScaled_range r k :
  (0 <= r)%Q -> (r < 1)%Q -> 0 < k -> 0 <= Js.floorScaled r k < k.
Proof.
  intros H0 H1 Hk. unfold Js.floorScaled. split.
  - change 0 with (Qfloor (inject_Z 0)). apply Qfloor_resp_le.
    apply Qmult_le_0_compat; [exact H0|].
    change (inject_Z 0 <= inject_Z k)%Q. rewrite <- Zle_Qle. lia.
  - rewrite Zlt_Qlt. eapply Qle_lt_trans; [apply Qfloor_le|].
    rewrite <- (Qmult_1_l (inject_Z k)) at 2.
    apply Qmult_lt_compat_r; [|exact H1].
    change (inject_Z 0 < inject_Z k)%Q. rewrite <- Zlt_Qlt. exact Hk.
Qed.

Lemma letter_shape k :
  0 <= k < 26 ->
  exists c, Js.fromCharCode (Z.to_nat (65 + k)) = String c ""
            /\ isUpperLetter c = true /\ Js.upperChar c = c.
Proof.
  intros Hk. exists (ascii_of_nat (Z.to_nat (65 + k))). split; [reflexivity|].
  replace (Z.to_nat (65 + k)) with (65 + Z.to_nat k)%nat by lia.
  assert (Hn : (Z.to_nat k < 26)%nat) by lia.
  revert Hn. generalize (Z.to_nat k) as n. intros n Hn.
  do 26 (destruct n as [|n]; [split; reflexivity|]). lia.
Qed.

Lemma fourDigits_table :
  forallb (fun n => fourDigits (Js.padStart 4 "0"%char (Js.toString (Z.of_nat n))))
          (seq 0 (Z.to_nat 10000)) = true.
Proof. vm_compute. reflexivity. Qed.

Lemma number_shape n :
  0 <= n < 10000 -> fourDigits (Js.padStart 4 "0"%char (Js.toString n)) = true.
Proof.
  intros Hn. pose proof fourDigits_table as Ht.
  rewrite forallb_forall in Ht. specialize (Ht (Z.to_nat n)).
  rewrite Z2Nat.id in Ht by lia. apply Ht. apply in_seq. lia.
Qed.

Lemma fourDigits_inv s :
  fourDigits s = true ->
  exists a b c d,
    s = String a (String b (String c (String d "")))
    /\ isDigit a = true /\ isDigit b = true /\ isDigit c = true /\ isDigit d = true.
Proof.
  unfold fourDigits.
  destruct s as [|a [|b [|c [|d [|e s]]]]]; simpl; try discriminate.
  rewrite !andb_true_iff. intros [[[Ha Hb] Hc] Hd]. exists a, b, c, d. auto.
Qed.

Lemma digit_upperChar c : isDigit c = true -> Js.upperChar c = c.
Proof.
  unfold isDigit, Js.upperChar. intros H. apply andb_prop in H as [_ H].
  apply Nat.leb_le in H.
  destruct (Nat.leb_spec 97 (nat_of_ascii c)) as [H97|_]; [lia | reflexivity].
Qed.

(** X24: with draws in the range of [Math.random], 0 included and 1
    excluded, [generateRandomSKU] returns twelve characters of the announced
    shape: three capital letters, a dash, four digits, a dash, three capital
    letters; the [toUpperCase] the hook applies leaves such a SKU unchanged. *)
Theorem generateRandomSKU_shape rnd cur :
  (forall i, (0 <= rnd i)%Q /\ (rnd i < 1)%Q) ->
  skuShape (generateRandomSKU rnd cur) = true
  /\ Js.toUpperCase (generateRandomSKU rnd cur) = generateRandomSKU rnd cur.
Proof.
  intros Hrnd.
  assert (Hletter : forall i, exists c,
             Js.fromCharCode (Z.to_nat (65 + Js.floorScaled (rnd i) 26)) = String c ""
             /\ isUpperLetter c = true /\ Js.upperChar c = c).
  { intros i. destruct (Hrnd i) as [H0 H1]. apply letter_shape.
    apply floorScaled_range; [exact H0 | exact H1 | lia]. }
  assert (Hnumber : fourDigits (randomNumbers 4 rnd (cur + 3)) = true).
  { unfold randomNumbers. destruct (Hrnd (cur + 3)%nat) as [H0 H1].
    apply number_shape. change (10 ^ Z.of_nat 4) with 10000.
    apply (floorScaled_range _ 10000 H0 H1). lia. }
  apply fourDigits_inv in Hnumber
    as (n1 & n2 & n3 & n4 & Hnum & D1 & D2 & D3 & D4).
  unfold generateRandomSKU. rewrite Hnum. cbn [randomLetters].
  destruct (Hletter cur) as (a & -> & A1 & A2).
  destruct (Hletter (S cur)) as (b & -> & B1 & B2).
  destruct (Hletter (S (S cur))) as (c & -> & C1 & C2).
  destruct (Hletter (cur + 4)%nat) as (x & -> & X1 & X2).
  destruct (Hletter (S (cur + 4))) as (y & -> & Y1 & Y2).
  destruct (Hletter (S (S (cur + 4)))) as (z & -> & Z1 & Z2).
  cbv beta iota delta [String.append]. split.
  - cbv beta iota delta [skuShape String.list_ascii_of_string].
    rewrite A1, B1, C1, D1, D2, D3, D4, X1, Y1, Z1. reflexivity.
  - cbv beta iota delta [Js.toUpperCase].
    rewrite A2, B2, C2, X2, Y2, Z2, (digit_upperChar n1 D1), (digit_upperChar n2 D2),
      (digit_upperChar n3 D3), (digit_upperChar n4 D4).
    reflexivity.
Qed.

Lemma generateRandomSKU_shape_witness :
  (forall i, (0 <= Samples.zerosThenHalves i)%Q /\ (Samples.zerosThenHalves i < 1)%Q)
  /\ skuShape (generateRandomSKU Samples.zerosThenHalves 5) = true
  /\ Js.toUpperCase (generateRandomSKU Samples.zerosThenHalves 5)
     = generateRandomSKU Samples.zerosThenHalves 5.
Proof.
  assert (H : forall i, (0 <= Samples.zerosThenHalves i)%Q
                        /\ (Samples.zerosThenHalves i < 1)%Q).
  { intros i. unfold Samples.zerosThenHalves.
    destruct (Nat.ltb i 7); split; reflexivity || discriminate. }
  split; [exact H|].
  exact (generateRandomSKU_shape Samples.zerosThenHalves 5 H).
Defined.

End ProductExtra.

(** ** helpers.js *)

Module HelpersProps.
Import Helpers.

(** *** Rate limiting *)

(** X25: one [checkRateLimit] call.  Entries of other keys are never
    touched.  A refused call writes nothing and reports 0 remaining.  An
    allowed call stores the requests still inside the window followed by
    the current time; what is stored never exceeds [max] entries and the
    reported [remaining] is [max] minus that number. *)
Theorem checkRateLimit_records_within_max key max windowMs now store :
  (forall k, k <> key ->
     snd (checkRateLimit key max windowMs now store) !! k = store !! k)
  /\ resetTime (fst (checkRateLimit key max windowMs now store)) = now + windowMs
  /\ (allowed (fst (checkRateLimit key max windowMs now store)) = false ->
      snd (checkRateLimit key max windowMs now store) = store
      /\ remaining (fst (checkRateLimit key max windowMs now store)) = 0
      /\ max <= Z.of_nat (length (validAt now windowMs (default [] (store !! key)))))
  /\ (allowed (fst (checkRateLimit key max windowMs now store)) = true ->
      snd (checkRateLimit key max windowMs now store) !! key
      = Some (validAt now windowMs (default [] (store !! key)) ++ [now])%list
      /\ Z.of_nat (length (validAt now windowMs (default [] (store !! key)) ++ [now])%list)
         <= max
      /\ remaining (fst (checkRateLimit key max windowMs now store))
         = max - Z.of_nat (length (validAt now windowMs (default [] (store !! key))
                                     ++ [now])%list)).
Proof.
  unfold checkRateLimit.
  destruct (Z.leb_spec max
              (Z.of_nat (length (validAt now windowMs (default [] (store !! key))))))
    as [Hfull|Hroom]; cbn [fst snd allowed remaining resetTime].
  - split; [reflexivity|]. split; [reflexivity|]. split; [auto | discriminate].
  - split; [intros k Hk; apply lookup_insert_ne; congruence|].
    split; [reflexivity|]. split; [discriminate|]. intros _.
    rewrite lookup_insert_eq, length_app. cbn [length].
    split; [reflexivity|]. split; lia.
Qed.

Lemma validAt_snoc now windowMs l :
  0 < windowMs -> validAt now windowMs l = l ->
  validAt now windowMs (l ++ [now]) = (l ++ [now])%list.
Proof.
  intros Hw Hl. unfold validAt in *. rewrite List.filter_app, Hl. simpl.
  replace (now - now) with 0 by lia.
  destruct (Z.ltb_spec 0 windowMs); [reflexivity | lia].
Qed.

Lemma checkAll_burst key max windowMs now : forall n store l,
  0 < windowMs ->
  default [] (store !! key) = l ->
  validAt now windowMs l = l ->
  fst (checkAll key max windowMs (replicate n now) store)
  = (replicate (min n (Z.to_nat (max - Z.of_nat (length l)))) true
     ++ replicate (n - Z.to_nat (max - Z.of_nat (length l))) false)%list.
Proof.
  induction n as [|n IH]; intros store l Hw Hl Hfresh; [reflexivity|].
  cbn [replicate checkAll]. unfold checkRateLimit. rewrite Hl, Hfresh.
  destruct (Z.leb_spec max (Z.of_nat (length l))) as [Hfull|Hroom].
  - specialize (IH store l Hw Hl Hfresh).
    destruct (checkAll key max windowMs (replicate n now) store) as [rs st] eqn:Hrest.
    cbn [fst allowed] in *. rewrite IH.
    replace (Z.to_nat (max - Z.of_nat (length l))) with O by lia.
    rewrite !Nat.min_0_r, !Nat.sub_0_r. reflexivity.
  - specialize (IH (<[key := (l ++ [now])%list]> store) (l ++ [now])%list Hw).
    rewrite lookup_insert_eq in IH. specialize (IH eq_refl (validAt_snoc _ _ _ Hw Hfresh)).
    destruct (checkAll key max windowMs (replicate n now) _) as [rs st] eqn:Hrest.
    cbn [fst allowed] in *. rewrite IH, length_app. cbn [length].
    replace (Z.to_nat (max - Z.of_nat (length l)))
      with (S (Z.to_nat (max - Z.of_nat (length l + 1)))) by lia.
    reflexivity.
Qed.

(** X26: a burst of [n] requests for a key with no entry yet, all at the
    same instant and with a positive window, lets the first [max] through
    and refuses every later one. *)
Theorem checkRateLimit_burst key max windowMs now n store :
  0 < windowMs ->
  store !! key = None ->
  fst (checkAll key max windowMs (replicate n now) store)
  = (replicate (min n (Z.to_nat max)) true ++ replicate (n - Z.to_nat max) false)%list.
Proof.
  intros Hw Hnone.
  rewrite (checkAll_burst key max windowMs now n store [] Hw);
    [| rewrite Hnone; reflexivity | reflexivity].
  cbn [length]. replace (max - Z.of_nat 0) with max by lia. reflexivity.
Qed.

Lemma checkRateLimit_burst_witness :
  0 < 60000
  /\ (∅ : gmap string (list Z)) !! "10.0.0.7" = None
  /\ fst (checkAll "10.0.0.7" 3 60000 (replicate 5 1700000000000) ∅)
     = (replicate (min 5 (Z.to_nat 3)) true ++ replicate (5 - Z.to_nat 3) false)%list.
Proof.
  assert (Hw : 0 < 60000) by reflexivity.
  split; [exact Hw|]. split; [reflexivity|].
  exact (checkRateLimit_burst "10.0.0.7" 3 60000 1700000000000 5 ∅ Hw eq_refl).
Defined.

(** X27: the periodic sweep keeps, for every key, exactly its requests of
    the last 60000 ms, and drops the key when none is left: no entry of the
    swept store is empty or holds an older request, and sweeping again at
    the same time changes nothing. *)
Theorem sweep_keeps_recent_requests now store :
  (forall k l, sweep now store !! k = Some l ->
     l <> []
     /\ Forall (fun t => now - t < 60000) l
     /\ exists l0, store !! k = Some l0 /\ l = validAt now 60000 l0)
  /\ (forall k l0, store !! k = Some l0 ->
        sweep now store !! k
        = if Nat.eqb (length (validAt now 60000 l0)) 0 then None
          else Some (validAt now 60000 l0))
  /\ sweep now (sweep now store) = sweep now store.
Proof.
  assert (Hlook : forall k l0, store !! k = Some l0 ->
            sweep now store !! k
            = if Nat.eqb (length (validAt now 60000 l0)) 0 then None
              else Some (validAt now 60000 l0)).
  { intros k l0 Hk. unfold sweep. rewrite lookup_omap, Hk. reflexivity. }
  assert (Hvalid : forall l, Forall (fun t => now - t < 60000) (validAt now 60000 l)).
  { intros l. unfold validAt. apply List.Forall_forall. intros t Ht.
    apply filter_In in Ht as [_ Ht]. apply Z.ltb_lt, Ht. }
  assert (Hagain : forall l, validAt now 60000 (validAt now 60000 l) = validAt now 60000 l).
  { intros l. unfold validAt. induction l as [|t l IH]; [reflexivity|].
    simpl. destruct (now - t <? 60000) eqn:Ht; [|exact IH].
    simpl. rewrite Ht, IH. reflexivity. }
  split; [|split; [exact Hlook|]].
  - intros k l Hl. destruct (store !! k) as [l0|] eqn:Hk.
    + rewrite (Hlook k l0 Hk) in Hl.
      destruct (Nat.eqb_spec (length (validAt now 60000 l0)) 0) as [|Hne];
        [discriminate|].
      injection Hl as <-. split; [|split; [apply Hvalid | eauto]].
      intros Hnil. rewrite Hnil in Hne. contradiction.
    + unfold sweep in Hl. rewrite lookup_omap, Hk in Hl. discriminate.
  - apply map_eq. intros k. unfold sweep at 1. rewrite lookup_omap.
    destruct (store !! k) as [l0|] eqn:Hk.
    + rewrite (Hlook k l0 Hk).
      destruct (Nat.eqb (length (validAt now 60000 l0)) 0) eqn:Hlen; [reflexivity|].
      cbn. rewrite Hagain, Hlen. reflexivity.
    + unfold sweep. rewrite lookup_omap, Hk. reflexivity.
Qed.


(** *** Retry with backoff *)

Section RetryProps.
Context {E A : Type}.
Variable fn : nat -> E + A.
Variable attempts : nat.
Variable delay : Z.

Lemma retryLoop_success a k : forall togo i last,
  (i + togo = attempts)%nat -> (i <= k)%nat -> (k < attempts)%nat ->
  fn k = inr a ->
  (forall j, (i <= j)%nat -> (j < k)%nat -> exists e, fn j = inl e) ->
  retryLoop fn attempts delay i togo last
  = (inr a, map (fun j => delay * 2 ^ Z.of_nat j) (seq i (k - i))).
Proof.
  induction togo as [|togo IH]; intros i last Hsum Hik Hk Ha Hfail; [lia|].
  simpl. destruct (Nat.eq_dec i k) as [->|Hne].
  - rewrite Ha, Nat.sub_diag. reflexivity.
  - destruct (Hfail i ltac:(lia) ltac:(lia)) as [e He]. rewrite He.
    destruct (Nat.eqb_spec i (attempts - 1)) as [Heq|_]; [lia|].
    rewrite (IH (S i) (Some e)) by (try lia; try assumption; intros; apply Hfail; lia).
    replace (k - i)%nat with (S (k - S i)) by lia. reflexivity.
Qed.

Lemma retryLoop_step i togo last :
  retryLoop fn attempts delay i (S togo) last
  = match fn i with
    | inr value => (inr value, [])
    | inl error =>
        if Nat.eqb i (attempts - 1) then (inl (Some error), [])
        else
          let '(r, slept) := retryLoop fn attempts delay (S i) togo (Some error) in
          (r, delay * 2 ^ Z.of_nat i :: slept)
    end.
Proof. reflexivity. Qed.

Lemma retryLoop_failure (err : nat -> E) : forall togo i last,
  (i + S togo = attempts)%nat ->
  (forall j, (j < attempts)%nat -> fn j = inl (err j)) ->
  retryLoop fn attempts delay i (S togo) last
  = (inl (Some (err (attempts - 1)%nat)),
     map (fun j => delay * 2 ^ Z.of_nat j) (seq i (attempts - 1 - i))).
Proof.
  induction togo as [|togo IH]; intros i last Hsum Hfail.
  - simpl. rewrite (Hfail i) by lia.
    destruct (Nat.eqb_spec i (attempts - 1)) as [Heq|Hne]; [|lia].
    rewrite <- Heq, Nat.sub_diag. reflexivity.
  - rewrite retryLoop_step. rewrite (Hfail i) by lia.
    destruct (Nat.eqb_spec i (attempts - 1)) as [Heq|_]; [lia|].
    rewrite (IH (S i) (Some (err i))) by (try lia; assumption).
    replace (attempts - 1 - i)%nat with (S (attempts - 1 - S i)) by lia. reflexivity.
Qed.

Lemma backoff_total k :
  fold_right Z.add 0 (map (fun j => delay * 2 ^ Z.of_nat j) (seq 0 k))
  = delay * (2 ^ Z.of_nat k - 1).
Proof.
  induction k as [|k IH]; [simpl; lia|].
  rewrite seq_S, map_app, fold_right_app. cbn [map fold_right Nat.add].
  assert (Hacc : forall l acc, fold_right Z.add acc l = fold_right Z.add 0 l + acc).
  { induction l as [|x l IHl]; intros acc; simpl; [lia|]. rewrite IHl. lia. }
  rewrite Hacc, IH, Nat2Z.inj_succ, Z.pow_succ_r by lia. lia.
Qed.

(** X28: [retry] calls [fn] until a call succeeds or [attempts] calls have
    failed, sleeping [delay] times 2 to the power [i] after the [i]-th
    failure but not after the last one.  If the first success is call [k]
    it returns that value after sleeping [delay * (2^k - 1)] in all; if
    every call fails it throws the error of the last call; with 0 attempts
    it calls nothing and throws [undefined]. *)
Theorem retry_outcome :
  (forall k a,
      (k < attempts)%nat -> fn k = inr a ->
      (forall j, (j < k)%nat -> exists e, fn j = inl e) ->
      retry fn attempts delay
      = (inr a, map (fun j => delay * 2 ^ Z.of_nat j) (seq 0 k))
      /\ fold_right Z.add 0 (snd (retry fn attempts delay))
         = delay * (2 ^ Z.of_nat k - 1))
  /\ (forall err : nat -> E,
        (forall j, (j < attempts)%nat -> fn j = inl (err j)) ->
        retry fn attempts delay
        = (match attempts with
           | O => inl None
           | S n => inl (Some (err n))
           end,
           map (fun j => delay * 2 ^ Z.of_nat j) (seq 0 (attempts - 1)))).
Proof.
  split.
  - intros k a Hk Ha Hfail. unfold retry.
    rewrite (retryLoop_success a k attempts 0 None) by
      (try lia; try assumption; intros; apply Hfail; lia).
    rewrite Nat.sub_0_r. split; [reflexivity|]. apply backoff_total.
  - intros err Hfail. unfold retry.
    assert (H : forall t, t = attempts ->
              retryLoop fn attempts delay 0 t None
              = (match t with
                 | O => inl None
                 | S n => inl (Some (err n))
                 end,
                 map (fun j => delay * 2 ^ Z.of_nat j) (seq 0 (t - 1)))).
    { intros [|t] Ht; [reflexivity|].
      rewrite (retryLoop_failure err t 0 None) by (try lia; assumption).
      rewrite <- Ht. replace (S t - 1 - 0)%nat with t by lia.
      replace (S t - 1)%nat with t by lia. reflexivity. }
    exact (H attempts eq_refl).
Qed.

End RetryProps.

(** *** Log levels *)

(** X29: with a configured level that is one of the four names, errors are
    always logged and a message logged at one configured level is logged at
    every more verbose one; the default level ["info"] logs everything but
    debug messages.  With any other configured level nothing is logged, not
    even errors. *)
Theorem shouldLog_levels :
  (forall current level, LOG_LEVELS current = None -> shouldLog current level = false)
  /\ (forall current, is_Some (LOG_LEVELS current) -> shouldLog current "error" = true)
  /\ (shouldLog "info" "error" = true /\ shouldLog "info" "warn" = true
      /\ shouldLog "info" "info" = true /\ shouldLog "info" "debug" = false)
  /\ (forall c1 c2 a b level,
        LOG_LEVELS c1 = Some a -> LOG_LEVELS c2 = Some b -> a <= b ->
        shouldLog c1 level = true -> shouldLog c2 level = true).
Proof.
  split; [|split; [|split]].
  - intros current level Hc. unfold shouldLog. rewrite Hc.
    destruct (LOG_LEVELS level); reflexivity.
  - intros current [b Hb]. unfold shouldLog. rewrite Hb.
    change (LOG_LEVELS "error") with (Some 0).
    unfold LOG_LEVELS in Hb.
    repeat match type of Hb with
           | (if ?c then _ else _) = _ => destruct c
           end; try discriminate; injection Hb as <-; reflexivity.
  - repeat split.
  - intros c1 c2 a b level H1 H2 Hab. unfold shouldLog. rewrite H1, H2.
    destruct (LOG_LEVELS level) as [l|]; [|discriminate].
    intros H. apply Z.leb_le in H. apply Z.leb_le. lia.
Qed.

End HelpersProps.
